(** * librinoo: the buffer module, the address helpers and the socket I/O contract

    A shallow embedding of [src/memory/buffer.c] and of the declarations of
    [socket.h], with the properties the specification states about them.

    Conventions.  The C code is read under the LP64 data model of the Linux
    targets of the library: [size_t] is 64 bits wide, [int] and
    [unsigned int] are 32 bits wide.  Machine integers are values of [Z];
    every place where the C arithmetic wraps or converts is written out with
    [to_size_t], [to_uint] and [to_int].  A byte is a [Z] in [0, 256). *)

From Stdlib Require Import String Ascii.
From Stdlib Require Import ZArith List Bool Lia.
Import ListNotations.
Open Scope Z_scope.
Open Scope list_scope.

(** ** Machine integers *)

Definition SIZE_MAX : Z := 2 ^ 64 - 1.
Definition PTRDIFF_MAX : Z := 2 ^ 63 - 1.
Definition INT_MAX : Z := 2 ^ 31 - 1.

(** Arithmetic on [size_t] is modulo [2^64]. *)
Definition to_size_t (z : Z) : Z := z mod 2 ^ 64.

(** Arithmetic on [unsigned int] is modulo [2^32]. *)
Definition to_uint (z : Z) : Z := z mod 2 ^ 32.

(** Conversion to [int]: the value is reduced modulo [2^32] into
    [-2^31, 2^31), as gcc and clang define it. *)
Definition to_int (z : Z) : Z := (z + 2 ^ 31) mod 2 ^ 32 - 2 ^ 31.

(** ** Outcomes of C code

    An access outside the object a pointer designates has no defined
    behaviour; the embedding makes it an outcome of its own instead of
    inventing a value.  [OutOfFuel] is the outcome of a loop whose embedding
    is cut off after a given number of rounds. *)

Inductive result (A : Type) : Type :=
| Ok (a : A)
| Undefined
| OutOfFuel.

Arguments Ok {A} a.
Arguments Undefined {A}.
Arguments OutOfFuel {A}.

Definition bind {A B : Type} (m : result A) (k : A -> result B) : result B :=
  match m with
  | Ok a => k a
  | Undefined => Undefined
  | OutOfFuel => OutOfFuel
  end.

Notation "x <- m ;; k" := (bind m (fun x => k))
  (at level 61, m at next level, right associativity).
Notation "' p <- m ;; k" := (bind m (fun x => let p := x in k))
  (at level 61, p pattern, m at next level, right associativity).

(** ** Memory

    A pointer is [NULL] ([None]) or designates an object, given by its bytes
    ([Some m]; the length of [m] is the size of the allocation).  The
    functions of [<string.h>] are defined when the accessed range lies inside
    the objects; a call with length 0 touches nothing and is taken as a
    no-op, as every libc implements it. *)

Abbreviation mem := (list Z) (only parsing).

Definition memcpy (dest : option mem) (off : Z) (src : list Z) (n : Z)
  : result (option mem) :=
  if n =? 0 then Ok dest
  else match dest with
       | None => Undefined
       | Some m =>
           if (0 <=? off) && (0 <=? n) && (off + n <=? Z.of_nat (length m))
              && (n <=? Z.of_nat (length src))
           then Ok (Some (firstn (Z.to_nat off) m ++ firstn (Z.to_nat n) src
                            ++ skipn (Z.to_nat (off + n)) m))
           else Undefined
       end.

(** [p[i]] *)
Definition load (p : option mem) (i : Z) : result Z :=
  match p with
  | None => Undefined
  | Some m =>
      if (0 <=? i) && (i <? Z.of_nat (length m))
      then Ok (nth (Z.to_nat i) m 0)
      else Undefined
  end.

(** The bytes a pointer designates ([NULL] designates none). *)
Definition bytes_at (p : option mem) : list Z :=
  match p with
  | None => []
  | Some m => m
  end.

(** Lexicographic comparison of two byte strings of equal length: the
    difference of the first pair of bytes that differ, 0 when there is none. *)
Fixpoint memcmp_bytes (l1 l2 : list Z) : Z :=
  match l1, l2 with
  | x :: l1', y :: l2' => if x =? y then memcmp_bytes l1' l2' else x - y
  | _, _ => 0
  end.

Definition memcmp (p1 p2 : option mem) (n : Z) : result Z :=
  if n =? 0 then Ok 0
  else if (0 <=? n) && (n <=? Z.of_nat (length (bytes_at p1)))
          && (n <=? Z.of_nat (length (bytes_at p2)))
  then Ok (memcmp_bytes (firstn (Z.to_nat n) (bytes_at p1))
                        (firstn (Z.to_nat n) (bytes_at p2)))
  else Undefined.

(** ** Buffers and buffer classes

    The two structures are declared in [buffer.h], which is not among the
    sources; their fields are the ones [buffer.c] reads and writes, with
    the types it uses them at.  [buffer->class] is a pointer to a class
    structure.  The program has the
    two classes of [buffer.c] and the classes of the embedder; a class
    pointer names one of them and [deref] gives the structure behind it.
    The callbacks of a class receive the buffer; they are taken as functions
    of it which leave the buffer structure itself alone, as the helpers of
    the default class do. *)

Inductive class_ptr : Type :=
| default_class_ptr
| static_class_ptr
| user_class_ptr (id : nat).

Record rn_buffer_t : Type := mk_buffer {
  ptr : option mem;
  size : Z;
  msize : Z;
  class : class_ptr
}.

Record rn_buffer_class_t : Type := mk_class {
  inisize : Z;
  maxsize : Z;
  init : option (rn_buffer_t -> Z);
  growthsize : option (rn_buffer_t -> Z -> Z);
  malloc : option (rn_buffer_t -> Z -> option mem);
  realloc : option (rn_buffer_t -> Z -> option mem);
  free : option (rn_buffer_t -> Z)
}.

Definition set_ptr (b : rn_buffer_t) (p : option mem) : rn_buffer_t :=
  mk_buffer p (size b) (msize b) (class b).
Definition set_size (b : rn_buffer_t) (n : Z) : rn_buffer_t :=
  mk_buffer (ptr b) n (msize b) (class b).
Definition set_msize (b : rn_buffer_t) (n : Z) : rn_buffer_t :=
  mk_buffer (ptr b) (size b) n (class b).
Definition set_class (b : rn_buffer_t) (c : class_ptr) : rn_buffer_t :=
  mk_buffer (ptr b) (size b) (msize b) c.

(** Modelled from the spec: the accessors of [buffer.h], which is not among
    the sources; the buffer "exposes [size], [ptr]". *)
Definition rn_buffer_size (b : rn_buffer_t) : Z := size b.
Definition rn_buffer_ptr (b : rn_buffer_t) : option mem := ptr b.

(** The bytes a buffer holds: the first [size] bytes behind [ptr]. *)
Definition contents (b : rn_buffer_t) : list Z :=
  firstn (Z.to_nat (size b)) (bytes_at (ptr b)).

Definition static_class : rn_buffer_class_t :=
  {| inisize := 0;
     maxsize := 0;
     init := None;
     growthsize := None;
     malloc := None;
     realloc := None;
     free := None |}.

(** The helpers of the default class and their two constants are defined in
    the helper file of the memory module, which is not among the sources;
    the classes of the embedder are whatever the embedder defines; [strtol]
    and the allocator are the C library's.  They are the parameters of the
    development: [strtol text base] gives the value and the number of bytes
    consumed; [calloc_structure] and [malloc_structure] say whether the
    [calloc] of the buffer structure in [rn_buffer_create] and the [malloc]
    of the buffer structure in [rn_buffer_dup_class] return an object
    ([true]) or [NULL] ([false]). *)
Class Externals : Type := {
  RN_BUFFER_HELPER_INISIZE : Z;
  RN_BUFFER_HELPER_MAXSIZE : Z;
  rn_buffer_helper_growthsize : rn_buffer_t -> Z -> Z;
  rn_buffer_helper_malloc : rn_buffer_t -> Z -> option mem;
  rn_buffer_helper_realloc : rn_buffer_t -> Z -> option mem;
  rn_buffer_helper_free : rn_buffer_t -> Z;
  user_class : nat -> rn_buffer_class_t;
  strtol : list Z -> Z -> Z * Z;
  calloc_structure : bool;
  malloc_structure : bool
}.

Section BufferOps.

Context {X : Externals}.

Definition default_class : rn_buffer_class_t :=
  {| inisize := RN_BUFFER_HELPER_INISIZE;
     maxsize := RN_BUFFER_HELPER_MAXSIZE;
     init := None;
     growthsize := Some rn_buffer_helper_growthsize;
     malloc := Some rn_buffer_helper_malloc;
     realloc := Some rn_buffer_helper_realloc;
     free := Some rn_buffer_helper_free |}.

Definition deref (c : class_ptr) : rn_buffer_class_t :=
  match c with
  | default_class_ptr => default_class
  | static_class_ptr => static_class
  | user_class_ptr id => user_class id
  end.

(** [rn_buffer_static]: wraps [len] bytes of memory the buffer does not own. *)
Definition rn_buffer_static (p : option mem) (len : Z) : rn_buffer_t :=
  {| ptr := p; size := len; msize := 0; class := static_class_ptr |}.

(** [rn_buffer_init]: uses a memory segment of [len] bytes, initially empty. *)
Definition rn_buffer_init (p : option mem) (len : Z) : rn_buffer_t :=
  {| ptr := p; size := 0; msize := len; class := static_class_ptr |}.

(** [rn_buffer_create]; [None] is the [NULL] result.  The structure comes
    from [calloc], all fields zero. *)
Definition rn_buffer_create (c : option class_ptr) : option rn_buffer_t :=
  if negb calloc_structure then None
  else
    let c := match c with Some c => c | None => default_class_ptr end in
    let buffer := {| ptr := None; size := 0; msize := inisize (deref c);
                     class := c |} in
    if match init (deref c) with
       | Some f => negb (f buffer =? 0)
       | None => false
       end
    then None
    else match malloc (deref c) with
         | Some f =>
             match f buffer (inisize (deref c)) with
             | None => None
             | Some p => Some (set_ptr buffer (Some p))
             end
         | None => Some buffer
         end.

(** [rn_buffer_destroy]: the status it returns. *)
Definition rn_buffer_destroy (buffer : rn_buffer_t) : Z :=
  match ptr buffer, free (deref (class buffer)) with
  | Some _, Some f => if negb (f buffer =? 0) then -1 else 0
  | _, _ => 0
  end.

(** [rn_buffer_extend]: the status and the buffer afterwards. *)
Definition rn_buffer_extend (buffer : rn_buffer_t) (len : Z)
  : Z * rn_buffer_t :=
  match growthsize (deref (class buffer)), realloc (deref (class buffer)) with
  | Some grow, Some re =>
      let m := grow buffer len in
      if m <? len then (-1, buffer)
      else match re buffer m with
           | None => (-1, buffer)
           | Some p => (0, set_msize (set_ptr buffer (Some p)) m)
           end
  | _, _ => (-1, buffer)
  end.

(** [rn_buffer_add (buffer, data, len)]: the [int] it returns and the buffer
    afterwards. *)
Definition rn_buffer_add (buffer : rn_buffer_t) (data : list Z) (len : Z)
  : result (Z * rn_buffer_t) :=
  let '(r, buffer) :=
    if to_size_t (len + size buffer) >? msize buffer
    then rn_buffer_extend buffer (to_size_t (len + size buffer))
    else (0, buffer) in
  if r <? 0 then Ok (-1, buffer)
  else
    p <- memcpy (ptr buffer) (size buffer) data len ;;
    Ok (to_int len, set_size (set_ptr buffer p) (to_size_t (size buffer + len))).

(** [strlen]: the index of the first null byte of the object. *)
Fixpoint strlen (str : list Z) : result Z :=
  match str with
  | [] => Undefined
  | c :: str' => if c =? 0 then Ok 0 else n <- strlen str' ;; Ok (n + 1)
  end.

(** [rn_buffer_addstr] *)
Definition rn_buffer_addstr (buffer : rn_buffer_t) (str : list Z)
  : result (Z * rn_buffer_t) :=
  n <- strlen str ;;
  rn_buffer_add buffer str n.

(** [rn_buffer_addnull]: the status and the buffer afterwards. *)
Definition rn_buffer_addnull (buffer : rn_buffer_t)
  : result (Z * rn_buffer_t) :=
  missing <- (if size buffer =? 0 then Ok true
              else c <- load (ptr buffer) (to_size_t (size buffer - 1)) ;;
                   Ok (negb (c =? 0))) ;;
  if missing : bool
  then '(r, buffer) <- rn_buffer_add buffer [0] 1 ;;
       if r <? 0 then Ok (-1, buffer) else Ok (0, buffer)
  else Ok (0, buffer).

(** [rn_buffer_erase]; [memmove] copies as if through a temporary, which is
    what [memcpy] from a list of bytes does. *)
Definition rn_buffer_erase (buffer : rn_buffer_t) (len : Z)
  : result (Z * rn_buffer_t) :=
  match ptr buffer with
  | None => Ok (-1, buffer)
  | Some m =>
      if (len =? 0) || (len >=? size buffer)
      then Ok (0, set_size buffer 0)
      else
        p <- memcpy (ptr buffer) 0 (skipn (Z.to_nat len) m)
                    (to_size_t (size buffer - len)) ;;
        Ok (0, set_size (set_ptr buffer p) (to_size_t (size buffer - len)))
  end.

(** [rn_buffer_dup_class]; [None] is the [NULL] result. *)
Definition rn_buffer_dup_class (buffer : rn_buffer_t) (c : class_ptr)
  : result (option rn_buffer_t) :=
  match malloc (deref c) with
  | None => Ok None
  | Some alloc =>
      if negb malloc_structure then Ok None
      else
        let newbuffer := buffer in
        let newbuffer :=
          if msize newbuffer =? 0 then set_msize newbuffer (size buffer)
          else newbuffer in
        let newbuffer := set_class newbuffer c in
        if match init (deref c) with
           | Some f => negb (f newbuffer =? 0)
           | None => false
           end
        then Ok None
        else match alloc newbuffer (msize newbuffer) with
             | None => Ok None
             | Some p =>
                 p' <- memcpy (Some p) 0 (bytes_at (ptr buffer))
                              (size buffer) ;;
                 Ok (Some (set_ptr newbuffer p'))
             end
  end.

(** [rn_buffer_dup] *)
Definition rn_buffer_dup (buffer : rn_buffer_t) : result (option rn_buffer_t) :=
  rn_buffer_dup_class buffer (class buffer).

(** [rn_buffer_cmp] *)
Definition rn_buffer_cmp (buffer1 buffer2 : rn_buffer_t) : result Z :=
  let min := if rn_buffer_size buffer1 <? rn_buffer_size buffer2
             then rn_buffer_size buffer1 else rn_buffer_size buffer2 in
  ret <- memcmp (rn_buffer_ptr buffer1) (rn_buffer_ptr buffer2) min ;;
  if ret =? 0
  then Ok (to_int (to_size_t (rn_buffer_size buffer1 - rn_buffer_size buffer2)))
  else Ok ret.

(** [rn_buffer_tolong (buffer, len, base)]: the value returned, what is
    stored through [len] (nothing on the early return) and the caller's
    buffer afterwards.  [workbuf != buffer] holds exactly when the copy was
    made, that is when [buffer->msize == 0] on entry. *)
Definition rn_buffer_tolong (buffer : rn_buffer_t) (base : Z)
  : result (Z * option Z * rn_buffer_t) :=
  w <- (if msize buffer =? 0
        then rn_buffer_dup_class buffer default_class_ptr
        else Ok (Some buffer)) ;;
  match w with
  | None => Ok (0, None, buffer)
  | Some workbuf =>
      '(r, workbuf) <- rn_buffer_addnull workbuf ;;
      let '(res, consumed) :=
        if r =? 0 then strtol (bytes_at (ptr workbuf)) base else (0, 0) in
      if msize buffer =? 0
      then (* rn_buffer_destroy (workbuf) *)
        Ok (res, Some consumed, buffer)
      else (* Removing null byte *)
        Ok (res, Some consumed, set_size workbuf (to_size_t (size workbuf - 1)))
  end.

(** [rn_buffer_tostr]: the pointer returned and the buffer afterwards. *)
Definition rn_buffer_tostr (buffer : rn_buffer_t)
  : result (option mem * rn_buffer_t) :=
  '(r, buffer) <- rn_buffer_addnull buffer ;;
  if negb (r =? 0) then Ok (None, buffer) else Ok (ptr buffer, buffer).

(** *** [rn_buffer_b64encode] *)

Definition bytes_of_string (s : string) : list Z :=
  map (fun c => Z.of_N (N_of_ascii c)) (list_ascii_of_string s).

Definition b64 : list Z :=
  bytes_of_string
    "ABCDEFGHIJKLMNOPQRSTUVWXYZabcdefghijklmnopqrstuvwxyz0123456789+/"%string.

(** [(bits << 8) + byte], on an [unsigned int]. *)
Definition next_bits (bits byte : Z) : Z := to_uint (Z.shiftl bits 8 + byte).

(** [(bits << 6 >> shift) & 0x3f], on an [unsigned int]. *)
Definition b64_index (bits shift : Z) : Z :=
  Z.land (Z.shiftr (to_uint (Z.shiftl bits 6)) shift) 63.

(** [b64[index]] *)
Definition b64_char (index : Z) : Z := nth (Z.to_nat index) b64 0.

(** The [do ... while] of the encoder: what [shift] is afterwards, and the
    destination.  [shift] decreases by 6 in every round and a further round
    needs [shift > 0], so that [S (Z.to_nat shift)] rounds of fuel are never
    used up ([b64_do_fuel] below).  A shift count outside [0, 32) is not
    defined on a 32-bit operand. *)
Fixpoint b64_do (fuel : nat) (bits shift : Z) (last : bool)
  (dst : rn_buffer_t) : result (Z * rn_buffer_t) :=
  match fuel with
  | O => OutOfFuel
  | S fuel' =>
      if (0 <=? shift) && (shift <? 32)
      then
        let cur := b64_char (b64_index bits shift) in
        '(_, dst) <- rn_buffer_add dst [cur] 1 ;;
        let shift := shift - 6 in
        if (shift >? 6) || (last && (shift >? 0))
        then b64_do fuel' bits shift last dst
        else Ok (shift, dst)
      else Undefined
  end.

(** The [for] loop: [todo] is the number of rounds left,
    [rn_buffer_size (src) - i]. *)
Fixpoint b64_for (todo : nat) (i bits shift : Z) (dst src : rn_buffer_t)
  : result rn_buffer_t :=
  match todo with
  | O => Ok dst
  | S todo' =>
      c <- load (rn_buffer_ptr src) i ;;
      let bits := next_bits bits c in
      let shift := shift + 8 in
      '(shift, dst) <-
        b64_do (S (Z.to_nat shift)) bits shift
               (i =? to_size_t (rn_buffer_size src - 1)) dst ;;
      b64_for todo' (i + 1) bits shift dst src
  end.

(** The padding loop, [while (rn_buffer_size (dst) & 3)]: it has no bound of
    its own, since [rn_buffer_add] may fail and leave the size as it is. *)
Fixpoint b64_pad (fuel : nat) (dst : rn_buffer_t) : result rn_buffer_t :=
  match fuel with
  | O => OutOfFuel
  | S fuel' =>
      if Z.land (rn_buffer_size dst) 3 =? 0 then Ok dst
      else '(_, dst) <- rn_buffer_add dst (bytes_of_string "="%string) 1 ;;
           b64_pad fuel' dst
  end.

(** [rn_buffer_b64encode (dst, src)], for two distinct buffers; [fuel]
    bounds the rounds of the padding loop. *)
Definition rn_buffer_b64encode (fuel : nat) (dst src : rn_buffer_t)
  : result (Z * rn_buffer_t) :=
  dst <- b64_for (Z.to_nat (rn_buffer_size src)) 0 0 0 dst src ;;
  dst <- b64_pad fuel dst ;;
  Ok (0, dst).

End BufferOps.

(** ** Well-formed buffers and allocator contracts *)

(** The values of an [unsigned char]. *)
Definition is_byte (c : Z) : Prop := 0 <= c < 256.


(** The fields of a buffer describe the object behind [ptr]: [size] and
    [msize] bytes of it exist, and no object is larger than [PTRDIFF_MAX]. *)
Definition buffer_wf (b : rn_buffer_t) : Prop :=
  0 <= size b <= Z.of_nat (length (bytes_at (ptr b))) /\
  0 <= msize b <= Z.of_nat (length (bytes_at (ptr b))) /\
  Z.of_nat (length (bytes_at (ptr b))) <= PTRDIFF_MAX.

(** What the C library promises of [realloc], asked of the [realloc] of a
    class: the new object begins with the bytes the buffer holds. *)
Definition realloc_keeps (c : rn_buffer_class_t) : Prop :=
  forall re b n p,
    realloc c = Some re -> re b n = Some p -> size b <= n ->
    firstn (Z.to_nat (size b)) p = contents b.

(** The class behind [c] serves every request of at most [N] bytes: the
    policy grants it, and [realloc] returns an object of the granted size
    which begins with the bytes the buffer holds. *)
Definition grows_to {X : Externals} (c : class_ptr) (N : Z) : Prop :=
  exists grow re,
    growthsize (deref c) = Some grow /\ realloc (deref c) = Some re /\
    forall b n, class b = c -> buffer_wf b -> size b <= n <= N ->
      n <= grow b n /\
      exists p, re b (grow b n) = Some p /\
                grow b n <= Z.of_nat (length p) <= PTRDIFF_MAX /\
                firstn (Z.to_nat (size b)) p = contents b.

(** The buffer can take appends up to a total of [N] bytes: the room is
    there already, or its class grows that far. *)
Definition room_for {X : Externals} (N : Z) (b : rn_buffer_t) : Prop :=
  buffer_wf b /\ N <= PTRDIFF_MAX /\
  (N <= msize b \/ grows_to (class b) N).

(** ** A default class to run the code on

    Modelled from the spec: the helpers of the default class, "default
    policy = geometric growth, cap at [maxsize]" ("double until cap"), with
    the allocator of the C library, which here never fails; fresh bytes are
    zero.  The two constants are sample values. *)

Definition resize (m : list Z) (n : Z) : list Z :=
  firstn (Z.to_nat n) m ++ repeat 0 (Z.to_nat n - length m)%nat.

Definition sample_inisize : Z := 8.
Definition sample_maxsize : Z := 4096.

Definition sample_growthsize (b : rn_buffer_t) (newsize : Z) : Z :=
  if to_size_t (newsize * 2) >=? sample_maxsize then sample_maxsize
  else to_size_t (newsize * 2).

Definition sample_malloc (b : rn_buffer_t) (n : Z) : option mem :=
  Some (repeat 0 (Z.to_nat n)).

Definition sample_realloc (b : rn_buffer_t) (n : Z) : option mem :=
  Some (resize (bytes_at (ptr b)) n).

Definition sample_free (b : rn_buffer_t) : Z := 0.

(** A [strtol] for decimal digits without sign or blanks, enough to run
    [rn_buffer_tolong] on. *)
Fixpoint sample_digits (acc : Z) (text : list Z) : Z * Z :=
  match text with
  | c :: text' =>
      if (48 <=? c) && (c <=? 57)
      then let '(v, n) := sample_digits (acc * 10 + (c - 48)) text' in
           (v, n + 1)
      else (acc, 0)
  | [] => (acc, 0)
  end.

Definition sample_strtol (text : list Z) (base : Z) : Z * Z :=
  sample_digits 0 text.

Definition sample_externals : Externals :=
  {| RN_BUFFER_HELPER_INISIZE := sample_inisize;
     RN_BUFFER_HELPER_MAXSIZE := sample_maxsize;
     rn_buffer_helper_growthsize := sample_growthsize;
     rn_buffer_helper_malloc := sample_malloc;
     rn_buffer_helper_realloc := sample_realloc;
     rn_buffer_helper_free := sample_free;
     user_class := fun _ => static_class;
     strtol := sample_strtol;
     calloc_structure := true;
     malloc_structure := true |}.

(** The same with a C library that has no memory left for a buffer
    structure. *)
Definition exhausted_externals : Externals :=
  {| RN_BUFFER_HELPER_INISIZE := sample_inisize;
     RN_BUFFER_HELPER_MAXSIZE := sample_maxsize;
     rn_buffer_helper_growthsize := sample_growthsize;
     rn_buffer_helper_malloc := sample_malloc;
     rn_buffer_helper_realloc := sample_realloc;
     rn_buffer_helper_free := sample_free;
     user_class := fun _ => static_class;
     strtol := sample_strtol;
     calloc_structure := false;
     malloc_structure := false |}.

(** A buffer of the default class holding [text] in [cap] bytes. *)
Definition sample_buffer (text : list Z) (cap : Z) : rn_buffer_t :=
  {| ptr := Some (resize text cap);
     size := Z.of_nat (length text);
     msize := cap;
     class := default_class_ptr |}.

(** ** Inputs the properties are run on *)

(** A memory segment of [4 GiB - 1] bytes handed to [rn_buffer_init], and
    as many bytes of data. *)
Definition segment_4g : rn_buffer_t :=
  rn_buffer_init (Some (repeat 0 (Z.to_nat 4294967295))) 4294967295.
Definition data_4g : list Z := repeat 97 (Z.to_nat 4294967295).

(** [4 GiB] of zero bytes wrapped by [rn_buffer_static]. *)
Definition static_4g : rn_buffer_t :=
  rn_buffer_static (Some (repeat 0 (Z.to_nat 4294967296))) 4294967296.

(** The text ["12"] with its terminating null byte, in a buffer of the
    default class with 8 bytes of storage. *)
Definition twelve_nul : rn_buffer_t := sample_buffer [49; 50; 0] 8.

(** A segment of 4 bytes used as destination, and six bytes to encode. *)
Definition segment_4 : rn_buffer_t := rn_buffer_init (Some (repeat 0 4%nat)) 4.
Definition segment_2 : rn_buffer_t := rn_buffer_init (Some (repeat 0 2%nat)) 2.
Definition static_text (s : string) : rn_buffer_t :=
  rn_buffer_static (Some (bytes_of_string s))
                   (Z.of_nat (List.length (bytes_of_string s))).

(** ** Base64, as RFC 4648 defines it

    The reference the encoder is compared with: the decoder of the
    standard, written from section 4 of the RFC, and the values of the
    6-bit groups of a byte string. *)

Fixpoint index_of (c : Z) (l : list Z) (i : Z) : option Z :=
  match l with
  | [] => None
  | x :: l' => if x =? c then Some i else index_of c l' (i + 1)
  end.

(** The value of a character of the alphabet. *)
Definition base64_value (c : Z) : option Z := index_of c b64 0.

Definition is_nil {A} (l : list A) : bool :=
  match l with [] => true | _ => false end.

(** Four characters give three bytes; the last group may end in one or
    two ["="] (code 61) and then gives two bytes or one. *)
Fixpoint base64_decode (text : list Z) : option (list Z) :=
  match text with
  | [] => Some []
  | c0 :: c1 :: c2 :: c3 :: rest =>
      match base64_value c0, base64_value c1 with
      | Some v0, Some v1 =>
          let b0 := v0 * 4 + v1 / 16 in
          if c2 =? 61
          then if (c3 =? 61) && is_nil rest then Some [b0] else None
          else
            match base64_value c2 with
            | None => None
            | Some v2 =>
                let b1 := (v1 mod 16) * 16 + v2 / 4 in
                if c3 =? 61
                then if is_nil rest then Some [b0; b1] else None
                else
                  match base64_value c3, base64_decode rest with
                  | Some v3, Some tl =>
                      Some (b0 :: b1 :: ((v2 mod 4) * 64 + v3) :: tl)
                  | _, _ => None
                  end
            end
      | _, _ => None
      end
  | _ => None
  end.

(** The 6-bit groups of a byte string, most significant bits first, the
    last group filled with zero bits: [groups0] at a multiple of three
    bytes, [groups1 p] and [groups2 p] one and two bytes further, with the
    bits [p] that are left over. *)
Fixpoint groups0 (l : list Z) : list Z :=
  match l with
  | [] => []
  | c :: l' => c / 4 :: groups1 (c mod 4) l'
  end
with groups1 (p : Z) (l : list Z) : list Z :=
  match l with
  | [] => [p * 16]
  | c :: l' => p * 16 + c / 16 :: groups2 (c mod 16) l'
  end
with groups2 (p : Z) (l : list Z) : list Z :=
  match l with
  | [] => [p * 4]
  | c :: l' => p * 4 + c / 64 :: c mod 64 :: groups0 l'
  end.

(** The padding that fills a text of [n] characters up to a multiple of
    four. *)
Definition base64_padding (n : Z) : list Z :=
  repeat 61 (Z.to_nat ((- n) mod 4)).

(** ** The characters the loops of the encoder emit

    The two loops of [rn_buffer_b64encode] without the buffer: the indexes
    into [b64] they compute, in order. *)

Fixpoint do_indexes (fuel : nat) (bits shift : Z) (last : bool)
  : Z * list Z :=
  match fuel with
  | O => (shift, [])
  | S fuel' =>
      let index := b64_index bits shift in
      let shift := shift - 6 in
      if (shift >? 6) || (last && (shift >? 0))
      then let '(s, l) := do_indexes fuel' bits shift last in (s, index :: l)
      else (shift, [index])
  end.

Fixpoint for_indexes (bits shift : Z) (l : list Z) : list Z :=
  match l with
  | [] => []
  | c :: l' =>
      let bits := next_bits bits c in
      let shift := shift + 8 in
      let '(shift, out) :=
        do_indexes (S (Z.to_nat shift)) bits shift (is_nil l') in
      out ++ for_indexes bits shift l'
  end.

(** ** Addresses ([socket.h])

    [rn_addr_t] is a union of [struct sockaddr], [struct sockaddr_in] and
    [struct sockaddr_in6]: one object, read through three layouts.  It is
    the list of its bytes.  The layouts are those of the system headers of
    Linux: the family is a 16-bit field at offset 0, and both [sin_port] and
    [sin6_port] are 16-bit fields at offset 2, in which the constructors
    store the port in network byte order (most significant byte first).  A
    16-bit field is read in the byte order of the host. *)

Inductive byte_order : Type := little_endian | big_endian.

Definition AF_INET : Z := 2.
Definition AF_INET6 : Z := 10.

Definition rn_addr_t : Type := list Z.

(** The 16-bit value of two bytes in memory, and the two bytes of a 16-bit
    value. *)
Definition u16_of_bytes (host : byte_order) (b0 b1 : Z) : Z :=
  match host with
  | little_endian => b0 + 256 * b1
  | big_endian => 256 * b0 + b1
  end.

Definition bytes_of_u16 (host : byte_order) (v : Z) : list Z :=
  match host with
  | little_endian => [v mod 256; v / 256]
  | big_endian => [v / 256; v mod 256]
  end.

Definition field16 (host : byte_order) (addr : rn_addr_t) (off : nat) : Z :=
  u16_of_bytes host (nth off addr 0) (nth (S off) addr 0).

(** [addr->sa.sa_family], [addr->v4.sin_port], [addr->v6.sin6_port] *)
Definition sa_family (host : byte_order) (addr : rn_addr_t) : Z :=
  field16 host addr 0.
Definition v4_sin_port (host : byte_order) (addr : rn_addr_t) : Z :=
  field16 host addr 2.
Definition v6_sin6_port (host : byte_order) (addr : rn_addr_t) : Z :=
  field16 host addr 2.

Definition IS_IPV4 (host : byte_order) (addr : rn_addr_t) : bool :=
  sa_family host addr =? AF_INET.
Definition IS_IPV6 (host : byte_order) (addr : rn_addr_t) : bool :=
  sa_family host addr =? AF_INET6.

Definition rn_addr_getport (host : byte_order) (addr : rn_addr_t) : Z :=
  if IS_IPV4 host addr then v4_sin_port host addr
  else v6_sin6_port host addr.

(** [htons] and [ntohs] of the C library. *)
Definition htons (host : byte_order) (v : Z) : Z :=
  match host with
  | little_endian => v mod 256 * 256 + v / 256
  | big_endian => v
  end.
Definition ntohs (host : byte_order) (v : Z) : Z := htons host v.

(** An IPv4 address [127.0.0.1] with port 80, as the bytes of a
    [struct sockaddr_in] on a little-endian host, and an IPv6 address [::1]
    with port 8080. *)
Definition sample_addr4 : rn_addr_t :=
  [2; 0; 0; 80; 127; 0; 0; 1] ++ repeat 0 20%nat.
Definition sample_addr6 : rn_addr_t :=
  [10; 0; 31; 144; 0; 0; 0; 0] ++ repeat 0 15%nat ++ [1; 0; 0; 0; 0].

(** ** Sockets ([socket.h]) *)

Definition MAX_IO_CALLS : Z := 10.

(** Modelled from the spec: [rn_sched_node_t], whose declaration is not
    among the sources; of "a node with an owning Scheduler, an optional
    owner Task [...]" the file descriptor and the owner task are kept. *)
Record rn_sched_node_t : Type := {
  fd : Z;
  owner : option nat
}.

(** [rn_socket_t]; [parent] and [class] are pointers, given by the number
    of the socket or class they point to. *)
Record rn_socket_t : Type := {
  io_calls : Z;
  node : rn_sched_node_t;
  parent : option nat;
  socket_class : nat
}.

Definition set_io_calls (s : rn_socket_t) (n : Z) : rn_socket_t :=
  {| io_calls := n; node := node s; parent := parent s;
     socket_class := socket_class s |}.

(** *** The suspension protocol

    Modelled from the spec: the retry of a socket operation on an
    [io-ready] wakeup; the functions that implement it ([socket.c] and the
    socket classes) are not among the sources.  "io-ready: retry the
    syscall, incrementing [io_calls].  If [io_calls] reaches [MAX_IO_CALLS]
    [...] without completing a byte of progress, yield once to the tail of
    the run queue and reset the counter", read "per logical op, resetting
    on successful byte transfer".  The state is the socket and the run
    queue of its scheduler; [task] is the task that runs the operation. *)
Record io_state : Type := {
  sock : rn_socket_t;
  run_queue : list nat
}.

Definition io_retry (task : nat) (progress : bool) (st : io_state)
  : io_state :=
  let calls := io_calls (sock st) + 1 in
  if progress
  then {| sock := set_io_calls (sock st) 0; run_queue := run_queue st |}
  else if calls >=? MAX_IO_CALLS
       then {| sock := set_io_calls (sock st) 0;
               run_queue := run_queue st ++ [task] |}
       else {| sock := set_io_calls (sock st) calls;
               run_queue := run_queue st |}.

(** A logical operation: its retries in order, each with or without
    progress. *)
Definition io_retries (task : nat) (trace : list bool) (st : io_state)
  : io_state :=
  fold_left (fun st progress => io_retry task progress st) trace st.

Definition sample_socket : rn_socket_t :=
  {| io_calls := 9; node := {| fd := 3; owner := Some 1%nat |};
     parent := None; socket_class := 0%nat |}.

(** ** The rest of [buffer.c] *)

(** Conversion to [char], which is signed on the targets of the library:
    the value is reduced modulo [2^8] into [-128, 128). *)
Definition to_char (z : Z) : Z := (z + 128) mod 256 - 128.

(** [tolower] of the C library in the "C" locale, on the values of an
    [unsigned char]. *)
Definition tolower (c : Z) : Z :=
  if (65 <=? c) && (c <=? 90) then c + 32 else c.

(** [strncasecmp] of the C library in the "C" locale: at most [n] bytes are
    compared, up to and including the first null byte; the result is the
    difference of the first pair of bytes that differ once in lower case. *)
Fixpoint strncasecmp (s1 s2 : list Z) (n : nat) : result Z :=
  match n with
  | O => Ok 0
  | S n' =>
      match s1, s2 with
      | c1 :: s1', c2 :: s2' =>
          if negb (tolower c1 =? tolower c2)
          then Ok (tolower c1 - tolower c2)
          else if c1 =? 0 then Ok 0
          else strncasecmp s1' s2' n'
      | _, _ => Undefined
      end
  end.

(** [vsnprintf (str, size, format, ap)], with [dest + off] for [str] and
    [cap] for [size]; [text] is what the format and its arguments produce.
    At most [cap - 1] bytes of it and a null byte are stored (nothing when
    [cap] is 0), and the length of the whole text is returned; a text longer
    than [INT_MAX] is an error, -1, with nothing stored. *)
Definition vsnprintf (dest : option mem) (off cap : Z) (text : list Z)
  : result (option mem * Z) :=
  let len := Z.of_nat (length text) in
  if len >? INT_MAX then Ok (dest, -1)
  else if cap =? 0 then Ok (dest, len)
  else
    let k := Z.min len (cap - 1) in
    p <- memcpy dest off (firstn (Z.to_nat k) text ++ [0]) (k + 1) ;;
    Ok (p, len).

(** The [switch] of [rn_buffer_casecmp], on the two characters. *)
Definition casecmp_switch (c1 c2 : Z) : Z * Z :=
  if (97 <=? c1) && (c1 <=? 122)
  then (c1, if (65 <=? c2) && (c2 <=? 90) then to_char (c2 + (97 - 65))
            else c2)
  else if (65 <=? c1) && (c1 <=? 90)
  then (if (97 <=? c2) && (c2 <=? 122) then to_char (c1 + (97 - 65))
        else c1, c2)
  else (c1, c2).

(** The [for] loop of [rn_buffer_casecmp]: the value of the [return] in
    its body, if it is reached. *)
Fixpoint casecmp_for (todo : nat) (i : Z) (buffer1 buffer2 : rn_buffer_t)
  : result (option Z) :=
  match todo with
  | O => Ok None
  | S todo' =>
      c1 <- load (rn_buffer_ptr buffer1) i ;;
      c2 <- load (rn_buffer_ptr buffer2) i ;;
      let '(c1, c2) := casecmp_switch (to_char c1) (to_char c2) in
      if negb (c1 =? c2) then Ok (Some (c1 - c2))
      else casecmp_for todo' (i + 1) buffer1 buffer2
  end.

(** [rn_buffer_casecmp] *)
Definition rn_buffer_casecmp (buffer1 buffer2 : rn_buffer_t) : result Z :=
  let min := if rn_buffer_size buffer1 <? rn_buffer_size buffer2
             then rn_buffer_size buffer1 else rn_buffer_size buffer2 in
  r <- casecmp_for (Z.to_nat min) 0 buffer1 buffer2 ;;
  match r with
  | Some d => Ok d
  | None =>
      Ok (to_int (to_size_t (rn_buffer_size buffer1 - rn_buffer_size buffer2)))
  end.

(** The [for] loop of [rn_buffer_strcmp], which has no body: the value of
    [i] when it ends; [todo] is [rn_buffer_size (buffer) - i]. *)
Fixpoint strcmp_for (todo : nat) (i : Z) (buffer : rn_buffer_t)
  (str : list Z) : result Z :=
  match todo with
  | O => Ok i
  | S todo' =>
      s <- load (Some str) i ;;
      if s =? 0 then Ok i
      else
        c <- load (rn_buffer_ptr buffer) i ;;
        if c =? s then strcmp_for todo' (i + 1) buffer str else Ok i
  end.

(** [rn_buffer_strcmp (buffer, str)]; [str] is the object the pointer
    designates, null byte included. *)
Definition rn_buffer_strcmp (buffer : rn_buffer_t) (str : list Z)
  : result Z :=
  i <- strcmp_for (Z.to_nat (rn_buffer_size buffer)) 0 buffer str ;;
  if i >=? rn_buffer_size buffer
  then s <- load (Some str) i ;; Ok (- to_char s)
  else
    c <- load (rn_buffer_ptr buffer) i ;;
    s <- load (Some str) i ;;
    Ok (to_char c - to_char s).

(** [rn_buffer_strncmp] *)
Definition rn_buffer_strncmp (buffer : rn_buffer_t) (str : list Z) (len : Z)
  : result Z :=
  let min := if rn_buffer_size buffer <? len then rn_buffer_size buffer
             else len in
  ret <- memcmp (rn_buffer_ptr buffer) (Some str) min ;;
  if (ret =? 0) && (rn_buffer_size buffer <? len)
  then Ok (to_int (to_size_t (rn_buffer_size buffer - len)))
  else Ok ret.

(** [rn_buffer_strcasecmp] *)
Definition rn_buffer_strcasecmp (buffer : rn_buffer_t) (str : list Z)
  : result Z :=
  len <- strlen str ;;
  let min := if rn_buffer_size buffer <? len then rn_buffer_size buffer
             else len in
  ret <- strncasecmp (bytes_at (rn_buffer_ptr buffer)) str (Z.to_nat min) ;;
  if ret =? 0
  then Ok (to_int (to_size_t (rn_buffer_size buffer - len)))
  else Ok ret.

(** [rn_buffer_strncasecmp] *)
Definition rn_buffer_strncasecmp (buffer : rn_buffer_t) (str : list Z)
  (len : Z) : result Z :=
  let min := if rn_buffer_size buffer <? len then rn_buffer_size buffer
             else len in
  ret <- strncasecmp (bytes_at (rn_buffer_ptr buffer)) str (Z.to_nat min) ;;
  if (ret =? 0) && (rn_buffer_size buffer <? len)
  then Ok (to_int (to_size_t (rn_buffer_size buffer - len)))
  else Ok ret.

Section BufferMore.

Context {X : Externals}.

(** The loop of [rn_buffer_vprint], up to the addition to [size]: the
    result of the last [vsnprintf] and the buffer. *)
Fixpoint vprint_while (fuel : nat) (buffer : rn_buffer_t) (text : list Z)
  : result (Z * rn_buffer_t) :=
  match fuel with
  | O => OutOfFuel
  | S fuel' =>
      '(p, res) <- vsnprintf (ptr buffer) (size buffer)
                     (to_size_t (msize buffer - size buffer)) text ;;
      let buffer := set_ptr buffer p in
      if to_uint res >=? to_size_t (msize buffer - size buffer)
      then
        let '(r, buffer') :=
          rn_buffer_extend buffer (to_size_t (size buffer + res + 1)) in
        if r =? 0 then vprint_while fuel' buffer' text
        else Ok (res, buffer)
      else Ok (res, buffer)
  end.

(** [rn_buffer_vprint (buffer, format, ap)]; [text] is what the format and
    its arguments produce, [fuel] bounds the rounds of the loop. *)
Definition rn_buffer_vprint (fuel : nat) (buffer : rn_buffer_t)
  (text : list Z) : result (Z * rn_buffer_t) :=
  '(res, buffer) <- vprint_while fuel buffer text ;;
  Ok (res, set_size buffer (to_size_t (size buffer + res))).

(** [rn_buffer_print] hands its arguments to [rn_buffer_vprint]. *)
Definition rn_buffer_print (fuel : nat) (buffer : rn_buffer_t)
  (text : list Z) : result (Z * rn_buffer_t) :=
  rn_buffer_vprint fuel buffer text.




End BufferMore.

(** What the C library promises of [malloc], asked of the [malloc] of a
    class: the object has the size that was asked for. *)
Definition malloc_sized (c : rn_buffer_class_t) : Prop :=
  forall alloc b n p,
    malloc c = Some alloc -> alloc b n = Some p -> 0 <= n ->
    Z.of_nat (length p) = n.

(** The text of a C string: the bytes before its first null byte. *)
Fixpoint cstring (l : list Z) : list Z :=
  match l with
  | [] => []
  | c :: l' => if c =? 0 then [] else c :: cstring l'
  end.

(** A class of the embedder that allocates on the first write: no
    [malloc], the policy and [realloc] of the sample class. *)
Definition lazy_class : rn_buffer_class_t :=
  {| inisize := 0;
     maxsize := sample_maxsize;
     init := None;
     growthsize := Some sample_growthsize;
     malloc := None;
     realloc := Some sample_realloc;
     free := Some sample_free |}.

Definition lazy_externals : Externals :=
  {| RN_BUFFER_HELPER_INISIZE := sample_inisize;
     RN_BUFFER_HELPER_MAXSIZE := sample_maxsize;
     rn_buffer_helper_growthsize := sample_growthsize;
     rn_buffer_helper_malloc := sample_malloc;
     rn_buffer_helper_realloc := sample_realloc;
     rn_buffer_helper_free := sample_free;
     user_class := fun _ => lazy_class;
     strtol := sample_strtol;
     calloc_structure := true;
     malloc_structure := true |}.

(** The same promise of [realloc], asked for well-formed buffers only. *)
Definition realloc_preserves {X : Externals} (c : class_ptr) : Prop :=
  forall re b n p,
    realloc (deref c) = Some re -> class b = c -> buffer_wf b ->
    re b n = Some p -> size b <= n ->
    firstn (Z.to_nat (size b)) p = contents b.

(* ================================================================== *)
(** * Properties *)

(** ** Machine integers *)

Lemma to_size_t_id z : 0 <= z <= SIZE_MAX -> to_size_t z = z.
Proof.
  unfold to_size_t, SIZE_MAX. intros H. apply Z.mod_small. lia.
Qed.

Lemma to_int_id z : - 2 ^ 31 <= z <= INT_MAX -> to_int z = z.
Proof.
  unfold to_int, INT_MAX. intros H.
  rewrite Z.mod_small by lia. lia.
Qed.

Lemma to_int_range z : - 2 ^ 31 <= to_int z <= INT_MAX.
Proof.
  unfold to_int, INT_MAX.
  pose proof (Z.mod_pos_bound (z + 2 ^ 31) (2 ^ 32) ltac:(lia)). lia.
Qed.

(** ** [rn_buffer_extend] *)

Section ExtendFacts.

Context {X : Externals}.

Lemma rn_buffer_extend_status b n :
  fst (rn_buffer_extend b n) = 0 \/
  (fst (rn_buffer_extend b n) = -1 /\ snd (rn_buffer_extend b n) = b).
Proof.
  unfold rn_buffer_extend.
  destruct (growthsize (deref (class b))) as [grow|]; [|now right].
  destruct (realloc (deref (class b))) as [re|]; [|now right].
  destruct (grow b n <? n); [now right|].
  destruct (re b (grow b n)); [now left|now right].
Qed.

(** C4: for a buffer whose class provides [growthsize] and [realloc], a
    call of [rn_buffer_extend] that returns 0 leaves [msize] at the value
    the policy gave for the request, which is at least the request; when the
    policy gives less than the request the call returns -1 and the buffer is
    unchanged. *)
Theorem rn_buffer_extend_policy b n grow re r b' :
  growthsize (deref (class b)) = Some grow ->
  realloc (deref (class b)) = Some re ->
  rn_buffer_extend b n = (r, b') ->
  (r = 0 -> msize b' = grow b n /\ msize b' >= n) /\
  (grow b n < n -> r = -1 /\ b' = b).
Proof.
  intros Hg Hr. unfold rn_buffer_extend. rewrite Hg, Hr.
  destruct (Z.ltb_spec (grow b n) n) as [Hlt|Hge].
  - intros [= <- <-]. split; [discriminate|auto].
  - destruct (re b (grow b n)) as [p|]; intros [= <- <-].
    + split; [|lia]. intros _. cbn. split; [reflexivity|lia].
    + split; [discriminate|lia].
Qed.

End ExtendFacts.

Lemma rn_buffer_extend_policy_witness :
  let b := sample_buffer (bytes_of_string "abc") 4 in
  (msize (snd (@rn_buffer_extend sample_externals b 6)) = 12 /\
   msize (snd (@rn_buffer_extend sample_externals b 6)) >= 6) /\
  (fst (@rn_buffer_extend sample_externals b 5000) = -1 /\
   snd (@rn_buffer_extend sample_externals b 5000) = b).
Proof.
  intros b. split.
  - destruct (@rn_buffer_extend_policy sample_externals b 6
                sample_growthsize sample_realloc 0
                (snd (@rn_buffer_extend sample_externals b 6))
                eq_refl eq_refl eq_refl) as [H _].
    destruct (H eq_refl) as [Hm Hge]. split; [|exact Hge].
    rewrite Hm. reflexivity.
  - destruct (@rn_buffer_extend_policy sample_externals b 5000
                sample_growthsize sample_realloc
                (fst (@rn_buffer_extend sample_externals b 5000))
                (snd (@rn_buffer_extend sample_externals b 5000))
                eq_refl eq_refl eq_refl) as [_ H].
    apply H. reflexivity.
Defined.

(** ** Memory *)

Lemma firstn_app_exact {A} (l1 l2 l3 : list A) :
  firstn (length l1 + length l2) (l1 ++ l2 ++ l3) = l1 ++ l2.
Proof.
  rewrite app_assoc, <- length_app, firstn_app, firstn_all, Nat.sub_diag.
  cbn. now rewrite app_nil_r.
Qed.

Lemma memcpy_inv m off data n p :
  0 <= off -> n = Z.of_nat (length data) ->
  memcpy (Some m) off data n = Ok p ->
  off + n <= Z.of_nat (length m) \/ n = 0.
Proof.
  intros Hoff Hn. unfold memcpy.
  destruct (Z.eqb_spec n 0); [auto|].
  destruct (_ && _) eqn:E; [|discriminate].
  intros _. left.
  repeat (apply andb_prop in E; destruct E as [E ?]). lia.
Qed.

(** Inside the object, [memcpy] puts [data] at [off] and keeps the size of
    the object and what lies before [off]. *)
Lemma memcpy_in_bounds m off data n :
  0 <= off -> n = Z.of_nat (length data) ->
  off + n <= Z.of_nat (length m) ->
  exists m',
    memcpy (Some m) off data n = Ok (Some m') /\
    length m' = length m /\
    firstn (Z.to_nat (off + n)) m' = firstn (Z.to_nat off) m ++ data.
Proof.
  intros Hoff Hn Hin. unfold memcpy.
  destruct (Z.eqb_spec n 0) as [H0|H0].
  - exists m. split; [reflexivity|]. split; [reflexivity|].
    assert (data = []) by (destruct data; [reflexivity|cbn in Hn; lia]).
    subst data. rewrite app_nil_r. f_equal. lia.
  - replace ((0 <=? off) && (0 <=? n) && (off + n <=? Z.of_nat (length m))
             && (n <=? Z.of_nat (length data))) with true
      by (symmetry; repeat (apply andb_true_intro; split); lia).
    eexists. split; [reflexivity|].
    assert (Hd : firstn (Z.to_nat n) data = data)
      by (apply firstn_all2; lia).
    rewrite Hd.
    assert (Hl : length (firstn (Z.to_nat off) m) = Z.to_nat off)
      by (rewrite length_firstn; lia).
    split.
    + rewrite !length_app, Hl, length_skipn. lia.
    + replace (Z.to_nat (off + n))
        with (length (firstn (Z.to_nat off) m) + length data)%nat by lia.
      apply firstn_app_exact.
Qed.

(** ** [rn_buffer_add] *)

Section AddFacts.

Context {X : Externals}.

(** The two ways out of [rn_buffer_add]: the growth that was needed failed
    and nothing was touched, or the bytes were copied behind the old
    contents of a buffer that is the old one or its extension. *)
Lemma rn_buffer_add_inv b data n ret b' :
  rn_buffer_add b data n = Ok (ret, b') ->
  (ret = -1 /\ b' = b /\
   to_size_t (n + size b) > msize b /\
   fst (rn_buffer_extend b (to_size_t (n + size b))) = -1) \/
  (exists b1 p,
     (b1 = b /\ to_size_t (n + size b) <= msize b \/
      rn_buffer_extend b (to_size_t (n + size b)) = (0, b1)) /\
     memcpy (ptr b1) (size b) data n = Ok p /\
     size b1 = size b /\
     ret = to_int n /\
     b' = set_size (set_ptr b1 p) (to_size_t (size b + n))).
Proof.
  unfold rn_buffer_add.
  destruct (Z.gtb_spec (to_size_t (n + size b)) (msize b)) as [Hgt|Hle].
  - destruct (rn_buffer_extend_status b (to_size_t (n + size b)))
      as [H0|[H1 Hb]];
      destruct (rn_buffer_extend b (to_size_t (n + size b))) as [r b1] eqn:E;
      cbn in *; subst r.
    + cbn. destruct (memcpy (ptr b1) (size b1) data n) as [p| |] eqn:Em;
        cbn; [|discriminate|discriminate].
      intros [= <- <-]. right. exists b1, p.
      assert (Hs : size b1 = size b).
      { revert E. unfold rn_buffer_extend.
        destruct (growthsize _); [|discriminate].
        destruct (realloc _); [|discriminate].
        destruct (_ <? _); [discriminate|].
        destruct (o _ _); [|discriminate]. now intros [= <-]. }
      rewrite Hs in *. auto 10.
    + cbn. intros [= <- <-]. left. subst b1. repeat split; lia.
  - cbn. destruct (memcpy (ptr b) (size b) data n) as [p| |] eqn:Em;
      cbn; [|discriminate|discriminate].
    intros [= <- <-]. right. exists b, p. auto 10.
Qed.

Lemma rn_buffer_extend_ok b n b1 :
  rn_buffer_extend b n = (0, b1) ->
  exists grow re p,
    growthsize (deref (class b)) = Some grow /\
    realloc (deref (class b)) = Some re /\
    n <= grow b n /\ re b (grow b n) = Some p /\
    b1 = set_msize (set_ptr b (Some p)) (grow b n).
Proof.
  unfold rn_buffer_extend.
  destruct (growthsize _) as [grow|]; [|discriminate].
  destruct (realloc _) as [re|]; [|discriminate].
  destruct (Z.ltb_spec (grow b n) n); [discriminate|].
  destruct (re b (grow b n)) as [p|] eqn:E; [|discriminate].
  intros [= <-]. exists grow, re, p. auto.
Qed.

(** What the appended buffer holds, when the object behind [b1] begins with
    the old contents. *)
Lemma add_copied b b1 data n p :
  buffer_wf b -> n = Z.of_nat (length data) ->
  size b + n <= SIZE_MAX ->
  firstn (Z.to_nat (size b)) (bytes_at (ptr b1)) = contents b ->
  memcpy (ptr b1) (size b) data n = Ok p ->
  contents (set_size (set_ptr b1 p) (to_size_t (size b + n)))
  = contents b ++ data.
Proof.
  intros (Hs & Hm & Hp) Hn Hmax Hkeep Hcp.
  unfold contents at 1. cbn.
  rewrite to_size_t_id by lia.
  destruct (Z.eq_dec n 0) as [H0|H0].
  - assert (data = []) by (destruct data; [reflexivity|cbn in Hn; lia]).
    subst data. unfold memcpy in Hcp. rewrite H0 in Hcp. cbn in Hcp.
    injection Hcp as <-. rewrite app_nil_r, H0, Z.add_0_r. exact Hkeep.
  - destruct (ptr b1) as [m1|] eqn:E1; rewrite ?E1 in *.
    + destruct (memcpy_inv _ _ _ _ _ (proj1 Hs) Hn Hcp) as [Hin|]; [|lia].
      destruct (memcpy_in_bounds m1 (size b) data n (proj1 Hs) Hn Hin)
        as (m' & Hm' & _ & Hf).
      assert (p = Some m') as -> by congruence. cbn.
      rewrite Hf. cbn in Hkeep. now rewrite Hkeep.
    + unfold memcpy in Hcp. destruct (n =? 0) eqn:E; [lia|discriminate].
Qed.

(** The documented behaviour of [rn_buffer_add], for data whose length
    the [int] result can carry: a result [n] means the bytes were appended,
    a result -1 that nothing changed. *)
Lemma rn_buffer_add_spec b data n ret b' :
  buffer_wf b -> realloc_keeps (deref (class b)) ->
  n = Z.of_nat (length data) ->
  rn_buffer_add b data n = Ok (ret, b') ->
  (ret = n -> contents b' = contents b ++ data /\ size b' = size b + n) /\
  (n <= INT_MAX -> ret = -1 -> b' = b).
Proof.
  intros Hwf Hre Hn Hadd.
  pose proof Hwf as (Hs & Hm & Hp).
  destruct (rn_buffer_add_inv _ _ _ _ _ Hadd)
    as [(-> & -> & _)|(b1 & p & Hb1 & Hcp & Hs1 & -> & ->)].
  - split; [lia|auto].
  - split.
    + intros Hret. pose proof (to_int_range n) as Hr. rewrite Hret in Hr.
      unfold INT_MAX, PTRDIFF_MAX, SIZE_MAX in *.
      split.
      * apply add_copied; auto; [unfold SIZE_MAX; lia|].
        destruct Hb1 as [[-> _]|Hext]; [reflexivity|].
        destruct (rn_buffer_extend_ok _ _ _ Hext)
          as (grow & re & q & Hg & Hr' & Hge & Hq & ->).
        cbn. apply (Hre re b (grow b (to_size_t (n + size b))) q Hr' Hq).
        rewrite to_size_t_id in Hge |- * by (unfold SIZE_MAX; lia). lia.
      * cbn. apply to_size_t_id. unfold SIZE_MAX. lia.
    + intros Hle Hret. rewrite to_int_id in Hret by (unfold INT_MAX in *; lia).
      lia.
Qed.

End AddFacts.

Section RoomFacts.

Context {X : Externals}.

(** With room for it, an append succeeds: the result is the length as an
    [int], the bytes are behind the old contents, and the room stays. *)
Lemma rn_buffer_add_room N b data n :
  room_for N b -> n = Z.of_nat (length data) -> size b + n <= N ->
  exists b',
    rn_buffer_add b data n = Ok (to_int n, b') /\
    contents b' = contents b ++ data /\
    size b' = size b + n /\
    class b' = class b /\
    room_for N b'.
Proof.
  intros (Hwf & HN & Hroom) Hn Hle.
  pose proof Hwf as (Hs & Hm & Hp).
  assert (Hreq : to_size_t (n + size b) = size b + n)
    by (rewrite to_size_t_id; unfold SIZE_MAX, PTRDIFF_MAX in *; lia).
  assert (Hb1 : exists b1,
             (let '(r, b0) :=
                if to_size_t (n + size b) >? msize b
                then rn_buffer_extend b (to_size_t (n + size b))
                else (0, b) in
              (r, b0)) = (0, b1) /\
             size b1 = size b /\ class b1 = class b /\
             firstn (Z.to_nat (size b)) (bytes_at (ptr b1)) = contents b /\
             size b + n <= Z.of_nat (length (bytes_at (ptr b1))) /\
             buffer_wf b1 /\
             (N <= msize b1 \/ grows_to (class b1) N)).
  { rewrite Hreq.
    destruct (Z.gtb_spec (size b + n) (msize b)) as [Hgt|Hfit].
    - destruct Hroom as [Hr|Hr]; [lia|].
      pose proof Hr as (grow & re & Hg & Hre & Hserve).
      destruct (Hserve b (size b + n) eq_refl Hwf ltac:(lia))
        as (Hge & p & Hp' & Hlen & Hkeep).
      exists (set_msize (set_ptr b (Some p)) (grow b (size b + n))).
      unfold rn_buffer_extend. rewrite Hg, Hre.
      destruct (Z.ltb_spec (grow b (size b + n)) (size b + n)); [lia|].
      rewrite Hp'. unfold PTRDIFF_MAX in *. cbn.
      repeat split; cbn; auto; try lia.
    - exists b. repeat split; cbn; auto; try lia. }
  destruct Hb1 as (b1 & Hstep & Hs1 & Hc1 & Hkeep & Hin & Hwf1 & Hroom1).
  assert (Hcp : exists p,
             memcpy (ptr b1) (size b) data n = Ok p /\
             length (bytes_at p) = length (bytes_at (ptr b1))).
  { destruct (ptr b1) as [m1|] eqn:E1.
    - destruct (memcpy_in_bounds m1 (size b) data n (proj1 Hs) Hn Hin)
        as (m' & Hm' & Hl & _).
      exists (Some m'). auto.
    - cbn in Hin. assert (n = 0) as -> by lia.
      exists None. auto. }
  destruct Hcp as (p & Hcp & Hlen).
  exists (set_size (set_ptr b1 p) (to_size_t (size b + n))).
  split.
  { unfold rn_buffer_add.
    destruct (if to_size_t (n + size b) >? msize b
              then rn_buffer_extend b (to_size_t (n + size b))
              else (0, b)) as [r b0].
    injection Hstep as -> ->. cbn. rewrite Hs1, Hcp. reflexivity. }
  split.
  { apply add_copied; auto. unfold SIZE_MAX, PTRDIFF_MAX in *. lia. }
  cbn. rewrite to_size_t_id by (unfold SIZE_MAX, PTRDIFF_MAX in *; lia).
  split; [reflexivity|]. split; [exact Hc1|].
  destruct Hwf1 as (_ & Hm1 & Hp1).
  split; [|split; [exact HN|exact Hroom1]].
  unfold buffer_wf, PTRDIFF_MAX in *. cbn. rewrite Hlen. lia.
Qed.

End RoomFacts.

(** ** The [int] results of [rn_buffer_add] and [rn_buffer_cmp] *)

Lemma segment_room k :
  0 <= k <= PTRDIFF_MAX ->
  forall X : Externals,
    room_for k (rn_buffer_init (Some (repeat 0 (Z.to_nat k))) k).
Proof.
  intros Hk X. unfold room_for, buffer_wf, rn_buffer_init. cbn [ptr size msize bytes_at].
  rewrite repeat_length, Z2Nat.id by lia. lia.
Qed.

Lemma segment_add k c (X : Externals) :
  0 <= k <= PTRDIFF_MAX ->
  exists b',
    rn_buffer_add (rn_buffer_init (Some (repeat 0 (Z.to_nat k))) k)
                  (repeat c (Z.to_nat k)) k = Ok (to_int k, b') /\
    size b' = k /\ contents b' = repeat c (Z.to_nat k).
Proof.
  intros Hk.
  destruct (rn_buffer_add_room k _ (repeat c (Z.to_nat k)) k
              (segment_room k Hk X))
    as (b' & Hadd & Hc & Hs & _).
  - rewrite repeat_length, Z2Nat.id; lia.
  - cbn [rn_buffer_init size]. lia.
  - exists b'. split; [exact Hadd|]. split; [exact Hs|exact Hc].
Qed.

(** C1, at 4 GiB - 1 bytes of data appended to an empty segment of that
    size: the bytes are appended (the size goes from 0 to 4294967295) and
    the value returned is -1, the [int] that [size] converts to. *)
Theorem rn_buffer_add_returns_minus_one_on_success :
  forall X : Externals,
  exists b',
    rn_buffer_add segment_4g data_4g 4294967295 = Ok (-1, b') /\
    size segment_4g = 0 /\
    size b' = 4294967295 /\
    contents b' = data_4g.
Proof.
  intros X.
  destruct (segment_add 4294967295 97 X) as (b' & Hadd & Hs & Hc).
  - unfold PTRDIFF_MAX. lia.
  - exists b'. split; [exact Hadd|]. split; [reflexivity|].
    split; [exact Hs|exact Hc].
Qed.

(** ** [rn_buffer_cmp] *)

Lemma memcmp_bytes_zero l1 l2 :
  length l1 = length l2 -> (memcmp_bytes l1 l2 = 0 <-> l1 = l2).
Proof.
  revert l2. induction l1 as [|x l1 IH]; intros [|y l2] Hlen;
    try discriminate; cbn.
  - tauto.
  - injection Hlen as Hlen.
    destruct (Z.eqb_spec x y) as [->|Hne].
    + rewrite (IH l2 Hlen). split; [now intros ->|now intros [= ->]].
    + split; [lia|]. intros [= Hxy _]. contradiction.
Qed.

(** The difference of two sizes survives the conversion to [int] as zero
    or not zero as long as it is smaller than [2^32]. *)
Lemma size_diff_int d :
  - 2 ^ 32 < d < 2 ^ 32 -> (to_int (to_size_t d) = 0 <-> d = 0).
Proof.
  unfold to_int, to_size_t. intros Hd. split.
  - intros H. Z.to_euclidean_division_equations. lia.
  - intros ->. reflexivity.
Qed.

(** On well-formed buffers [rn_buffer_cmp] is defined, and for sizes less
    than [2^32] apart it returns 0 exactly for equal sizes and contents. *)
Lemma rn_buffer_cmp_zero_iff b1 b2 :
  buffer_wf b1 -> buffer_wf b2 ->
  - 2 ^ 32 < size b1 - size b2 < 2 ^ 32 ->
  exists r,
    rn_buffer_cmp b1 b2 = Ok r /\
    (r = 0 <-> size b1 = size b2 /\ contents b1 = contents b2).
Proof.
  intros (Hs1 & _ & _) (Hs2 & _ & _) Hd.
  unfold rn_buffer_cmp, rn_buffer_size, rn_buffer_ptr, memcmp.
  set (min := if size b1 <? size b2 then size b1 else size b2).
  assert (Hmin : 0 <= min <= size b1 /\ min <= size b2 /\
                 (min = size b1 \/ min = size b2))
    by (unfold min; destruct (Z.ltb_spec (size b1) (size b2)); lia).
  assert (Hlen : forall b, min <= size b ->
                   size b <= Z.of_nat (length (bytes_at (ptr b))) ->
                   length (firstn (Z.to_nat min) (bytes_at (ptr b)))
                   = Z.to_nat min)
    by (intros b ? ?; rewrite length_firstn; lia).
  destruct (Z.eqb_spec min 0) as [H0|H0]; cbn.
  - eexists. split; [reflexivity|].
    rewrite size_diff_int by lia. unfold contents.
    split; [intros H|intros [H _]; lia].
    split; [lia|]. replace (size b1) with 0 by lia.
    replace (size b2) with 0 by lia. reflexivity.
  - replace ((0 <=? min) && (min <=? Z.of_nat (length (bytes_at (ptr b1))))
             && (min <=? Z.of_nat (length (bytes_at (ptr b2))))) with true
      by (symmetry; repeat (apply andb_true_intro; split); lia).
    cbn.
    pose proof (memcmp_bytes_zero
                  (firstn (Z.to_nat min) (bytes_at (ptr b1)))
                  (firstn (Z.to_nat min) (bytes_at (ptr b2)))) as Hz.
    rewrite !Hlen in Hz by lia. specialize (Hz eq_refl).
    destruct (Z.eqb_spec (memcmp_bytes
                (firstn (Z.to_nat min) (bytes_at (ptr b1)))
                (firstn (Z.to_nat min) (bytes_at (ptr b2)))) 0) as [He|He].
    + eexists. split; [reflexivity|].
      rewrite size_diff_int by lia. apply Hz in He. unfold contents.
      split; [intros H|intros [H _]; lia].
      split; [lia|]. replace (size b1) with min by lia.
      replace (size b2) with min by lia. exact He.
    + eexists. split; [reflexivity|].
      split; [contradiction|]. intros [Hs Hc]. exfalso. apply He, Hz.
      unfold contents in Hc. replace min with (size b1) by lia.
      rewrite Hs at 2. exact Hc.
Qed.

Lemma rn_buffer_cmp_refl b : buffer_wf b -> rn_buffer_cmp b b = Ok 0.
Proof.
  intros Hwf.
  destruct (rn_buffer_cmp_zero_iff b b Hwf Hwf ltac:(lia)) as (r & Hr & Hz).
  rewrite Hr. f_equal. apply Hz. auto.
Qed.

(** C10, at a buffer of 4 GiB of zero bytes and an empty buffer (a fresh
    segment of 4 bytes): [rn_buffer_cmp] returns 0, the [int] that the
    difference of the two sizes converts to, and the sizes (so the
    contents) are not equal. *)
Theorem rn_buffer_cmp_zero_on_different_sizes :
  rn_buffer_cmp static_4g segment_4 = Ok 0 /\
  size static_4g <> size segment_4 /\
  contents static_4g <> contents segment_4.
Proof.
  split; [reflexivity|]. split; [discriminate|].
  intros H. apply (f_equal (@length Z)) in H. revert H.
  unfold contents, static_4g, segment_4, rn_buffer_static, rn_buffer_init.
  cbn [ptr size bytes_at].
  rewrite firstn_all2 by (rewrite repeat_length; lia).
  rewrite repeat_length.
  change (Z.to_nat 0) with O. cbn [firstn length]. lia.
Qed.

(** ** [rn_buffer_addnull] *)

Section AddnullFacts.

Context {X : Externals}.

(** After a copy of one byte at [off], that byte is read back at [off]. *)
Lemma memcpy_then_load p off c p' :
  0 <= off -> memcpy p off [c] 1 = Ok p' -> load p' off = Ok c.
Proof.
  intros Hoff Hcp. destruct p as [m|]; [|discriminate].
  destruct (memcpy_inv m off [c] 1 p' Hoff eq_refl Hcp) as [Hin|]; [|lia].
  destruct (memcpy_in_bounds m off [c] 1 Hoff eq_refl Hin)
    as (m' & Hm' & Hl & Hf).
  assert (p' = Some m') as -> by congruence.
  unfold load.
  replace ((0 <=? off) && (off <? Z.of_nat (length m'))) with true
    by (symmetry; apply andb_true_intro; split; lia).
  f_equal.
  assert (Hn : nth (Z.to_nat off) (firstn (Z.to_nat (off + 1)) m') 0 = c).
  { rewrite Hf, app_nth2; rewrite length_firstn; [|lia].
    replace (Z.to_nat off - Nat.min (Z.to_nat off) (length m))%nat with O
      by lia.
    reflexivity. }
  rewrite <- Hn, nth_firstn.
  destruct (Nat.ltb_spec (Z.to_nat off) (Z.to_nat (off + 1))); [reflexivity|lia].
Qed.

(** A buffer that ends in a null byte is left alone. *)
Lemma rn_buffer_addnull_present b :
  0 < size b <= SIZE_MAX -> load (ptr b) (size b - 1) = Ok 0 ->
  rn_buffer_addnull b = Ok (0, b).
Proof.
  intros Hs Hl. unfold rn_buffer_addnull.
  destruct (Z.eqb_spec (size b) 0); [lia|].
  rewrite to_size_t_id by lia. rewrite Hl. reflexivity.
Qed.

(** C9: [rn_buffer_addnull] is idempotent: after a successful call the
    buffer is not empty and its last byte is a null byte, and a second call
    right after returns 0 and leaves the buffer as it is. *)
Theorem rn_buffer_addnull_idempotent b b' :
  buffer_wf b ->
  rn_buffer_addnull b = Ok (0, b') ->
  0 < size b' /\
  load (ptr b') (size b' - 1) = Ok 0 /\
  rn_buffer_addnull b' = Ok (0, b').
Proof.
  intros (Hs & _ & Hp) Hnull.
  assert (Hlast : 0 < size b' <= SIZE_MAX /\
                  load (ptr b') (size b' - 1) = Ok 0).
  { revert Hnull. unfold rn_buffer_addnull, SIZE_MAX, PTRDIFF_MAX in *.
    assert (Hmiss : forall missing : bool,
      (if missing
       then '(r, buffer) <- rn_buffer_add b [0] 1 ;;
            if r <? 0 then Ok (-1, buffer) else Ok (0, buffer)
       else Ok (0, b)) = Ok (0, b') ->
      (missing = false -> 0 < size b /\ load (ptr b) (size b - 1) = Ok 0) ->
      0 < size b' <= 2 ^ 64 - 1 /\ load (ptr b') (size b' - 1) = Ok 0).
    { intros [|] Hres Hno.
      - destruct (rn_buffer_add b [0] 1) as [[r b1]| |] eqn:Eadd;
          cbn in Hres; try discriminate.
        destruct (Z.ltb_spec r 0); [discriminate|].
        injection Hres as <-.
        destruct (rn_buffer_add_inv _ _ _ _ _ Eadd)
          as [(-> & _)|(b2 & p & _ & Hcp & _ & _ & ->)]; [lia|].
        cbn. rewrite to_size_t_id by (unfold SIZE_MAX; lia).
        split; [lia|].
        replace (size b + 1 - 1) with (size b) by lia.
        apply (memcpy_then_load _ _ _ _ (proj1 Hs) Hcp).
      - injection Hres as <-. destruct (Hno eq_refl). split; [lia|auto]. }
    destruct (Z.eqb_spec (size b) 0) as [H0|H0]; cbn.
    - intros H. apply (Hmiss true H). discriminate.
    - rewrite to_size_t_id by (unfold SIZE_MAX; lia).
      destruct (load (ptr b) (size b - 1)) as [c| |] eqn:El; cbn;
        try discriminate.
      intros H. apply (Hmiss _ H).
      destruct (Z.eqb_spec c 0) as [->|]; [|discriminate].
      intros _. split; [lia|reflexivity]. }
  destruct Hlast as [Hpos Hl].
  split; [lia|]. split; [exact Hl|].
  now apply rn_buffer_addnull_present.
Qed.

End AddnullFacts.

(** ** [rn_buffer_tolong] *)

Section TolongFacts.

Context {X : Externals}.

(** When a null byte has to be appended and there is room for it,
    [rn_buffer_tolong] takes it away again: size and contents are as
    before. *)
Lemma rn_buffer_tolong_restores b base :
  room_for (size b + 1) b -> 0 < msize b ->
  (size b = 0 \/ exists c, load (ptr b) (size b - 1) = Ok c /\ c <> 0) ->
  exists res len b',
    rn_buffer_tolong b base = Ok (res, len, b') /\
    size b' = size b /\ contents b' = contents b.
Proof.
  intros Hroom Hm Hlast.
  pose proof Hroom as ((Hs & _ & Hp) & _).
  destruct (rn_buffer_add_room (size b + 1) b [0] 1 Hroom eq_refl ltac:(lia))
    as (b1 & Hadd & Hc & Hs1 & _).
  unfold rn_buffer_tolong.
  destruct (Z.eqb_spec (msize b) 0); [lia|]. cbn.
  assert (Hnull : rn_buffer_addnull b = Ok (0, b1)).
  { unfold rn_buffer_addnull.
    destruct (Z.eqb_spec (size b) 0) as [H0|H0]; cbn.
    - rewrite Hadd. reflexivity.
    - destruct Hlast as [|(c & Hl & Hc0)]; [lia|].
      rewrite to_size_t_id by (unfold SIZE_MAX, PTRDIFF_MAX in *; lia).
      rewrite Hl. cbn. destruct (Z.eqb_spec c 0); [lia|]. cbn.
      rewrite Hadd. reflexivity. }
  rewrite Hnull. cbn.
  destruct (strtol (bytes_at (ptr b1)) base) as [res consumed].
  exists res, (Some consumed), (set_size b1 (to_size_t (size b1 - 1))).
  split; [reflexivity|].
  rewrite Hs1, to_size_t_id by (unfold SIZE_MAX, PTRDIFF_MAX in *; lia).
  replace (size b + 1 - 1) with (size b) by lia.
  split; [reflexivity|].
  unfold contents in *. cbn.
  replace (firstn (Z.to_nat (size b)) (bytes_at (ptr b1)))
    with (firstn (Z.to_nat (size b))
            (firstn (Z.to_nat (size b1)) (bytes_at (ptr b1))))
    by (rewrite firstn_firstn; f_equal; lia).
  rewrite Hc, firstn_app, firstn_firstn, Nat.min_id.
  rewrite length_firstn.
  replace (Z.to_nat (size b)
           - Nat.min (Z.to_nat (size b)) (length (bytes_at (ptr b))))%nat
    with O by lia.
  cbn. apply app_nil_r.
Qed.

(** C8, at the text ["12"] followed by a null byte in 8 bytes of storage:
    [rn_buffer_addnull] finds the null byte and appends nothing, and the
    decrement that is to take the appended byte away removes the last byte
    of the buffer: the size goes from 3 to 2. *)
Theorem rn_buffer_tolong_drops_null_byte :
  forall base,
  exists res len b',
    rn_buffer_tolong twelve_nul base = Ok (res, len, b') /\
    0 < msize twelve_nul /\
    size twelve_nul = 3 /\ contents twelve_nul = [49; 50; 0] /\
    size b' = 2 /\ contents b' = [49; 50].
Proof.
  intros base.
  assert (Hnull : rn_buffer_addnull twelve_nul = Ok (0, twelve_nul))
    by reflexivity.
  unfold rn_buffer_tolong.
  change (msize twelve_nul =? 0) with false. cbn [bind].
  rewrite Hnull. cbn [bind Z.eqb].
  destruct (strtol (bytes_at (ptr twelve_nul)) base) as [res consumed].
  exists res, (Some consumed). eexists. split; [reflexivity|].
  repeat split; reflexivity.
Qed.

(** The decrement also runs when the null byte could not be appended: a
    full segment of 2 bytes comes back with size 1. *)
Lemma rn_buffer_tolong_full_segment base :
  rn_buffer_tolong
    {| ptr := Some [49; 50]; size := 2; msize := 2;
       class := static_class_ptr |} base
  = Ok (0, Some 0,
        {| ptr := Some [49; 50]; size := 1; msize := 2;
           class := static_class_ptr |}).
Proof. reflexivity. Qed.

End TolongFacts.

(** ** Buffers of the static class *)

Section StaticFacts.

Context {X : Externals}.

(** [rn_buffer_static] and [rn_buffer_init] give the static class. *)
Lemma rn_buffer_static_class p n :
  class (rn_buffer_static p n) = static_class_ptr /\
  class (rn_buffer_init p n) = static_class_ptr.
Proof. split; reflexivity. Qed.

(** [rn_buffer_extend] always returns -1 on the static class. *)
Lemma rn_buffer_extend_static b n :
  class b = static_class_ptr -> rn_buffer_extend b n = (-1, b).
Proof.
  intros Hc. unfold rn_buffer_extend. rewrite Hc. reflexivity.
Qed.

(** An append that needs more than [msize] bytes fails and changes
    nothing. *)
Lemma rn_buffer_add_static_full b data n :
  class b = static_class_ptr -> to_size_t (n + size b) > msize b ->
  rn_buffer_add b data n = Ok (-1, b).
Proof.
  intros Hc Hgt. unfold rn_buffer_add.
  destruct (Z.gtb_spec (to_size_t (n + size b)) (msize b)); [|lia].
  rewrite rn_buffer_extend_static by exact Hc. reflexivity.
Qed.

(** An append leaves [msize], the class and the object behind [ptr] (its
    size) as they are. *)
Lemma rn_buffer_add_static_frame b data n r b' :
  class b = static_class_ptr -> 0 <= size b ->
  n = Z.of_nat (length data) ->
  rn_buffer_add b data n = Ok (r, b') ->
  msize b' = msize b /\ class b' = static_class_ptr /\
  length (bytes_at (ptr b')) = length (bytes_at (ptr b)).
Proof.
  intros Hc Hs Hn Hadd.
  destruct (rn_buffer_add_inv _ _ _ _ _ Hadd)
    as [(_ & -> & _)|(b1 & p & Hb1 & Hcp & _ & _ & ->)]; [auto|].
  destruct Hb1 as [[-> _]|Hext];
    [|rewrite rn_buffer_extend_static in Hext by exact Hc; discriminate].
  cbn. split; [reflexivity|]. split; [exact Hc|].
  destruct (Z.eq_dec n 0) as [->|Hn0].
  - cbn in Hcp. now injection Hcp as <-.
  - destruct (ptr b) as [m|];
      [|unfold memcpy in Hcp; destruct (n =? 0) eqn:E; [lia|discriminate]].
    destruct (memcpy_inv _ _ _ _ _ Hs Hn Hcp) as [Hin|]; [|lia].
    destruct (memcpy_in_bounds m (size b) data n Hs Hn Hin)
      as (m' & Hm' & Hl & _).
    assert (p = Some m') as -> by congruence. exact Hl.
Qed.

(** So do [rn_buffer_addnull], [rn_buffer_tostr] and [rn_buffer_erase]. *)
Lemma rn_buffer_addnull_static_frame b r b' :
  class b = static_class_ptr -> 0 <= size b ->
  rn_buffer_addnull b = Ok (r, b') ->
  msize b' = msize b /\ class b' = static_class_ptr /\
  length (bytes_at (ptr b')) = length (bytes_at (ptr b)).
Proof.
  intros Hc Hs. unfold rn_buffer_addnull.
  destruct (if size b =? 0 then Ok true
            else c <- load (ptr b) (to_size_t (size b - 1)) ;;
                 Ok (negb (c =? 0))) as [[|]| |]; cbn [bind];
    try discriminate.
  - destruct (rn_buffer_add b [0] 1) as [[r1 b1]| |] eqn:Eadd; cbn [bind];
      try discriminate.
    intros H.
    assert (b' = b1) as -> by (destruct (r1 <? 0); now injection H).
    apply (rn_buffer_add_static_frame b [0] 1 r1 b1 Hc Hs eq_refl Eadd).
  - intros [= _ <-]. auto.
Qed.

Lemma rn_buffer_tostr_static_frame b p b' :
  class b = static_class_ptr -> 0 <= size b ->
  rn_buffer_tostr b = Ok (p, b') ->
  msize b' = msize b /\ class b' = static_class_ptr /\
  length (bytes_at (ptr b')) = length (bytes_at (ptr b)).
Proof.
  intros Hc Hs. unfold rn_buffer_tostr.
  destruct (rn_buffer_addnull b) as [[r b1]| |] eqn:E; cbn [bind];
    try discriminate.
  intros H.
  assert (b' = b1) as -> by (destruct (negb (r =? 0)); now injection H).
  apply (rn_buffer_addnull_static_frame b r b1 Hc Hs E).
Qed.

Lemma rn_buffer_erase_static_frame b n r b' :
  class b = static_class_ptr -> buffer_wf b -> 0 <= n ->
  rn_buffer_erase b n = Ok (r, b') ->
  msize b' = msize b /\ class b' = static_class_ptr /\
  length (bytes_at (ptr b')) = length (bytes_at (ptr b)).
Proof.
  intros Hc (Hs & _ & Hp) Hn. unfold rn_buffer_erase.
  destruct (ptr b) as [m|] eqn:Ep; [|intros [= _ <-]; rewrite Ep; auto].
  destruct ((n =? 0) || (n >=? size b)) eqn:Eall.
  - intros [= _ <-]. cbn. rewrite Ep. auto.
  - apply orb_false_elim in Eall as [H0 Hlt].
    assert (Hk : to_size_t (size b - n) = size b - n)
      by (apply to_size_t_id; unfold SIZE_MAX, PTRDIFF_MAX in *; lia).
    rewrite Hk. cbn [bytes_at] in *.
    destruct (memcpy_in_bounds m 0 (firstn (Z.to_nat (size b - n))
                                      (skipn (Z.to_nat n) m)) (size b - n))
      as (m' & Hm' & Hl & _);
      [lia|rewrite length_firstn, length_skipn; lia|lia|].
    assert (Hcp : memcpy (Some m) 0 (skipn (Z.to_nat n) m) (size b - n)
                  = Ok (Some m')).
    { revert Hm'. unfold memcpy.
      destruct (size b - n =? 0); [auto|].
      rewrite length_firstn, length_skipn, firstn_firstn, Nat.min_id.
      replace (size b - n <=? Z.of_nat (length m - Z.to_nat n))
        with true by (symmetry; apply Z.leb_le; lia).
      replace (size b - n
               <=? Z.of_nat (Nat.min (Z.to_nat (size b - n))
                                     (length m - Z.to_nat n)))
        with true by (symmetry; apply Z.leb_le; lia).
      auto. }
    rewrite Hcp. cbn [bind]. intros [= _ <-]. cbn. auto.
Qed.

(** C3, at a segment of 4 bytes as destination and the six bytes
    ["abcdef"] as source: the encoding has 8 bytes, which is more than
    [msize]; [rn_buffer_b64encode] returns 0, the value it documents for
    success, with the first 4 bytes of the encoding in the destination. *)
Theorem rn_buffer_b64encode_ignores_failed_add :
  class segment_4 = static_class_ptr /\ msize segment_4 = 4 /\
  rn_buffer_b64encode 4 segment_4 (static_text "abcdef")
  = Ok (0, {| ptr := Some (bytes_of_string "YWJj"); size := 4; msize := 4;
              class := static_class_ptr |}).
Proof. repeat split. Qed.

(** With a destination of 2 bytes and one byte to encode, the padding loop
    does not end: the append of ["="] fails in every round and the size
    stays 2. *)
Lemma rn_buffer_b64encode_pad_forever fuel :
  rn_buffer_b64encode fuel segment_2 (static_text "a") = OutOfFuel.
Proof.
  unfold rn_buffer_b64encode.
  change (b64_for (Z.to_nat (rn_buffer_size (static_text "a"))) 0 0 0
            segment_2 (static_text "a"))
    with (Ok (mk_buffer (Some (bytes_of_string "YQ")) 2 2 static_class_ptr)).
  cbn [bind].
  assert (H : b64_pad fuel
                (mk_buffer (Some (bytes_of_string "YQ")) 2 2 static_class_ptr)
              = OutOfFuel).
  { induction fuel as [|fuel IH]; [reflexivity|].
    cbn [b64_pad]. change (Z.land _ 3 =? 0) with false. cbv iota.
    rewrite rn_buffer_add_static_full by (reflexivity || (cbn; lia)).
    exact IH. }
  rewrite H. reflexivity.
Qed.

End StaticFacts.

(** ** The encoder without the buffer: the 6-bit groups *)

Lemma b64_index_arith bits shift :
  0 <= shift ->
  b64_index bits shift = (((bits * 2 ^ 6) mod 2 ^ 32) / 2 ^ shift) mod 2 ^ 6.
Proof.
  intros Hs. unfold b64_index, to_uint.
  change 63 with (Z.ones 6).
  rewrite Z.land_ones, Z.shiftr_div_pow2, Z.shiftl_mul_pow2 by lia.
  reflexivity.
Qed.

Lemma next_bits_arith bits c :
  next_bits bits c = (bits * 2 ^ 8 + c) mod 2 ^ 32.
Proof.
  unfold next_bits, to_uint. now rewrite Z.shiftl_mul_pow2 by lia.
Qed.

Ltac bits_arith :=
  rewrite ?b64_index_arith, ?next_bits_arith by lia;
  change (2 ^ 32) with 4294967296; change (2 ^ 6) with 64;
  change (2 ^ 8) with 256; change (2 ^ 14) with 16384;
  change (2 ^ 12) with 4096; change (2 ^ 10) with 1024;
  change (2 ^ 4) with 16; change (2 ^ 2) with 4;
  Z.to_euclidean_division_equations; lia.

Section Sextets.

Variables bits c : Z.
Hypothesis Hbits : 0 <= bits.
Hypothesis Hc : is_byte c.

Lemma next_bits_nonneg : 0 <= next_bits bits c.
Proof. unfold is_byte in Hc. bits_arith. Qed.

Lemma next_bits_mod4 : next_bits bits c mod 4 = c mod 4.
Proof. unfold is_byte in Hc. bits_arith. Qed.

Lemma next_bits_mod16 : next_bits bits c mod 16 = c mod 16.
Proof. unfold is_byte in Hc. bits_arith. Qed.

Lemma next_bits_mod64 : next_bits bits c mod 64 = c mod 64.
Proof. unfold is_byte in Hc. bits_arith. Qed.

Lemma index_14 : b64_index (next_bits bits c) 14 = bits mod 64.
Proof. unfold is_byte in Hc. bits_arith. Qed.

Lemma index_12 : b64_index (next_bits bits c) 12 = bits mod 16 * 4 + c / 64.
Proof. unfold is_byte in Hc. bits_arith. Qed.

Lemma index_10 : b64_index (next_bits bits c) 10 = bits mod 4 * 16 + c / 16.
Proof. unfold is_byte in Hc. bits_arith. Qed.

Lemma index_8 : b64_index (next_bits bits c) 8 = c / 4.
Proof. unfold is_byte in Hc. bits_arith. Qed.

Lemma index_6 : b64_index (next_bits bits c) 6 = c mod 64.
Proof. unfold is_byte in Hc. bits_arith. Qed.

Lemma index_4 : b64_index (next_bits bits c) 4 = c mod 16 * 4.
Proof. unfold is_byte in Hc. bits_arith. Qed.

Lemma index_2 : b64_index (next_bits bits c) 2 = c mod 4 * 16.
Proof. unfold is_byte in Hc. bits_arith. Qed.

End Sextets.

(** The rounds of the [do ... while], for the four values [shift] has when
    the loop is entered. *)
Lemma do_indexes_8 b last :
  do_indexes (S (Z.to_nat 8)) b 8 last
  = if last then (-4, [b64_index b 8; b64_index b 2])
    else (2, [b64_index b 8]).
Proof. now destruct last. Qed.

Lemma do_indexes_10 b last :
  do_indexes (S (Z.to_nat 10)) b 10 last
  = if last then (-2, [b64_index b 10; b64_index b 4])
    else (4, [b64_index b 10]).
Proof. now destruct last. Qed.

Lemma do_indexes_12 b last :
  do_indexes (S (Z.to_nat 12)) b 12 last
  = if last then (0, [b64_index b 12; b64_index b 6])
    else (6, [b64_index b 12]).
Proof. now destruct last. Qed.

Lemma do_indexes_14 b last :
  do_indexes (S (Z.to_nat 14)) b 14 last
  = if last then (-4, [b64_index b 14; b64_index b 8; b64_index b 2])
    else (2, [b64_index b 14; b64_index b 8]).
Proof. now destruct last. Qed.

(** The indexes the [for] loop computes are the 6-bit groups of the bytes,
    whatever the phase it is entered in. *)
Lemma for_indexes_groups l :
  Forall is_byte l -> l <> [] ->
  forall bits, 0 <= bits ->
    for_indexes bits 0 l = groups0 l /\
    for_indexes bits 2 l = groups1 (bits mod 4) l /\
    for_indexes bits 4 l = groups2 (bits mod 16) l /\
    for_indexes bits 6 l = bits mod 64 :: groups0 l.
Proof.
  induction 1 as [|c l Hc Hl IH]; [congruence|]. intros _ bits Hbits.
  pose proof (next_bits_nonneg bits c Hc) as Hnext.
  cbn [for_indexes Z.add Pos.add Pos.succ].
  rewrite do_indexes_8, do_indexes_10, do_indexes_12, do_indexes_14.
  destruct l as [|c' l'].
  - cbn [is_nil for_indexes app groups0 groups1 groups2].
    rewrite index_14, index_12, index_10, index_8, index_6, index_4, index_2
      by assumption.
    auto.
  - destruct (IH ltac:(discriminate) (next_bits bits c) Hnext)
      as (_ & E2 & E4 & E6).
    cbn [is_nil app]. rewrite E2, E4, E6.
    rewrite index_14, index_12, index_10, index_8 by assumption.
    rewrite next_bits_mod4, next_bits_mod16, next_bits_mod64 by assumption.
    cbn [groups0 groups1 groups2].
    destruct (IH ltac:(discriminate) (next_bits bits c) Hnext)
      as (E0 & _).
    auto.
Qed.

(** ** The decoder on the 6-bit groups *)

Lemma list_ind3 {A} (P : list A -> Prop) :
  P [] -> (forall a, P [a]) -> (forall a b, P [a; b]) ->
  (forall a b c l, P l -> P (a :: b :: c :: l)) ->
  forall l, P l.
Proof.
  intros H0 H1 H2 H3.
  fix IH 1.
  intros [|a [|b [|c l]]]; [exact H0|apply H1|apply H2|apply H3, IH].
Qed.

(** Every character of the alphabet has its index as value, and none is
    the padding character. *)
Lemma b64_char_value v :
  0 <= v < 64 ->
  base64_value (b64_char v) = Some v /\ (b64_char v =? 61) = false.
Proof.
  intros Hv.
  assert (Hall : forallb
            (fun n => match base64_value (b64_char (Z.of_nat n)) with
                      | Some w => (w =? Z.of_nat n)
                                  && negb (b64_char (Z.of_nat n) =? 61)
                      | None => false
                      end) (seq 0 64) = true) by reflexivity.
  rewrite forallb_forall in Hall.
  specialize (Hall (Z.to_nat v)). rewrite Z2Nat.id in Hall by lia.
  specialize (Hall ltac:(apply in_seq; lia)).
  destruct (base64_value (b64_char v)) as [w|]; [|discriminate].
  apply andb_prop in Hall as [Hw Hpad].
  apply Z.eqb_eq in Hw. subst w.
  split; [reflexivity|]. now destruct (b64_char v =? 61).
Qed.

Lemma groups0_length l :
  Z.of_nat (length (groups0 l))
  + (- Z.of_nat (length (groups0 l))) mod 4
  = 4 * ((Z.of_nat (length l) + 2) / 3).
Proof.
  induction l as [| a | a b | a b c l IH] using list_ind3;
    try reflexivity.
  cbn [groups0 groups1 groups2 length].
  rewrite !Nat2Z.inj_succ. revert IH.
  generalize (Z.of_nat (length (groups0 l))) (Z.of_nat (length l)).
  intros n m IH. Z.to_euclidean_division_equations. lia.
Qed.

Lemma base64_padding_shift n :
  base64_padding (Z.succ (Z.succ (Z.succ (Z.succ n)))) = base64_padding n.
Proof.
  unfold base64_padding. do 2 f_equal.
  Z.to_euclidean_division_equations. lia.
Qed.

(** Decoding the characters of the 6-bit groups of a byte string, padded,
    gives the byte string. *)
Lemma base64_decode_groups l :
  Forall is_byte l ->
  base64_decode (map b64_char (groups0 l)
                 ++ base64_padding (Z.of_nat (length (groups0 l))))
  = Some l.
Proof.
  unfold is_byte.
  induction l as [| a | a b | a b c l IH] using list_ind3; intros Hl.
  - reflexivity.
  - apply Forall_cons_iff in Hl as [Ha _].
    cbn [groups0 groups1 map length app].
    change (base64_padding (Z.of_nat 2)) with [61; 61].
    cbn [app base64_decode].
    destruct (b64_char_value (a / 4)) as [-> _];
      [Z.to_euclidean_division_equations; lia|].
    destruct (b64_char_value (a mod 4 * 16)) as [-> _];
      [Z.to_euclidean_division_equations; lia|].
    cbn. do 2 f_equal. Z.to_euclidean_division_equations. lia.
  - apply Forall_cons_iff in Hl as [Ha Hl].
    apply Forall_cons_iff in Hl as [Hb _].
    cbn [groups0 groups1 groups2 map length app].
    change (base64_padding (Z.of_nat 3)) with [61].
    cbn [app base64_decode].
    destruct (b64_char_value (a / 4)) as [-> _];
      [Z.to_euclidean_division_equations; lia|].
    destruct (b64_char_value (a mod 4 * 16 + b / 16)) as [-> _];
      [Z.to_euclidean_division_equations; lia|].
    destruct (b64_char_value (b mod 16 * 4)) as [-> ->];
      [Z.to_euclidean_division_equations; lia|].
    cbn. f_equal. f_equal; [|f_equal];
      Z.to_euclidean_division_equations; lia.
  - apply Forall_cons_iff in Hl as [Ha Hl].
    apply Forall_cons_iff in Hl as [Hb Hl].
    apply Forall_cons_iff in Hl as [Hc Hl].
    cbn [groups0 groups1 groups2 map length app].
    rewrite !Nat2Z.inj_succ, base64_padding_shift.
    cbn [base64_decode]. rewrite (IH Hl).
    destruct (b64_char_value (a / 4)) as [-> _];
      [Z.to_euclidean_division_equations; lia|].
    destruct (b64_char_value (a mod 4 * 16 + b / 16)) as [-> _];
      [Z.to_euclidean_division_equations; lia|].
    destruct (b64_char_value (b mod 16 * 4 + c / 64)) as [-> ->];
      [Z.to_euclidean_division_equations; lia|].
    destruct (b64_char_value (c mod 64)) as [-> ->];
      [Z.to_euclidean_division_equations; lia|].
    f_equal. f_equal; [|f_equal; [|f_equal]];
      Z.to_euclidean_division_equations; lia.
Qed.

(** ** [rn_buffer_b64encode] on a destination with room *)

Lemma do_indexes_final bits fuel : forall shift,
  6 < shift -> (Z.to_nat shift < fuel)%nat ->
  0 < fst (do_indexes fuel bits shift false) <= 6.
Proof.
  induction fuel as [|fuel IH]; intros shift Hs Hf; [lia|].
  cbn [do_indexes]. rewrite andb_false_l, orb_false_r.
  destruct (Z.gtb_spec (shift - 6) 6) as [Hgt|Hle].
  - specialize (IH (shift - 6) Hgt ltac:(lia)).
    destruct (do_indexes fuel bits (shift - 6) false). exact IH.
  - cbn. lia.
Qed.

Lemma skipn_cons_nth {A} (l : list A) : forall i c l' d,
  skipn i l = c :: l' -> nth i l d = c /\ skipn (S i) l = l' /\
                         (i < length l)%nat.
Proof.
  induction l as [|x l IH]; intros [|i] c l' d H; try discriminate.
  - injection H as -> ->. cbn. repeat split. lia.
  - cbn in H. destruct (IH i c l' d H) as (Hn & Hs & Hl).
    cbn [nth length]. repeat split; [exact Hn|exact Hs|lia].
Qed.

Section EncodeFacts.

Context {X : Externals}.

Variable N : Z.

Lemma b64_do_room bits last fuel : forall shift dst,
  room_for N dst -> 0 <= shift < 32 -> (Z.to_nat shift < fuel)%nat ->
  size dst + Z.of_nat (length (snd (do_indexes fuel bits shift last))) <= N ->
  exists dst',
    b64_do fuel bits shift last dst
    = Ok (fst (do_indexes fuel bits shift last), dst') /\
    contents dst'
    = contents dst ++ map b64_char (snd (do_indexes fuel bits shift last)) /\
    size dst'
    = size dst + Z.of_nat (length (snd (do_indexes fuel bits shift last))) /\
    room_for N dst'.
Proof.
  induction fuel as [|fuel IH]; intros shift dst Hroom Hs Hf Hlen; [lia|].
  cbn [b64_do do_indexes] in *.
  replace ((0 <=? shift) && (shift <? 32)) with true
    by (symmetry; apply andb_true_intro; split; lia).
  assert (Hone : size dst + 1 <= N).
  { destruct ((shift - 6 >? 6) || last && (shift - 6 >? 0));
      [destruct (do_indexes fuel bits (shift - 6) last)|];
      cbn [snd length] in Hlen; lia. }
  destruct (rn_buffer_add_room N dst [b64_char (b64_index bits shift)] 1
              Hroom eq_refl Hone) as (dst1 & -> & Hc1 & Hs1 & _ & Hroom1).
  cbn [bind].
  destruct ((shift - 6 >? 6) || last && (shift - 6 >? 0)) eqn:Hcont.
  - assert (Hpos : 0 < shift - 6).
    { apply orb_prop in Hcont as [H|H]; [lia|].
      apply andb_prop in H as [_ H]. lia. }
    specialize (IH (shift - 6) dst1 Hroom1 ltac:(lia) ltac:(lia)).
    destruct (do_indexes fuel bits (shift - 6) last) as [s l].
    cbn [fst snd length map] in *.
    destruct (IH ltac:(lia)) as (dst' & -> & Hc' & Hs' & Hroom').
    exists dst'. rewrite Hc', Hc1, Hs', Hs1, <- app_assoc.
    split; [reflexivity|]. split; [reflexivity|]. split; [lia|assumption].
  - exists dst1. cbn [fst snd length map]. rewrite Hc1, Hs1.
    split; [reflexivity|]. split; [reflexivity|]. split; [lia|assumption].
Qed.

Variable src : rn_buffer_t.
Hypothesis Hsrc : buffer_wf src.

Lemma b64_for_room : forall l i bits shift dst,
  room_for N dst ->
  skipn (Z.to_nat i) (contents src) = l -> 0 <= i ->
  i + Z.of_nat (length l) = size src ->
  (l <> [] -> 0 <= shift <= 6) ->
  size dst + Z.of_nat (length (for_indexes bits shift l)) <= N ->
  exists dst',
    b64_for (length l) i bits shift dst src = Ok dst' /\
    contents dst' = contents dst ++ map b64_char (for_indexes bits shift l) /\
    size dst' = size dst + Z.of_nat (length (for_indexes bits shift l)) /\
    room_for N dst'.
Proof.
  destruct Hsrc as (Hs & _ & Hp).
  induction l as [|c l IH]; intros i bits shift dst Hroom Hskip Hi Hsz Hsh Hlen.
  - exists dst. cbn. rewrite app_nil_r, Z.add_0_r.
    split; [reflexivity|]. split; [reflexivity|]. split; [lia|assumption].
  - specialize (Hsh ltac:(discriminate)).
    destruct (skipn_cons_nth _ _ _ _ 0 Hskip) as (Hnth & Hskip' & Hlt).
    cbn [length] in Hsz. rewrite Nat2Z.inj_succ in Hsz.
    cbn [b64_for for_indexes length] in *.
    assert (Hload : load (rn_buffer_ptr src) i = Ok c).
    { unfold rn_buffer_ptr, load. unfold contents in Hnth, Hlt.
      rewrite length_firstn in Hlt.
      destruct (ptr src) as [m|]; [|cbn in Hlt; lia]. cbn in *.
      replace ((0 <=? i) && (i <? Z.of_nat (length m))) with true
        by (symmetry; apply andb_true_intro; split; lia).
      rewrite nth_firstn in Hnth.
      destruct (Nat.ltb_spec (Z.to_nat i) (Z.to_nat (size src)));
        [now rewrite Hnth|lia]. }
    rewrite Hload. cbn [bind].
    assert (Hlast : (i =? to_size_t (rn_buffer_size src - 1)) = is_nil l).
    { unfold rn_buffer_size.
      rewrite to_size_t_id by (unfold SIZE_MAX, PTRDIFF_MAX in *; lia).
      destruct l; cbn [is_nil length] in *; lia. }
    rewrite Hlast.
    set (b' := next_bits bits c) in *.
    pose proof (do_indexes_final b' (S (Z.to_nat (shift + 8))) (shift + 8)
                  ltac:(lia) ltac:(lia)) as Hfin.
    destruct (do_indexes (S (Z.to_nat (shift + 8))) b' (shift + 8) (is_nil l))
      as [s out] eqn:Edo.
    rewrite length_app, Nat2Z.inj_add in Hlen.
    destruct (b64_do_room b' (is_nil l) (S (Z.to_nat (shift + 8)))
                (shift + 8) dst Hroom ltac:(lia) ltac:(lia))
      as (dst1 & Hdo & Hc1 & Hs1 & Hroom1);
      rewrite ?Edo in *; cbn [fst snd] in *; [lia|].
    rewrite Hdo. cbn [bind].
    destruct (IH (i + 1) b' s dst1 Hroom1) as (dst' & Hfor & Hc' & Hs' & Hr');
      try lia.
    + now replace (Z.to_nat (i + 1)) with (S (Z.to_nat i)) by lia.
    + intros Hne. destruct l; [congruence|]. cbn [is_nil] in *.
      rewrite Edo in Hfin. cbn in Hfin. lia.
    + exists dst'. rewrite Hfor, Hc', Hc1, Hs', Hs1, map_app, length_app,
        Nat2Z.inj_add, <- app_assoc.
      split; [reflexivity|]. split; [reflexivity|]. split; [lia|assumption].
Qed.

Lemma b64_pad_room fuel : forall dst,
  room_for N dst ->
  size dst + (- size dst) mod 4 <= N ->
  (Z.to_nat ((- size dst) mod 4) < fuel)%nat ->
  exists dst',
    b64_pad fuel dst = Ok dst' /\
    contents dst' = contents dst ++ base64_padding (size dst).
Proof.
  induction fuel as [|fuel IH]; intros dst Hroom Hlen Hf; [lia|].
  cbn [b64_pad]. unfold rn_buffer_size, base64_padding.
  change 3 with (Z.ones 2). rewrite Z.land_ones by lia.
  change (2 ^ 2) with 4.
  destruct (Z.eqb_spec (size dst mod 4) 0) as [H0|H0].
  - exists dst. split; [reflexivity|].
    replace ((- size dst) mod 4) with 0
      by (Z.to_euclidean_division_equations; lia).
    cbn. now rewrite app_nil_r.
  - assert (Hk : (- size dst) mod 4 = (- (size dst + 1)) mod 4 + 1)
      by (Z.to_euclidean_division_equations; lia).
    pose proof (Z.mod_pos_bound (- (size dst + 1)) 4 ltac:(lia)) as Hb.
    destruct (rn_buffer_add_room N dst (bytes_of_string "=") 1 Hroom eq_refl
                ltac:(lia)) as (dst1 & -> & Hc1 & Hs1 & _ & Hroom1).
    cbn [bind].
    destruct (IH dst1 Hroom1) as (dst' & -> & Hc');
      rewrite ?Hs1; try lia.
    exists dst'. split; [reflexivity|].
    rewrite Hc', Hc1, Hs1, Hk, <- app_assoc. unfold base64_padding.
    replace (Z.to_nat ((- (size dst + 1)) mod 4 + 1))
      with (S (Z.to_nat ((- (size dst + 1)) mod 4))) by lia.
    reflexivity.
Qed.

End EncodeFacts.

Lemma for_indexes_start l :
  Forall is_byte l -> for_indexes 0 0 l = groups0 l.
Proof.
  intros Hl. destruct l as [|c l]; [reflexivity|].
  now apply for_indexes_groups.
Qed.

Lemma contents_length b :
  buffer_wf b -> Z.of_nat (length (contents b)) = size b.
Proof.
  intros (Hs & _). unfold contents. rewrite length_firstn. lia.
Qed.

(** C2: encoding a byte string into an empty destination that has room for
    the text (in place or by growth) returns 0 and leaves in the
    destination a text which the decoder of RFC 4648 takes back to the byte
    string; four rounds of fuel are enough for the padding loop. *)
Theorem rn_buffer_b64encode_roundtrip {X : Externals} dst src N fuel :
  buffer_wf src -> Forall is_byte (contents src) ->
  size dst = 0 -> room_for N dst -> 4 * ((size src + 2) / 3) <= N ->
  (4 <= fuel)%nat ->
  exists dst',
    rn_buffer_b64encode fuel dst src = Ok (0, dst') /\
    base64_decode (contents dst') = Some (contents src).
Proof.
  intros Hsrc Hbytes Hempty Hroom HN Hfuel.
  pose proof (contents_length src Hsrc) as Hlen.
  pose proof (groups0_length (contents src)) as Hg. rewrite Hlen in Hg.
  pose proof (Z.mod_pos_bound (- Z.of_nat (length (groups0 (contents src))))
                4 ltac:(lia)) as Hmod.
  unfold rn_buffer_b64encode, rn_buffer_size.
  replace (Z.to_nat (size src)) with (length (contents src)) by lia.
  destruct (b64_for_room N src Hsrc (contents src) 0 0 0 dst Hroom eq_refl
              ltac:(lia) ltac:(lia) ltac:(lia))
    as (dst1 & -> & Hc1 & Hs1 & Hroom1);
    rewrite for_indexes_start in * by assumption; [lia|].
  cbn [bind]. rewrite Hempty, Z.add_0_l in Hs1.
  destruct (b64_pad_room N fuel dst1 Hroom1) as (dst' & -> & Hc');
    rewrite ?Hs1; try lia.
  exists dst'. split; [reflexivity|].
  rewrite Hc', Hc1, Hs1.
  replace (contents dst) with (@nil Z)
    by (unfold contents; now rewrite Hempty).
  now apply base64_decode_groups.
Qed.

(** ** [rn_addr_getport] *)

Lemma bytes_of_u16_of_bytes host b0 b1 :
  is_byte b0 -> is_byte b1 ->
  bytes_of_u16 host (u16_of_bytes host b0 b1) = [b0; b1].
Proof.
  unfold is_byte. intros H0 H1.
  destruct host; unfold bytes_of_u16, u16_of_bytes;
    f_equal; [|f_equal| |f_equal];
    Z.to_euclidean_division_equations; lia.
Qed.

Lemma nth_is_byte l n : Forall is_byte l -> is_byte (nth n l 0).
Proof.
  intros Hl. destruct (Nat.lt_ge_cases n (length l)) as [Hlt|Hge].
  - rewrite Forall_forall in Hl. apply Hl, nth_In, Hlt.
  - rewrite nth_overflow by exact Hge. unfold is_byte. lia.
Qed.

(** C5: on an address tagged [AF_INET], [rn_addr_getport] returns the
    field [v4.sin_port], on one tagged [AF_INET6] the field
    [v6.sin6_port], and in both cases the value returned is the field as it
    is stored: its two bytes are the two bytes of the address at the place
    of the port, in their order, with no conversion of the byte order. *)
Theorem rn_addr_getport_as_stored host addr :
  Forall is_byte addr ->
  (sa_family host addr = AF_INET ->
   rn_addr_getport host addr = v4_sin_port host addr /\
   bytes_of_u16 host (rn_addr_getport host addr)
   = [nth 2 addr 0; nth 3 addr 0]) /\
  (sa_family host addr = AF_INET6 ->
   rn_addr_getport host addr = v6_sin6_port host addr /\
   bytes_of_u16 host (rn_addr_getport host addr)
   = [nth 2 addr 0; nth 3 addr 0]).
Proof.
  intros Hb.
  assert (Hrep : forall b : bool,
            bytes_of_u16 host
              (if b then v4_sin_port host addr else v6_sin6_port host addr)
            = [nth 2 addr 0; nth 3 addr 0]).
  { intros b.
    replace (if b then v4_sin_port host addr else v6_sin6_port host addr)
      with (field16 host addr 2) by now destruct b.
    apply bytes_of_u16_of_bytes; now apply nth_is_byte. }
  unfold rn_addr_getport, IS_IPV4. split; intros Hf; rewrite Hf.
  - split; [reflexivity|apply (Hrep true)].
  - split; [reflexivity|apply (Hrep false)].
Qed.

Lemma rn_addr_getport_as_stored_witness :
  (rn_addr_getport little_endian sample_addr4 = 20480 /\
   bytes_of_u16 little_endian (rn_addr_getport little_endian sample_addr4)
   = [0; 80]) /\
  (rn_addr_getport little_endian sample_addr6 = 36895 /\
   bytes_of_u16 little_endian (rn_addr_getport little_endian sample_addr6)
   = [31; 144]).
Proof.
  assert (H4 : Forall is_byte sample_addr4)
    by (unfold is_byte; repeat constructor; lia).
  assert (H6 : Forall is_byte sample_addr6)
    by (unfold is_byte; repeat constructor; lia).
  split.
  - exact (proj1 (rn_addr_getport_as_stored little_endian sample_addr4 H4)
             eq_refl).
  - exact (proj2 (rn_addr_getport_as_stored little_endian sample_addr6 H6)
             eq_refl).
Defined.

(** X24: on an address whose port is stored in network byte order, the
    high byte first, as the socket interface has it, [rn_addr_getport]
    returns [htons] of the port on a host of either byte order, whatever
    the family is, and [ntohs] of what it returns is the port. *)
Lemma rn_addr_getport_network_order host family port rest :
  0 <= port < 65536 ->
  let addr := bytes_of_u16 host family
              ++ [port / 256; port mod 256] ++ rest in
  rn_addr_getport host addr = htons host port /\
  ntohs host (rn_addr_getport host addr) = port.
Proof.
  intros Hp addr.
  assert (Hg : rn_addr_getport host addr = htons host port).
  { unfold rn_addr_getport.
    replace (if IS_IPV4 host addr then v4_sin_port host addr
             else v6_sin6_port host addr)
      with (field16 host addr 2) by now destruct (IS_IPV4 host addr).
    subst addr. unfold field16, bytes_of_u16, u16_of_bytes, htons.
    destruct host; cbn [nth app];
      Z.to_euclidean_division_equations; lia. }
  split; [exact Hg|]. rewrite Hg. unfold ntohs, htons.
  destruct host; [|reflexivity]. Z.to_euclidean_division_equations. lia.
Qed.

(** ** The retry bound *)

(** C6: [MAX_IO_CALLS] is 10; the counter of a socket stays within the
    bound over the retries of an operation; the retry that takes it to
    [MAX_IO_CALLS] without progress puts the task once at the tail of the
    run queue and sets the counter to 0, and no other retry touches the
    run queue. *)
Theorem io_calls_bounded task :
  MAX_IO_CALLS = 10 /\
  (forall trace st,
     0 <= io_calls (sock st) < MAX_IO_CALLS ->
     0 <= io_calls (sock (io_retries task trace st)) < MAX_IO_CALLS) /\
  (forall st,
     io_calls (sock st) + 1 = MAX_IO_CALLS ->
     run_queue (io_retry task false st) = run_queue st ++ [task] /\
     io_calls (sock (io_retry task false st)) = 0) /\
  (forall st progress,
     progress = true \/ io_calls (sock st) + 1 < MAX_IO_CALLS ->
     run_queue (io_retry task progress st) = run_queue st).
Proof.
  split; [reflexivity|]. split; [|split].
  - induction trace as [|progress trace IH]; intros st Hst; [exact Hst|].
    cbn [io_retries fold_left]. apply IH.
    unfold io_retry. destruct progress; [cbn; unfold MAX_IO_CALLS; lia|].
    destruct (Z.geb_spec (io_calls (sock st) + 1) MAX_IO_CALLS); cbn;
      unfold MAX_IO_CALLS in *; lia.
  - intros st Hst. unfold io_retry.
    destruct (Z.geb_spec (io_calls (sock st) + 1) MAX_IO_CALLS); [|lia].
    split; reflexivity.
  - intros st progress [->|Hlt]; unfold io_retry; [reflexivity|].
    destruct progress; [reflexivity|].
    destruct (Z.geb_spec (io_calls (sock st) + 1) MAX_IO_CALLS); [lia|].
    reflexivity.
Qed.

Lemma io_calls_bounded_witness :
  let st := {| sock := sample_socket; run_queue := [2; 3]%nat |} in
  io_calls (sock (io_retries 1%nat [false; false; true; false] st)) = 1 /\
  run_queue (io_retry 1%nat false st) = [2; 3; 1]%nat /\
  io_calls (sock (io_retry 1%nat false st)) = 0 /\
  run_queue (io_retry 1%nat true st) = [2; 3]%nat.
Proof.
  intros st.
  destruct (io_calls_bounded 1%nat) as (_ & Hb & Hy & Hn).
  pose proof (Hb [false; false; true; false] st
                ltac:(cbn; unfold MAX_IO_CALLS; lia)) as Hbound.
  destruct (Hy st eq_refl) as [Hq H0].
  pose proof (Hn st true (or_introl eq_refl)) as Hq'.
  split; [reflexivity|]. split; [exact Hq|]. split; [exact H0|exact Hq'].
Defined.

(** ** The properties on the sample class *)

Lemma rn_buffer_addnull_idempotent_witness :
  let b' := {| ptr := Some [97; 98; 0; 0; 0; 0]; size := 3; msize := 6;
               class := default_class_ptr |} in
  0 < size b' /\
  load (ptr b') (size b' - 1) = Ok 0 /\
  @rn_buffer_addnull sample_externals b' = Ok (0, b').
Proof.
  intros b'.
  apply (@rn_buffer_addnull_idempotent sample_externals
           (sample_buffer (bytes_of_string "ab") 2) b').
  - unfold buffer_wf, PTRDIFF_MAX. simpl. lia.
  - reflexivity.
Defined.

Lemma rn_buffer_b64encode_roundtrip_witness :
  exists dst',
    @rn_buffer_b64encode sample_externals 4
      (rn_buffer_init (Some (repeat 0 8%nat)) 8) (static_text "Man!")
    = Ok (0, dst') /\
    base64_decode (contents dst') = Some (contents (static_text "Man!")).
Proof.
  apply (@rn_buffer_b64encode_roundtrip sample_externals
           (rn_buffer_init (Some (repeat 0 8%nat)) 8) (static_text "Man!")
           8 4).
  - unfold buffer_wf, PTRDIFF_MAX. simpl. lia.
  - unfold is_byte. simpl. repeat constructor; lia.
  - reflexivity.
  - unfold room_for, buffer_wf, PTRDIFF_MAX. simpl. lia.
  - simpl. lia.
  - lia.
Defined.

(** C2 as stated, for every initially empty destination, does not hold:
    a segment of 4 bytes is an empty destination without room for the 8
    characters that encode ["abcdef"].  The call returns 0 and leaves
    ["YWJj"], which decodes to ["abc"] and not to the source. *)
Lemma rn_buffer_b64encode_roundtrip_needs_room :
  let dst := segment_4 in
  let src := static_text "abcdef" in
  buffer_wf dst /\ size dst = 0 /\
  buffer_wf src /\ Forall is_byte (contents src) /\
  exists dst',
    @rn_buffer_b64encode sample_externals 4 dst src = Ok (0, dst') /\
    contents dst' = bytes_of_string "YWJj" /\
    base64_decode (contents dst') = Some (bytes_of_string "abc") /\
    base64_decode (contents dst') <> Some (contents src).
Proof.
  intros dst src.
  split; [unfold buffer_wf, PTRDIFF_MAX; simpl; lia|].
  split; [reflexivity|].
  split; [unfold buffer_wf, PTRDIFF_MAX; simpl; lia|].
  split; [unfold is_byte; simpl; repeat constructor; lia|].
  eexists. split; [reflexivity|]. split; [reflexivity|].
  split; [reflexivity|]. discriminate.
Qed.

Lemma resize_length m n : 0 <= n -> Z.of_nat (length (resize m n)) = n.
Proof.
  intros Hn. unfold resize.
  rewrite length_app, length_firstn, repeat_length. lia.
Qed.

Lemma resize_keeps m n k :
  (k <= length m)%nat -> Z.of_nat k <= n ->
  firstn k (resize m n) = firstn k m.
Proof.
  intros Hk Hn. unfold resize.
  rewrite firstn_app, firstn_firstn, length_firstn.
  replace (k - Nat.min (Z.to_nat n) (length m))%nat with O by lia.
  rewrite Nat.min_l by lia. cbn. apply app_nil_r.
Qed.

(** The sample class serves every request up to its cap. *)
Lemma sample_class_grows N :
  N <= sample_maxsize -> @grows_to sample_externals default_class_ptr N.
Proof.
  intros HN. exists sample_growthsize, sample_realloc.
  split; [reflexivity|]. split; [reflexivity|].
  intros b n _ (Hs & _ & Hp) Hn.
  assert (Hg : n <= sample_growthsize b n <= sample_maxsize).
  { unfold sample_growthsize, sample_maxsize, to_size_t in *.
    rewrite Z.mod_small by lia.
    destruct (Z.geb_spec (n * 2) 4096); lia. }
  split; [lia|]. unfold sample_realloc. eexists. split; [reflexivity|].
  rewrite resize_length by lia.
  split; [unfold sample_maxsize, PTRDIFF_MAX in *; lia|].
  unfold contents. apply resize_keeps; lia.
Qed.

(** An empty buffer of the sample class grows as the text arrives. *)
Lemma rn_buffer_b64encode_grows :
  @rn_buffer_b64encode sample_externals 4 (sample_buffer [] 0)
    (static_text "hello")
  = Ok (0, {| ptr := Some (bytes_of_string "aGVsbG8=" ++ repeat 0 6%nat);
              size := 8; msize := 14; class := default_class_ptr |}) /\
  base64_decode (bytes_of_string "aGVsbG8=") = Some (bytes_of_string "hello").
Proof. split; reflexivity. Qed.

(** [rn_buffer_tolong] on the sample class: the text ["12"] in a full
    buffer is read as 12 and the buffer holds it as before, in the storage
    that the null byte made it grow to. *)
Lemma rn_buffer_tolong_sample :
  @rn_buffer_tolong sample_externals (sample_buffer [49; 50] 2) 10
  = Ok (12, Some 2,
        {| ptr := Some [49; 50; 0; 0; 0; 0]; size := 2; msize := 6;
           class := default_class_ptr |}).
Proof. reflexivity. Qed.

(* ================================================================== *)
(** * More of the buffer module *)

(** ** Appending *)

Lemma memcpy_firstn dest off src n :
  0 <= n <= Z.of_nat (length src) ->
  memcpy dest off src n = memcpy dest off (firstn (Z.to_nat n) src) n.
Proof.
  intros Hn. unfold memcpy.
  destruct (n =? 0); [reflexivity|]. destruct dest as [m|]; [|reflexivity].
  rewrite firstn_firstn, Nat.min_id, length_firstn.
  replace (n <=? Z.of_nat (Nat.min (Z.to_nat n) (length src)))
    with (n <=? Z.of_nat (length src)); [reflexivity|].
  destruct (Z.leb_spec n (Z.of_nat (length src)));
    symmetry; [apply Z.leb_le|apply Z.leb_gt]; lia.
Qed.

Section AppendFacts.

Context {X : Externals}.

(** Only the first [n] bytes of the data play a part. *)
Lemma rn_buffer_add_firstn b data n :
  0 <= n <= Z.of_nat (length data) ->
  rn_buffer_add b data n = rn_buffer_add b (firstn (Z.to_nat n) data) n.
Proof.
  intros Hn. unfold rn_buffer_add.
  destruct (if to_size_t (n + size b) >? msize b
            then rn_buffer_extend b (to_size_t (n + size b))
            else (0, b)) as [r b1].
  destruct (r <? 0); [reflexivity|].
  now rewrite memcpy_firstn.
Qed.

(** X1: on a buffer with room for them, [rn_buffer_add] appends the bytes
    and returns their number (up to [INT_MAX] bytes): the contents are the
    old ones followed by the data, the class is kept and the room stays. *)
Theorem rn_buffer_add_appends N b data n :
  room_for N b -> n = Z.of_nat (length data) -> size b + n <= N ->
  n <= INT_MAX ->
  exists b',
    rn_buffer_add b data n = Ok (n, b') /\
    contents b' = contents b ++ data /\
    size b' = size b + n /\
    class b' = class b /\
    room_for N b'.
Proof.
  intros Hroom Hn Hle Hint.
  destruct (rn_buffer_add_room N b data n Hroom Hn Hle) as (b' & Hadd & H).
  exists b'. split; [|exact H].
  rewrite Hadd, to_int_id; [reflexivity|]. unfold INT_MAX in *. lia.
Qed.

(** X2: a buffer of the static class never grows: [rn_buffer_extend]
    returns -1 and leaves it alone, an append that needs more than [msize]
    bytes returns -1 and leaves it alone, and any append leaves [msize],
    the class and the size of the object behind [ptr] as they are. *)
Theorem rn_buffer_static_never_grows b data n :
  class b = static_class_ptr -> 0 <= size b ->
  n = Z.of_nat (length data) ->
  rn_buffer_extend b n = (-1, b) /\
  (to_size_t (n + size b) > msize b -> rn_buffer_add b data n = Ok (-1, b)) /\
  (forall r b',
     rn_buffer_add b data n = Ok (r, b') ->
     msize b' = msize b /\ class b' = static_class_ptr /\
     length (bytes_at (ptr b')) = length (bytes_at (ptr b))).
Proof.
  intros Hc Hs Hn. split; [now apply rn_buffer_extend_static|].
  split; [now apply rn_buffer_add_static_full|].
  intros r b'. now apply rn_buffer_add_static_frame.
Qed.

(** X3: [rn_buffer_extend] keeps what the buffer holds: after a call that
    returns 0, with a [realloc] that keeps the bytes, the size, the class
    and the contents are as before and [msize] is at least the request. *)
Theorem rn_buffer_extend_keeps b n b' :
  buffer_wf b -> realloc_preserves (class b) -> size b <= n ->
  rn_buffer_extend b n = (0, b') ->
  size b' = size b /\ class b' = class b /\ contents b' = contents b /\
  n <= msize b'.
Proof.
  intros Hwf Hre Hn Hext.
  destruct (rn_buffer_extend_ok b n b' Hext)
    as (grow & re & p & Hg & Hr & Hge & Hp & ->).
  cbn. repeat split; [|exact Hge].
  unfold contents at 1. cbn.
  apply (Hre re b (grow b n) p Hr eq_refl Hwf Hp). lia.
Qed.

End AppendFacts.

Lemma rn_buffer_add_appends_witness :
  exists b',
    @rn_buffer_add sample_externals (sample_buffer (bytes_of_string "ab") 2)
      (bytes_of_string "cde") 3 = Ok (3, b') /\
    contents b' = bytes_of_string "ab" ++ bytes_of_string "cde" /\
    size b' = 2 + 3 /\
    class b' = default_class_ptr /\
    @room_for sample_externals 16 b'.
Proof.
  apply (@rn_buffer_add_appends sample_externals 16
           (sample_buffer (bytes_of_string "ab") 2) (bytes_of_string "cde") 3).
  - split; [unfold buffer_wf, PTRDIFF_MAX; simpl; lia|].
    split; [unfold PTRDIFF_MAX; lia|].
    right. apply sample_class_grows. unfold sample_maxsize. lia.
  - reflexivity.
  - simpl. lia.
  - unfold INT_MAX. lia.
Defined.

Lemma rn_buffer_static_never_grows_witness :
  let b := rn_buffer_static (Some (bytes_of_string "abc")) 3 in
  @rn_buffer_extend sample_externals b 2 = (-1, b) /\
  @rn_buffer_add sample_externals b (bytes_of_string "de") 2 = Ok (-1, b).
Proof.
  intros b.
  destruct (@rn_buffer_static_never_grows sample_externals b
              (bytes_of_string "de") 2 eq_refl ltac:(simpl; lia) eq_refl)
    as (He & Ha & _).
  split; [exact He|]. apply Ha. vm_compute. reflexivity.
Defined.

Lemma sample_realloc_preserves :
  @realloc_preserves sample_externals default_class_ptr.
Proof.
  intros re b n p [= <-] _ (Hs & _) [= <-] Hn. unfold contents.
  apply resize_keeps; lia.
Qed.

Lemma rn_buffer_extend_keeps_witness :
  let b := sample_buffer (bytes_of_string "abc") 4 in
  let b' := {| ptr := Some (bytes_of_string "abc" ++ repeat 0 9%nat);
               size := 3; msize := 12; class := default_class_ptr |} in
  size b' = size b /\ class b' = class b /\ contents b' = contents b /\
  6 <= msize b'.
Proof.
  intros b b'.
  apply (@rn_buffer_extend_keeps sample_externals b 6 b').
  - unfold buffer_wf, PTRDIFF_MAX. simpl. lia.
  - exact sample_realloc_preserves.
  - simpl. lia.
  - reflexivity.
Defined.

(** ** Comparing two buffers *)

Lemma size_diff_int_value d :
  - 2 ^ 31 <= d <= INT_MAX -> to_int (to_size_t d) = d.
Proof.
  unfold to_int, to_size_t, INT_MAX. intros Hd.
  Z.to_euclidean_division_equations. lia.
Qed.

Lemma memcmp_bytes_refl l : memcmp_bytes l l = 0.
Proof. now apply memcmp_bytes_zero. Qed.

(** What [rn_buffer_cmp] returns on two well-formed buffers: the result
    of comparing their common length, and for an equal common part the
    difference of the sizes as an [int]. *)
Lemma rn_buffer_cmp_eval b1 b2 :
  buffer_wf b1 -> buffer_wf b2 ->
  rn_buffer_cmp b1 b2
  = Ok (let k := Z.to_nat (Z.min (size b1) (size b2)) in
        let m := memcmp_bytes (firstn k (contents b1))
                              (firstn k (contents b2)) in
        if m =? 0 then to_int (to_size_t (size b1 - size b2)) else m).
Proof.
  intros (Hs1 & _) (Hs2 & _).
  unfold rn_buffer_cmp, rn_buffer_size, rn_buffer_ptr, memcmp, contents.
  replace (if size b1 <? size b2 then size b1 else size b2)
    with (Z.min (size b1) (size b2))
    by (destruct (Z.ltb_spec (size b1) (size b2)); lia).
  set (min := Z.min (size b1) (size b2)).
  assert (Hmin : 0 <= min <= size b1 /\ min <= size b2) by lia.
  rewrite !firstn_firstn.
  replace (Nat.min (Z.to_nat min) (Z.to_nat (size b1))) with (Z.to_nat min)
    by lia.
  replace (Nat.min (Z.to_nat min) (Z.to_nat (size b2))) with (Z.to_nat min)
    by lia.
  destruct (Z.eqb_spec min 0) as [H0|H0].
  - rewrite H0. reflexivity.
  - cbv zeta.
    replace ((0 <=? min) && (min <=? Z.of_nat (length (bytes_at (ptr b1))))
             && (min <=? Z.of_nat (length (bytes_at (ptr b2))))) with true
      by (symmetry; repeat (apply andb_true_intro; split); lia).
    cbn [bind].
    now destruct (memcmp_bytes _ _ =? 0).
Qed.

(** X4: on well-formed buffers whose sizes are less than [2^32] apart,
    [rn_buffer_cmp] returns 0 exactly when the two hold the same bytes, in
    either order of the arguments. *)
Theorem rn_buffer_cmp_equal_iff b1 b2 :
  buffer_wf b1 -> buffer_wf b2 ->
  - 2 ^ 32 < size b1 - size b2 < 2 ^ 32 ->
  (rn_buffer_cmp b1 b2 = Ok 0 <-> contents b1 = contents b2) /\
  (rn_buffer_cmp b1 b2 = Ok 0 <-> rn_buffer_cmp b2 b1 = Ok 0).
Proof.
  intros H1 H2 Hd.
  assert (Hiff : forall a b, buffer_wf a -> buffer_wf b ->
            - 2 ^ 32 < size a - size b < 2 ^ 32 ->
            (rn_buffer_cmp a b = Ok 0 <-> contents a = contents b)).
  { intros a b Ha Hb Hab.
    destruct (rn_buffer_cmp_zero_iff a b Ha Hb Hab) as (r & Hr & Hz).
    rewrite Hr. split.
    - intros [= ->]. now apply Hz.
    - intros Hc. f_equal. apply Hz. split; [|exact Hc].
      rewrite <- (contents_length a Ha), <- (contents_length b Hb).
      now rewrite Hc. }
  split; [now apply Hiff|].
  rewrite (Hiff b1 b2 H1 H2 Hd), (Hiff b2 b1 H2 H1 ltac:(lia)).
  split; congruence.
Qed.

(** X5: a buffer compares greater than a buffer that holds a proper
    prefix of its bytes, and that one less than it, as long as the sizes
    differ by [INT_MAX] at most. *)
Theorem rn_buffer_cmp_prefix b1 b2 :
  buffer_wf b1 -> buffer_wf b2 ->
  contents b2 = firstn (Z.to_nat (size b2)) (contents b1) ->
  size b2 < size b1 <= size b2 + INT_MAX ->
  rn_buffer_cmp b1 b2 = Ok (size b1 - size b2) /\
  rn_buffer_cmp b2 b1 = Ok (size b2 - size b1).
Proof.
  intros H1 H2 Hpre Hlt.
  pose proof H2 as (Hs2 & _).
  pose proof (contents_length b2 H2) as Hl2.
  rewrite (rn_buffer_cmp_eval b1 b2 H1 H2), (rn_buffer_cmp_eval b2 b1 H2 H1).
  cbv zeta.
  rewrite (Z.min_r (size b1)), (Z.min_l (size b2)) by lia.
  rewrite (firstn_all2 (contents b2)) by lia.
  rewrite <- Hpre, !memcmp_bytes_refl. cbn [Z.eqb].
  unfold INT_MAX in *. rewrite !size_diff_int_value; [auto| |];
    unfold INT_MAX; lia.
Qed.

Lemma rn_buffer_cmp_equal_iff_witness :
  let b1 := sample_buffer (bytes_of_string "abc") 8 in
  let b2 := static_text "abc" in
  (rn_buffer_cmp b1 b2 = Ok 0 <-> contents b1 = contents b2) /\
  (rn_buffer_cmp b1 b2 = Ok 0 <-> rn_buffer_cmp b2 b1 = Ok 0).
Proof.
  intros b1 b2.
  apply (rn_buffer_cmp_equal_iff b1 b2).
  - unfold buffer_wf, PTRDIFF_MAX. simpl. lia.
  - unfold buffer_wf, PTRDIFF_MAX. simpl. lia.
  - simpl. lia.
Defined.

Lemma rn_buffer_cmp_prefix_witness :
  rn_buffer_cmp (static_text "abcde") (static_text "abc") = Ok 2 /\
  rn_buffer_cmp (static_text "abc") (static_text "abcde") = Ok (-2).
Proof.
  apply (rn_buffer_cmp_prefix (static_text "abcde") (static_text "abc")).
  - unfold buffer_wf, PTRDIFF_MAX. simpl. lia.
  - unfold buffer_wf, PTRDIFF_MAX. simpl. lia.
  - reflexivity.
  - unfold INT_MAX. simpl. lia.
Defined.

(** ** Erasing, strings *)

Lemma load_bytes_at p i :
  0 <= i < Z.of_nat (length (bytes_at p)) ->
  load p i = Ok (nth (Z.to_nat i) (bytes_at p) 0).
Proof.
  intros Hi. destruct p as [m|]; [|cbn in Hi; lia]. cbn [bytes_at] in *.
  unfold load.
  replace ((0 <=? i) && (i <? Z.of_nat (length m))) with true; [reflexivity|].
  symmetry. apply andb_true_iff. split; [apply Z.leb_le|apply Z.ltb_lt]; lia.
Qed.

Section EraseFacts.

Context {X : Externals}.

(** What [rn_buffer_erase] does to a buffer with storage. *)
Lemma rn_buffer_erase_eval b n :
  buffer_wf b -> ptr b <> None -> 0 <= n ->
  exists b',
    rn_buffer_erase b n = Ok (0, b') /\
    contents b' = (if (n =? 0) || (n >=? size b) then []
                   else skipn (Z.to_nat n) (contents b)) /\
    size b' = (if (n =? 0) || (n >=? size b) then 0 else size b - n) /\
    msize b' = msize b /\ class b' = class b.
Proof.
  intros (Hs & Hm & Hp) Hptr Hn. unfold rn_buffer_erase.
  destruct (ptr b) as [m|] eqn:Ep; [|congruence]. cbn [bytes_at] in *.
  destruct ((n =? 0) || (n >=? size b)) eqn:Eall.
  - eexists. split; [reflexivity|]. cbn. auto.
  - apply orb_false_elim in Eall as [H0 Hlt].
    apply Z.eqb_neq in H0. rewrite Z.geb_leb in Hlt. apply Z.leb_gt in Hlt.
    assert (Hk : to_size_t (size b - n) = size b - n)
      by (apply to_size_t_id; unfold SIZE_MAX, PTRDIFF_MAX in *; lia).
    rewrite Hk, memcpy_firstn by (rewrite length_skipn; lia).
    destruct (memcpy_in_bounds m 0 (firstn (Z.to_nat (size b - n))
                                      (skipn (Z.to_nat n) m)) (size b - n))
      as (m' & Hm' & Hl & Hf);
      [lia|rewrite length_firstn, length_skipn; lia|lia|].
    rewrite Hm'. cbn [bind]. eexists. split; [reflexivity|].
    unfold contents. cbn. rewrite Ep. cbn [bytes_at].
    replace (0 + (size b - n)) with (size b - n) in Hf by lia.
    rewrite Hf, firstn_skipn_comm. change (Z.to_nat 0) with O.
    cbn [firstn app].
    replace (Z.to_nat n + Z.to_nat (size b - n))%nat
      with (Z.to_nat (size b)) by lia.
    auto.
Qed.

(** X6: [rn_buffer_erase] returns -1 on a buffer without storage and 0
    otherwise; erasing [n] bytes leaves the bytes behind the first [n], and
    erasing 0 bytes, or as many as the buffer holds or more, leaves an
    empty buffer.  The storage ([msize], class) is kept. *)
Theorem rn_buffer_erase_front b n :
  buffer_wf b -> 0 <= n ->
  (ptr b = None -> rn_buffer_erase b n = Ok (-1, b)) /\
  (ptr b <> None ->
   exists b',
     rn_buffer_erase b n = Ok (0, b') /\ msize b' = msize b /\
     class b' = class b /\
     (0 < n < size b -> contents b' = skipn (Z.to_nat n) (contents b)) /\
     (n = 0 \/ size b <= n -> contents b' = [] /\ size b' = 0)).
Proof.
  intros Hwf Hn. split.
  - intros Hnull. unfold rn_buffer_erase. now rewrite Hnull.
  - intros Hptr.
    destruct (rn_buffer_erase_eval b n Hwf Hptr Hn)
      as (b' & He & Hc & Hs & Hm & Hcl).
    exists b'. split; [exact He|]. split; [exact Hm|]. split; [exact Hcl|].
    split.
    + intros Hin. rewrite Hc.
      destruct (Z.eqb_spec n 0); [lia|].
      destruct (Z.geb_spec n (size b)); [lia|reflexivity].
    + intros Hall. rewrite Hc, Hs.
      destruct (Z.eqb_spec n 0); [auto|].
      destruct (Z.geb_spec n (size b)); [auto|lia].
Qed.

(** X7: a buffer used as a queue: after appending to a buffer that is not
    empty and erasing as many bytes as it held before, the buffer holds the
    appended bytes and nothing else. *)
Theorem rn_buffer_add_then_erase N b data n :
  room_for N b -> n = Z.of_nat (length data) -> size b + n <= N ->
  n <= INT_MAX -> 0 < size b ->
  exists b1 b2,
    rn_buffer_add b data n = Ok (n, b1) /\
    rn_buffer_erase b1 (size b) = Ok (0, b2) /\
    contents b2 = data /\ size b2 = n.
Proof.
  intros Hroom Hn Hle Hint Hpos.
  pose proof Hroom as (Hwf & _).
  destruct (rn_buffer_add_room N b data n Hroom Hn Hle)
    as (b1 & Hadd & Hc1 & Hs1 & _ & (Hwf1 & _)).
  assert (Hptr : ptr b1 <> None).
  { destruct Hwf1 as (Hsz & _). intros Hnull. rewrite Hnull in Hsz.
    cbn in Hsz. lia. }
  destruct (rn_buffer_erase_eval b1 (size b) Hwf1 Hptr ltac:(lia))
    as (b2 & He & Hc2 & Hs2 & _).
  exists b1, b2. split.
  { rewrite Hadd, to_int_id; [reflexivity|unfold INT_MAX in *; lia]. }
  split; [exact He|]. rewrite Hc2, Hs2, Hs1, Hc1.
  destruct (Z.eqb_spec (size b) 0); [lia|]. cbn [orb].
  destruct (Z.geb_spec (size b) (size b + n)) as [Hge|Hlt].
  - assert (n = 0) by lia.
    split; [|lia]. destruct data; [reflexivity|cbn in Hn; lia].
  - split; [|lia].
    rewrite skipn_app, skipn_all2 by (rewrite <- (contents_length b Hwf); lia).
    replace (Z.to_nat (size b) - length (contents b))%nat with O
      by (rewrite <- (contents_length b Hwf); lia).
    reflexivity.
Qed.

End EraseFacts.

Lemma rn_buffer_erase_front_witness :
  let b := sample_buffer (bytes_of_string "abcdef") 8 in
  exists b',
    rn_buffer_erase b 2 = Ok (0, b') /\ msize b' = 8 /\
    class b' = default_class_ptr /\
    (0 < 2 < size b -> contents b' = bytes_of_string "cdef") /\
    (2 = 0 \/ size b <= 2 -> contents b' = [] /\ size b' = 0).
Proof.
  intros b.
  apply (rn_buffer_erase_front b 2).
  - unfold buffer_wf, PTRDIFF_MAX. simpl. lia.
  - lia.
  - discriminate.
Defined.

Lemma rn_buffer_add_then_erase_witness :
  exists b1 b2,
    @rn_buffer_add sample_externals (sample_buffer (bytes_of_string "ab") 8)
      (bytes_of_string "cde") 3 = Ok (3, b1) /\
    rn_buffer_erase b1 2 = Ok (0, b2) /\
    contents b2 = bytes_of_string "cde" /\ size b2 = 3.
Proof.
  apply (@rn_buffer_add_then_erase sample_externals 8
           (sample_buffer (bytes_of_string "ab") 8) (bytes_of_string "cde") 3).
  - unfold room_for, buffer_wf, PTRDIFF_MAX. simpl. lia.
  - reflexivity.
  - simpl. lia.
  - unfold INT_MAX. lia.
  - simpl. lia.
Defined.

Lemma strlen_cstring str k :
  strlen str = Ok k ->
  k = Z.of_nat (length (cstring str)) /\
  firstn (Z.to_nat k) str = cstring str /\
  k < Z.of_nat (length str).
Proof.
  revert k. induction str as [|c str IH]; intros k; [discriminate|].
  cbn [strlen cstring]. destruct (c =? 0).
  - intros [= <-]. cbn [length firstn Z.to_nat].
    split; [reflexivity|]. split; [reflexivity|]. lia.
  - destruct (strlen str) as [n| |]; cbn [bind]; try discriminate.
    intros [= <-]. destruct (IH n eq_refl) as (Hn & Hf & Hl).
    cbn [length]. split; [lia|]. split; [|lia].
    replace (Z.to_nat (n + 1)) with (S (Z.to_nat n)) by lia.
    cbn [firstn]. now rewrite Hf.
Qed.

Lemma cstring_app_zero l rest : cstring (l ++ 0 :: rest) = cstring l.
Proof.
  induction l as [|c l IH]; [reflexivity|].
  cbn. destruct (c =? 0); [reflexivity|]. now rewrite IH.
Qed.

Lemma strlen_app_zero l rest :
  strlen (l ++ 0 :: rest) = Ok (Z.of_nat (length (cstring l))).
Proof.
  induction l as [|c l IH]; [reflexivity|].
  cbn [app strlen cstring]. destruct (c =? 0); [reflexivity|].
  rewrite IH. cbn [bind length]. f_equal. lia.
Qed.

Lemma firstn_succ_nth {A} (l : list A) d : forall k,
  (k < length l)%nat -> firstn (S k) l = firstn k l ++ [nth k l d].
Proof.
  induction l as [|x l IH]; intros [|k] Hk; cbn in *; try lia;
    [reflexivity|].
  f_equal. apply IH. lia.
Qed.

Section StringFacts.

Context {X : Externals}.

(** X8: [rn_buffer_addstr] appends the text of a C string, the bytes
    before its null byte, to a buffer with room for it, and returns the
    length of the text. *)
Theorem rn_buffer_addstr_appends N b str k :
  room_for N b -> strlen str = Ok k -> size b + k <= N -> k <= INT_MAX ->
  exists b',
    rn_buffer_addstr b str = Ok (k, b') /\
    contents b' = contents b ++ cstring str /\
    size b' = size b + k.
Proof.
  intros Hroom Hlen Hle Hint.
  destruct (strlen_cstring str k Hlen) as (Hk & Hf & Hlt).
  unfold rn_buffer_addstr. rewrite Hlen. cbn [bind].
  rewrite rn_buffer_add_firstn, Hf by lia.
  destruct (rn_buffer_add_room N b (cstring str) k Hroom Hk Hle)
    as (b' & Hadd & Hc & Hs & _).
  exists b'. rewrite Hadd, to_int_id by (unfold INT_MAX in *; lia). auto.
Qed.

(** A buffer with room for one byte more gets its null byte: afterwards
    the contents end in a null byte, and up to the first null byte they are
    what they were. *)
Lemma rn_buffer_addnull_room b :
  room_for (size b + 1) b ->
  exists b' l,
    rn_buffer_addnull b = Ok (0, b') /\ buffer_wf b' /\
    contents b' = l ++ [0] /\
    cstring (l ++ [0]) = cstring (contents b) /\
    (contents b' = contents b \/ contents b' = contents b ++ [0]).
Proof.
  intros Hroom. pose proof Hroom as ((Hs & Hm & Hp) & _).
  assert (Hnew : exists b' l,
            (r <- rn_buffer_add b [0] 1 ;;
             (let '(r0, buffer) := r in
              if r0 <? 0 then Ok (-1, buffer) else Ok (0, buffer)))
            = Ok (0, b') /\ buffer_wf b' /\
            contents b' = l ++ [0] /\
            cstring (l ++ [0]) = cstring (contents b) /\
            (contents b' = contents b \/ contents b' = contents b ++ [0])).
  { destruct (rn_buffer_add_room (size b + 1) b [0] 1 Hroom eq_refl
                ltac:(lia)) as (b' & Hadd & Hc & _ & _ & (Hwf' & _)).
    exists b', (contents b). rewrite Hadd. cbn.
    split; [reflexivity|]. split; [exact Hwf'|]. split; [exact Hc|].
    split; [apply cstring_app_zero|now right]. }
  unfold rn_buffer_addnull.
  destruct (Z.eqb_spec (size b) 0) as [H0|H0]; cbn [bind]; [exact Hnew|].
  rewrite to_size_t_id by (unfold SIZE_MAX, PTRDIFF_MAX in *; lia).
  destruct (ptr b) as [m|] eqn:Ep; cbn [bytes_at length] in *; [|lia].
  unfold load.
  replace ((0 <=? size b - 1) && (size b - 1 <? Z.of_nat (length m)))
    with true by (symmetry; apply andb_true_intro; split; lia).
  cbn [bind].
  destruct (Z.eqb_spec (nth (Z.to_nat (size b - 1)) m 0) 0) as [Hz|Hz];
    cbn [negb]; [|exact Hnew].
  exists b, (firstn (Z.to_nat (size b - 1)) m).
  assert (Hc : contents b = firstn (Z.to_nat (size b - 1)) m ++ [0]).
  { unfold contents. rewrite Ep. cbn [bytes_at].
    replace (Z.to_nat (size b)) with (S (Z.to_nat (size b - 1))) by lia.
    rewrite (firstn_succ_nth m 0) by lia. now rewrite Hz. }
  split; [reflexivity|].
  split; [unfold buffer_wf; rewrite Ep; cbn [bytes_at]; lia|].
  rewrite <- Hc. auto.
Qed.

(** Contents that end in a null byte are left alone. *)
Lemma rn_buffer_addnull_kept b :
  buffer_wf b -> last (contents b) 1 = 0 -> rn_buffer_addnull b = Ok (0, b).
Proof.
  intros Hwf Hlast. pose proof Hwf as (Hs & _ & Hp).
  pose proof (contents_length b Hwf) as Hlen.
  assert (Hne : contents b <> []) by (intros E; rewrite E in Hlast; discriminate).
  pose proof (app_removelast_last 1 Hne) as Hc. rewrite Hlast in Hc.
  assert (Hr : Z.of_nat (length (removelast (contents b))) = size b - 1).
  { apply (f_equal (@length Z)) in Hc. rewrite length_app in Hc.
    cbn [length] in Hc. lia. }
  apply rn_buffer_addnull_present;
    [unfold SIZE_MAX, PTRDIFF_MAX in *; lia|].
  rewrite load_bytes_at by lia. f_equal.
  assert (Hn : nth (Z.to_nat (size b - 1)) (contents b) 0 = 0).
  { rewrite Hc.
    replace (Z.to_nat (size b - 1)) with (length (removelast (contents b)))
      by lia.
    apply nth_middle. }
  unfold contents in Hn. rewrite nth_firstn in Hn.
  destruct (Nat.ltb_spec (Z.to_nat (size b - 1)) (Z.to_nat (size b)));
    [exact Hn|lia].
Qed.

(** X9: [rn_buffer_tostr] on a buffer with room for one byte more returns
    a pointer, never [NULL], to a string that ends inside the buffer: its
    text is the contents of the buffer up to their first null byte, and
    the contents are as before, with a null byte behind them if they did
    not end in one. *)
Theorem rn_buffer_tostr_terminated b :
  room_for (size b + 1) b ->
  exists m b',
    rn_buffer_tostr b = Ok (Some m, b') /\ ptr b' = Some m /\
    strlen m = Ok (Z.of_nat (length (cstring (contents b)))) /\
    cstring m = cstring (contents b) /\
    (contents b' = contents b \/ contents b' = contents b ++ [0]) /\
    (last (contents b) 1 = 0 -> contents b' = contents b) /\
    (last (contents b) 1 <> 0 -> contents b' = contents b ++ [0]).
Proof.
  intros Hroom.
  destruct (rn_buffer_addnull_room b Hroom)
    as (b' & l & Hnull & (Hs & _) & Hc & Hcs & Hor).
  assert (Hwhich : (last (contents b) 1 = 0 -> contents b' = contents b) /\
                   (last (contents b) 1 <> 0 ->
                    contents b' = contents b ++ [0])).
  { split.
    - intros Hlast.
      rewrite (rn_buffer_addnull_kept b (proj1 Hroom) Hlast) in Hnull.
      now injection Hnull as <-.
    - intros Hlast. destruct Hor as [Hsame|Happ]; [|exact Happ].
      exfalso. apply Hlast. rewrite <- Hsame, Hc. apply last_last. }
  assert (Hsplit : bytes_at (ptr b')
                   = l ++ 0 :: skipn (Z.to_nat (size b')) (bytes_at (ptr b'))).
  { rewrite <- (firstn_skipn (Z.to_nat (size b')) (bytes_at (ptr b'))) at 1.
    fold (contents b'). rewrite Hc, <- app_assoc. reflexivity. }
  destruct (ptr b') as [m|] eqn:Ep;
    [|cbn in Hsplit; destruct l; discriminate].
  cbn [bytes_at] in Hsplit.
  exists m, b'. unfold rn_buffer_tostr. rewrite Hnull. cbn. rewrite Ep.
  split; [reflexivity|]. split; [reflexivity|].
  rewrite <- Hcs, (cstring_app_zero l []). rewrite Hsplit at 1 2.
  rewrite strlen_app_zero, cstring_app_zero. auto.
Qed.

End StringFacts.

Lemma rn_buffer_addstr_appends_witness :
  exists b',
    @rn_buffer_addstr sample_externals (sample_buffer (bytes_of_string "ab") 2)
      (bytes_of_string "cd" ++ [0; 120]) = Ok (2, b') /\
    contents b' = bytes_of_string "ab" ++ bytes_of_string "cd" /\
    size b' = 2 + 2.
Proof.
  apply (@rn_buffer_addstr_appends sample_externals 16
           (sample_buffer (bytes_of_string "ab") 2)
           (bytes_of_string "cd" ++ [0; 120]) 2).
  - split; [unfold buffer_wf, PTRDIFF_MAX; simpl; lia|].
    split; [unfold PTRDIFF_MAX; lia|].
    right. apply sample_class_grows. unfold sample_maxsize. lia.
  - reflexivity.
  - simpl. lia.
  - unfold INT_MAX. lia.
Defined.

Lemma rn_buffer_tostr_terminated_witness :
  let b := sample_buffer (bytes_of_string "12") 2 in
  exists m b',
    @rn_buffer_tostr sample_externals b = Ok (Some m, b') /\
    ptr b' = Some m /\
    strlen m = Ok 2 /\
    cstring m = bytes_of_string "12" /\
    (contents b' = contents b \/ contents b' = contents b ++ [0]) /\
    (last (contents b) 1 = 0 -> contents b' = contents b) /\
    (last (contents b) 1 <> 0 -> contents b' = contents b ++ [0]).
Proof.
  intros b.
  apply (@rn_buffer_tostr_terminated sample_externals b).
  split; [unfold buffer_wf, PTRDIFF_MAX; simpl; lia|].
  split; [unfold PTRDIFF_MAX; simpl; lia|].
  right. apply sample_class_grows. unfold sample_maxsize. simpl. lia.
Defined.

(** ** Creating and duplicating *)

Section DupFacts.

Context {X : Externals}.

(** An append that fits in the storage leaves [msize] and the class as
    they are. *)
Lemma rn_buffer_add_fits b data n r b' :
  0 <= size b -> 0 <= n -> size b + n <= msize b <= SIZE_MAX ->
  rn_buffer_add b data n = Ok (r, b') ->
  msize b' = msize b /\ class b' = class b.
Proof.
  intros Hs Hn Hfit. unfold rn_buffer_add.
  rewrite to_size_t_id by lia.
  destruct (Z.gtb_spec (n + size b) (msize b)); [lia|]. cbn.
  destruct (memcpy (ptr b) (size b) data n) as [p| |]; cbn;
    try discriminate.
  intros [= _ <-]. auto.
Qed.

(** X10: [rn_buffer_dup_class] returns [NULL] for a class without
    [malloc] (the static class is one); a duplicate it returns holds the
    same bytes as the buffer, belongs to the class asked for, has the
    [msize] of the buffer, or its size when that is 0, is well formed, and
    compares equal to the buffer. *)
Theorem rn_buffer_dup_class_copies b c :
  buffer_wf b -> malloc_sized (deref c) ->
  (malloc (deref c) = None -> rn_buffer_dup_class b c = Ok None) /\
  (forall b',
     rn_buffer_dup_class b c = Ok (Some b') ->
     size b' = size b /\ contents b' = contents b /\ class b' = c /\
     msize b' = (if msize b =? 0 then size b else msize b) /\
     buffer_wf b' /\ rn_buffer_cmp b' b = Ok 0).
Proof.
  intros Hwf Hsized. pose proof Hwf as (Hs & Hm & Hp). split.
  { intros Hnone. unfold rn_buffer_dup_class. now rewrite Hnone. }
  intros b'. unfold rn_buffer_dup_class.
  destruct (malloc (deref c)) as [alloc|] eqn:Ea; [|discriminate].
  destruct malloc_structure; [|discriminate]. cbn [negb].
  set (nb := set_class (if msize b =? 0 then set_msize b (size b) else b) c).
  assert (Hnm : msize nb = (if msize b =? 0 then size b else msize b))
    by (unfold nb; now destruct (msize b =? 0)).
  assert (Hns : size nb = size b /\ class nb = c)
    by (unfold nb; now destruct (msize b =? 0)).
  clearbody nb.
  destruct (match init (deref c) with
            | Some f => negb (f nb =? 0)
            | None => false
            end); [discriminate|].
  destruct (alloc nb (msize nb)) as [p|] eqn:Ep; [|discriminate].
  assert (Hlen : Z.of_nat (length p) = msize nb).
  { apply (Hsized alloc nb (msize nb) p Ea Ep).
    rewrite Hnm. destruct (msize b =? 0); lia. }
  rewrite memcpy_firstn by lia.
  destruct (memcpy (Some p) 0 (firstn (Z.to_nat (size b)) (bytes_at (ptr b)))
              (size b)) as [p'| |] eqn:Ec; cbn [bind]; try discriminate.
  intros [= <-].
  assert (Hdl : size b = Z.of_nat (length (firstn (Z.to_nat (size b))
                                             (bytes_at (ptr b)))))
    by (rewrite length_firstn; lia).
  assert (Hres : length (bytes_at p') = length p /\
                 firstn (Z.to_nat (size b)) (bytes_at p') = contents b /\
                 size b <= Z.of_nat (length p)).
  { destruct (Z.eq_dec (size b) 0) as [H0|H0].
    - unfold memcpy in Ec. rewrite H0 in Ec. cbn in Ec. injection Ec as <-.
      rewrite H0. unfold contents. rewrite H0. cbn. repeat split. lia.
    - destruct (memcpy_inv p 0 _ (size b) p' ltac:(lia) Hdl Ec) as [Hin|];
        [|lia].
      destruct (memcpy_in_bounds p 0 _ (size b) ltac:(lia) Hdl Hin)
        as (m' & Hm' & Hl & Hf).
      assert (p' = Some m') as -> by congruence. cbn [bytes_at].
      replace (0 + size b) with (size b) in Hf by lia.
      rewrite Hf. change (Z.to_nat 0) with O. cbn [firstn app].
      repeat split; [exact Hl|lia]. }
  destruct Hres as (Hl' & Hc' & Hfit).
  destruct Hns as [Hns Hnc].
  assert (Hwf' : buffer_wf (set_ptr nb p')).
  { unfold buffer_wf, PTRDIFF_MAX in *. cbn [set_ptr ptr size msize].
    rewrite Hl', Hns. rewrite Hnm in *.
    destruct (Z.eqb_spec (msize b) 0); lia. }
  assert (Hcont : contents (set_ptr nb p') = contents b)
    by (unfold contents at 1; cbn; now rewrite Hns).
  cbn. split; [exact Hns|]. split; [exact Hcont|]. split; [exact Hnc|].
  split; [exact Hnm|]. split; [exact Hwf'|].
  destruct (rn_buffer_cmp_zero_iff (set_ptr nb p') b Hwf' Hwf)
    as (r & Hr & Hz); [cbn; lia|].
  rewrite Hr. f_equal. apply Hz. cbn. auto.
Qed.

(** X11: for a class that has no [malloc], no [init] and an initial size
    of 0, [rn_buffer_create] returns [NULL] when [calloc] has no memory for
    the structure; when it has, the buffer is created without storage, and
    the first append gives it storage through [realloc]: afterwards it
    holds the appended bytes. *)
Theorem rn_buffer_create_lazy c N data n :
  malloc (deref c) = None -> init (deref c) = None ->
  inisize (deref c) = 0 -> grows_to c N ->
  n = Z.of_nat (length data) -> n <= N <= PTRDIFF_MAX -> n <= INT_MAX ->
  (calloc_structure = false -> rn_buffer_create (Some c) = None) /\
  (calloc_structure = true ->
   exists b b',
     rn_buffer_create (Some c) = Some b /\ ptr b = None /\ size b = 0 /\
     rn_buffer_add b data n = Ok (n, b') /\ contents b' = data).
Proof.
  intros Hm Hi Hini Hgrow Hn HN Hint. unfold rn_buffer_create. split.
  { now intros ->. }
  intros ->. cbn [negb].
  destruct (rn_buffer_add_room N (mk_buffer None 0 0 c) data n)
    as (b' & Hadd & Hc & _); [|exact Hn|cbn; lia|].
  { split; [unfold buffer_wf, PTRDIFF_MAX; cbn; lia|].
    split; [lia|]. now right. }
  exists (mk_buffer None 0 0 c), b'.
  rewrite Hm, Hi, Hini.
  split; [reflexivity|]. split; [reflexivity|]. split; [reflexivity|].
  rewrite Hadd, to_int_id by (unfold INT_MAX in *; lia).
  split; [reflexivity|exact Hc].
Qed.

(** X12: [rn_buffer_create] with no class uses the default class.  The
    result is [NULL] when [calloc] has no memory for the structure, and
    when the [malloc] of the class fails.  When [calloc] gives the
    structure and the [malloc] of the class an object of the initial size,
    the buffer is empty and well formed with that much storage, and an
    append that fits in it does not touch [msize]. *)
Theorem rn_buffer_create_default data n :
  let fresh := mk_buffer None 0 RN_BUFFER_HELPER_INISIZE default_class_ptr in
  n = Z.of_nat (length data) ->
  n <= RN_BUFFER_HELPER_INISIZE <= PTRDIFF_MAX -> n <= INT_MAX ->
  (calloc_structure = false -> rn_buffer_create None = None) /\
  (rn_buffer_helper_malloc fresh RN_BUFFER_HELPER_INISIZE = None ->
   rn_buffer_create None = None) /\
  (calloc_structure = true ->
   forall p,
     rn_buffer_helper_malloc fresh RN_BUFFER_HELPER_INISIZE = Some p ->
     Z.of_nat (length p) = RN_BUFFER_HELPER_INISIZE ->
     exists b b',
       rn_buffer_create None = Some b /\ buffer_wf b /\ size b = 0 /\
       msize b = RN_BUFFER_HELPER_INISIZE /\
       rn_buffer_add b data n = Ok (n, b') /\ contents b' = data /\
       msize b' = RN_BUFFER_HELPER_INISIZE).
Proof.
  intros fresh Hn Hini Hint. unfold rn_buffer_create.
  split; [now intros ->|].
  split; [intros Hnone; destruct calloc_structure; [|reflexivity]; cbn;
          fold fresh; now rewrite Hnone|].
  intros -> p. cbn. fold fresh. intros -> Hlen.
  assert (Hwf : buffer_wf (set_ptr fresh (Some p)))
    by (unfold buffer_wf, PTRDIFF_MAX in *; cbn; lia).
  destruct (rn_buffer_add_room RN_BUFFER_HELPER_INISIZE
              (set_ptr fresh (Some p)) data n)
    as (b' & Hadd & Hc & _); [|exact Hn|cbn; lia|].
  { split; [exact Hwf|]. split; [lia|]. left. cbn. lia. }
  assert (Hexact : rn_buffer_add (set_ptr fresh (Some p)) data n = Ok (n, b'))
    by (rewrite Hadd, to_int_id; [reflexivity|unfold INT_MAX in *; lia]).
  exists (set_ptr fresh (Some p)), b'.
  split; [reflexivity|]. split; [exact Hwf|].
  split; [reflexivity|]. split; [reflexivity|].
  split; [exact Hexact|]. split; [exact Hc|].
  apply (rn_buffer_add_fits (set_ptr fresh (Some p)) data n n b');
    cbn; unfold SIZE_MAX, PTRDIFF_MAX in *; auto; lia.
Qed.

End DupFacts.

Lemma sample_malloc_sized :
  malloc_sized (@deref sample_externals default_class_ptr).
Proof.
  intros alloc b n p [= <-] [= <-] Hn. rewrite repeat_length. lia.
Qed.

Lemma rn_buffer_dup_class_copies_witness :
  let b := static_text "ab" in
  (malloc (@deref sample_externals default_class_ptr) = None ->
   @rn_buffer_dup_class sample_externals b default_class_ptr = Ok None) /\
  (forall b',
     @rn_buffer_dup_class sample_externals b default_class_ptr
     = Ok (Some b') ->
     size b' = size b /\ contents b' = contents b /\
     class b' = default_class_ptr /\
     msize b' = (if msize b =? 0 then size b else msize b) /\
     buffer_wf b' /\ rn_buffer_cmp b' b = Ok 0).
Proof.
  intros b.
  apply (@rn_buffer_dup_class_copies sample_externals b default_class_ptr).
  - unfold buffer_wf, PTRDIFF_MAX. simpl. lia.
  - exact sample_malloc_sized.
Defined.

(** The policy and [realloc] of the sample class serve every request up
    to the cap, in whatever class they are used. *)
Lemma sample_policy_grows (X : Externals) c N :
  growthsize (deref c) = Some sample_growthsize ->
  realloc (deref c) = Some sample_realloc ->
  N <= sample_maxsize -> grows_to c N.
Proof.
  intros Hg Hr HN. exists sample_growthsize, sample_realloc.
  split; [exact Hg|]. split; [exact Hr|].
  intros b n _ (Hs & _ & Hp) Hn.
  assert (Hgr : n <= sample_growthsize b n <= sample_maxsize).
  { unfold sample_growthsize, sample_maxsize, to_size_t in *.
    rewrite Z.mod_small by lia.
    destruct (Z.geb_spec (n * 2) 4096); lia. }
  split; [lia|]. unfold sample_realloc. eexists. split; [reflexivity|].
  rewrite resize_length by lia.
  split; [unfold sample_maxsize, PTRDIFF_MAX in *; lia|].
  unfold contents. apply resize_keeps; lia.
Qed.

Lemma rn_buffer_create_lazy_witness :
  exists b b',
    @rn_buffer_create lazy_externals (Some (user_class_ptr 0)) = Some b /\
    ptr b = None /\ size b = 0 /\
    @rn_buffer_add lazy_externals b [1; 2; 3] 3 = Ok (3, b') /\
    contents b' = [1; 2; 3].
Proof.
  apply (@rn_buffer_create_lazy lazy_externals (user_class_ptr 0) 16
           [1; 2; 3] 3); try reflexivity.
  - apply sample_policy_grows; try reflexivity. unfold sample_maxsize. lia.
  - unfold PTRDIFF_MAX. lia.
  - unfold INT_MAX. lia.
Defined.

Lemma rn_buffer_create_default_witness :
  @rn_buffer_create exhausted_externals None = None /\
  exists b b',
    @rn_buffer_create sample_externals None = Some b /\ buffer_wf b /\
    size b = 0 /\ msize b = 8 /\
    @rn_buffer_add sample_externals b (bytes_of_string "abc") 3 = Ok (3, b') /\
    contents b' = bytes_of_string "abc" /\ msize b' = 8.
Proof.
  split.
  - destruct (@rn_buffer_create_default exhausted_externals
                (bytes_of_string "abc") 3 eq_refl) as [H _].
    + unfold PTRDIFF_MAX. change RN_BUFFER_HELPER_INISIZE with 8. lia.
    + unfold INT_MAX. lia.
    + apply H. reflexivity.
  - destruct (@rn_buffer_create_default sample_externals
                (bytes_of_string "abc") 3 eq_refl) as (_ & _ & H).
    + unfold PTRDIFF_MAX. change RN_BUFFER_HELPER_INISIZE with 8. lia.
    + unfold INT_MAX. lia.
    + apply (H eq_refl (repeat 0 8%nat)); reflexivity.
Defined.

(** ** The conversions *)

Section ConversionFacts.

Context {X : Externals}.





End ConversionFacts.




(** ** Comparisons with strings, and without case *)

Lemma to_char_small z : -128 <= z < 128 -> to_char z = z.
Proof.
  unfold to_char. intros Hz. Z.to_euclidean_division_equations. lia.
Qed.

Lemma to_char_byte c :
  is_byte c ->
  (c < 128 /\ to_char c = c) \/ (128 <= c /\ to_char c = c - 256).
Proof.
  unfold is_byte, to_char. intros Hc.
  Z.to_euclidean_division_equations. lia.
Qed.

Lemma to_char_diff x y :
  is_byte x -> is_byte y -> (to_char x - to_char y = 0 <-> x = y).
Proof.
  intros Hx Hy. pose proof Hx as Hx'. pose proof Hy as Hy'.
  apply to_char_byte in Hx', Hy'. unfold is_byte in *. lia.
Qed.

(** The two characters that leave the [switch] of [rn_buffer_casecmp] are
    equal exactly when the bytes are equal once in lower case. *)
Lemma casecmp_switch_eq x y :
  is_byte x -> is_byte y ->
  fst (casecmp_switch (to_char x) (to_char y))
  = snd (casecmp_switch (to_char x) (to_char y))
  <-> tolower x = tolower y.
Proof.
  intros Hx Hy. pose proof Hx as Hx'. pose proof Hy as Hy'.
  apply to_char_byte in Hx', Hy'. unfold is_byte in *.
  unfold casecmp_switch, tolower.
  destruct Hx' as [(Hxs & ->)|(Hxs & ->)], Hy' as [(Hys & ->)|(Hys & ->)];
    repeat match goal with
           | |- context [?a <=? ?b] => destruct (Z.leb_spec a b)
           end;
    cbn [andb fst snd]; try rewrite to_char_small by lia; lia.
Qed.

Lemma nth_contents b k :
  (k < Z.to_nat (size b))%nat ->
  nth k (contents b) 0 = nth k (bytes_at (ptr b)) 0.
Proof.
  intros Hk. unfold contents. rewrite nth_firstn.
  destruct (Nat.ltb_spec k (Z.to_nat (size b))); [reflexivity|lia].
Qed.

(** The [for] loop of [rn_buffer_casecmp] over [todo] places of both
    buffers: it ends without a result when they agree without case, and
    returns a difference that is not zero at the first place where they do
    not. *)
Lemma casecmp_for_spec b1 b2 todo :
  buffer_wf b1 -> buffer_wf b2 ->
  Forall is_byte (contents b1) -> Forall is_byte (contents b2) ->
  forall i, 0 <= i -> i + Z.of_nat todo <= size b1 ->
    i + Z.of_nat todo <= size b2 ->
  exists r,
    casecmp_for todo i b1 b2 = Ok r /\
    match r with
    | None =>
        forall k, (Z.to_nat i <= k < Z.to_nat i + todo)%nat ->
          tolower (nth k (contents b1) 0) = tolower (nth k (contents b2) 0)
    | Some d =>
        d <> 0 /\
        exists k, (Z.to_nat i <= k < Z.to_nat i + todo)%nat /\
          tolower (nth k (contents b1) 0) <> tolower (nth k (contents b2) 0)
    end.
Proof.
  intros (Hs1 & _) (Hs2 & _) Hb1 Hb2.
  induction todo as [|todo IH]; intros i Hi H1 H2.
  - exists None. split; [reflexivity|]. intros k Hk. lia.
  - cbn [casecmp_for]. unfold rn_buffer_ptr.
    rewrite !load_bytes_at by lia. cbn [bind].
    rewrite <- !nth_contents by lia.
    pose proof (nth_is_byte (contents b1) (Z.to_nat i) Hb1) as Hx.
    pose proof (nth_is_byte (contents b2) (Z.to_nat i) Hb2) as Hy.
    pose proof (casecmp_switch_eq _ _ Hx Hy) as Hsw.
    destruct (casecmp_switch _ _) as [c1 c2]. cbn [fst snd] in Hsw.
    destruct (Z.eqb_spec c1 c2) as [Heq|Hne]; cbn [negb].
    + destruct (IH (i + 1)) as (r & Hr & Hspec); [lia|lia|lia|].
      exists r. split; [exact Hr|].
      replace (Z.to_nat (i + 1)) with (S (Z.to_nat i)) in Hspec by lia.
      destruct r as [d|].
      * destruct Hspec as (Hd & k & Hk & Hdiff).
        split; [exact Hd|]. exists k. split; [lia|exact Hdiff].
      * intros k Hk.
        destruct (Nat.eq_dec k (Z.to_nat i)) as [->|Hki];
          [now apply Hsw|apply Hspec; lia].
    + exists (Some (c1 - c2)). split; [reflexivity|]. split; [lia|].
      exists (Z.to_nat i). split; [lia|]. intros Heq. now apply Hne, Hsw.
Qed.

(** X15: on two well-formed buffers of bytes whose sizes are less than
    [2^32] apart, [rn_buffer_casecmp] returns 0 exactly when the two
    contents are equal once every letter [A]..[Z] is put in lower case. *)
Theorem rn_buffer_casecmp_zero_iff b1 b2 :
  buffer_wf b1 -> buffer_wf b2 ->
  Forall is_byte (contents b1) -> Forall is_byte (contents b2) ->
  - 2 ^ 32 < size b1 - size b2 < 2 ^ 32 ->
  exists r,
    rn_buffer_casecmp b1 b2 = Ok r /\
    (r = 0 <-> map tolower (contents b1) = map tolower (contents b2)).
Proof.
  intros Hwf1 Hwf2 Hb1 Hb2 Hd.
  pose proof (contents_length b1 Hwf1) as Hl1.
  pose proof (contents_length b2 Hwf2) as Hl2.
  pose proof Hwf1 as (Hs1 & _). pose proof Hwf2 as (Hs2 & _).
  unfold rn_buffer_casecmp, rn_buffer_size.
  set (min := if size b1 <? size b2 then size b1 else size b2).
  assert (Hmin : min = Z.min (size b1) (size b2))
    by (unfold min; destruct (Z.ltb_spec (size b1) (size b2)); lia).
  destruct (casecmp_for_spec b1 b2 (Z.to_nat min) Hwf1 Hwf2 Hb1 Hb2 0)
    as (r & Hr & Hspec); [lia|lia|lia|].
  rewrite Hr. cbn [bind]. change (Z.to_nat 0) with O in Hspec.
  destruct r as [d|].
  - exists d. split; [reflexivity|].
    destruct Hspec as (Hnz & k & Hk & Hdiff). split; [lia|].
    intros Hmap. exfalso. apply Hdiff.
    rewrite <- !(map_nth tolower). now rewrite Hmap.
  - eexists. split; [reflexivity|]. rewrite (size_diff_int _ Hd). split.
    + intros Heq.
      apply (nth_ext _ _ (tolower 0) (tolower 0));
        [rewrite !length_map; lia|].
      intros k Hk. rewrite length_map in Hk. rewrite !map_nth.
      apply Hspec. lia.
    + intros Hmap. apply (f_equal (@length Z)) in Hmap.
      rewrite !length_map in Hmap. lia.
Qed.

(** X16: [rn_buffer_strncmp] is a test for a prefix: on a well-formed
    buffer and a string of at least [len] bytes it returns 0 exactly when
    the buffer holds at least [len] bytes and its first [len] bytes are
    those of the string; what the buffer holds behind them is not looked
    at, and neither is a null byte treated as an end. *)
Theorem rn_buffer_strncmp_prefix b str len :
  buffer_wf b -> 0 <= len <= Z.of_nat (length str) -> len <= INT_MAX ->
  exists r,
    rn_buffer_strncmp b str len = Ok r /\
    (r = 0 <->
     len <= size b /\
     firstn (Z.to_nat len) (contents b) = firstn (Z.to_nat len) str).
Proof.
  intros (Hs & _ & _) Hlen Hint.
  unfold rn_buffer_strncmp, rn_buffer_size, rn_buffer_ptr, memcmp.
  cbn [bytes_at].
  destruct (Z.ltb_spec (size b) len) as [Hlt|Hge].
  - assert (Hdiff : to_int (to_size_t (size b - len)) <> 0)
      by (rewrite size_diff_int_value; unfold INT_MAX in *; lia).
    destruct (Z.eqb_spec (size b) 0) as [H0|H0].
    + cbn. eexists. split; [reflexivity|]. split; [contradiction|lia].
    + replace ((0 <=? size b)
               && (size b <=? Z.of_nat (length (bytes_at (ptr b))))
               && (size b <=? Z.of_nat (length str))) with true
        by (symmetry; rewrite !andb_true_iff, !Z.leb_le; lia).
      cbn [bind].
      destruct (Z.eqb_spec (memcmp_bytes
                  (firstn (Z.to_nat (size b)) (bytes_at (ptr b)))
                  (firstn (Z.to_nat (size b)) str)) 0) as [Hz|Hz];
        cbn [andb]; eexists; (split; [reflexivity|]);
        (split; [contradiction|lia]).
  - assert (Hpre : firstn (Z.to_nat len) (contents b)
                   = firstn (Z.to_nat len) (bytes_at (ptr b)))
      by (unfold contents; rewrite firstn_firstn; f_equal; lia).
    rewrite Hpre.
    destruct (Z.eqb_spec len 0) as [H0|H0].
    + cbn. exists 0. split; [reflexivity|]. subst len. cbn.
      split; [intros _; split; [lia|reflexivity]|reflexivity].
    + replace ((0 <=? len)
               && (len <=? Z.of_nat (length (bytes_at (ptr b))))
               && (len <=? Z.of_nat (length str))) with true
        by (symmetry; rewrite !andb_true_iff, !Z.leb_le; lia).
      cbn [bind]. rewrite andb_false_r. eexists. split; [reflexivity|].
      rewrite memcmp_bytes_zero by (rewrite !length_firstn; lia).
      split; [intros H; split; [lia|exact H]|now intros (_ & H)].
Qed.

Lemma rn_buffer_casecmp_zero_iff_witness :
  exists r,
    rn_buffer_casecmp (static_text "Content-Length")
                      (static_text "content-length") = Ok r /\
    (r = 0 <->
     map tolower (contents (static_text "Content-Length"))
     = map tolower (contents (static_text "content-length"))).
Proof.
  apply rn_buffer_casecmp_zero_iff.
  - unfold buffer_wf, PTRDIFF_MAX. simpl. lia.
  - unfold buffer_wf, PTRDIFF_MAX. simpl. lia.
  - unfold is_byte. simpl. repeat constructor; lia.
  - unfold is_byte. simpl. repeat constructor; lia.
  - simpl. lia.
Defined.

Lemma rn_buffer_strncmp_prefix_witness :
  exists r,
    rn_buffer_strncmp (static_text "GET /index") (bytes_of_string "GET ") 4
    = Ok r /\
    (r = 0 <->
     4 <= size (static_text "GET /index") /\
     firstn (Z.to_nat 4) (contents (static_text "GET /index"))
     = firstn (Z.to_nat 4) (bytes_of_string "GET ")).
Proof.
  apply rn_buffer_strncmp_prefix.
  - unfold buffer_wf, PTRDIFF_MAX. simpl. lia.
  - simpl. lia.
  - unfold INT_MAX. lia.
Defined.

Lemma cstring_app_nonzero t l :
  ~ In 0 t -> cstring (t ++ l) = t ++ cstring l.
Proof.
  induction t as [|c t IH]; intros Hnz; [reflexivity|].
  cbn [app cstring]. destruct (Z.eqb_spec c 0) as [->|_].
  - exfalso. apply Hnz. now left.
  - f_equal. apply IH. intros Hin. apply Hnz. now right.
Qed.

(** In a string the null byte is at the place its text ends, and nowhere
    before. *)
Lemma nth_text_zero text rest k :
  ~ In 0 text -> (k <= length text)%nat ->
  (nth k (text ++ 0 :: rest) 0 = 0 <-> k = length text) /\
  ((k < length text)%nat -> nth k (text ++ 0 :: rest) 0 = nth k text 0).
Proof.
  intros Hnz Hk. split; [split|].
  - intros Hz. destruct (Nat.eq_dec k (length text)) as [|Hne]; [assumption|].
    exfalso. apply Hnz. rewrite app_nth1 in Hz by lia.
    rewrite <- Hz. apply nth_In. lia.
  - intros ->. apply nth_middle.
  - intros Hlt. now apply app_nth1.
Qed.

(** The [for] loop of [rn_buffer_strcmp] on a string with the text [text]:
    it ends at the first place where the buffer ends, the text ends or the
    two differ. *)
Lemma strcmp_for_spec b text rest todo :
  buffer_wf b -> ~ In 0 text ->
  forall i, 0 <= i -> i + Z.of_nat todo = size b ->
    i <= Z.of_nat (length text) ->
  exists j,
    strcmp_for todo i b (text ++ 0 :: rest) = Ok j /\
    i <= j <= size b /\ j <= Z.of_nat (length text) /\
    (forall k, (Z.to_nat i <= k < Z.to_nat j)%nat ->
       nth k (contents b) 0 = nth k text 0) /\
    (j < size b ->
     j = Z.of_nat (length text) \/
     nth (Z.to_nat j) (contents b) 0 <> nth (Z.to_nat j) text 0).
Proof.
  intros (Hs & _) Hnz. induction todo as [|todo IH]; intros i Hi Htodo Hlen.
  - exists i. split; [reflexivity|].
    split; [lia|]. split; [lia|]. split; [intros k Hk|intros Hlt]; lia.
  - cbn [strcmp_for]. unfold rn_buffer_ptr.
    destruct (nth_text_zero text rest (Z.to_nat i) Hnz ltac:(lia))
      as (Hzero & Htext).
    rewrite (load_bytes_at (Some (text ++ 0 :: rest)))
      by (cbn [bytes_at]; rewrite length_app; cbn [length]; lia).
    cbn [bind bytes_at].
    destruct (Z.eqb_spec (nth (Z.to_nat i) (text ++ 0 :: rest) 0) 0)
      as [Hz|Hz].
    + exists i. split; [reflexivity|].
      split; [lia|]. split; [lia|]. split; [intros k Hk; lia|].
      intros _. left. apply Hzero in Hz. lia.
    + assert (Hlt : (Z.to_nat i < length text)%nat).
      { destruct (Nat.eq_dec (Z.to_nat i) (length text)) as [He|Hne];
          [|lia]. exfalso. now apply Hz, Hzero. }
      rewrite load_bytes_at by lia. cbn [bind].
      rewrite <- nth_contents by lia. rewrite (Htext Hlt).
      destruct (Z.eqb_spec (nth (Z.to_nat i) (contents b) 0)
                           (nth (Z.to_nat i) text 0)) as [Heq|Hne].
      * destruct (IH (i + 1)) as (j & Hj & Hr & Hjl & Hpre & Hstop);
          [lia|lia|lia|].
        exists j. split; [exact Hj|]. split; [lia|]. split; [exact Hjl|].
        split; [|exact Hstop]. intros k Hk.
        destruct (Nat.eq_dec k (Z.to_nat i)) as [->|Hki];
          [exact Heq|apply Hpre; lia].
      * exists i. split; [reflexivity|].
        split; [lia|]. split; [lia|]. split; [intros k Hk; lia|].
        intros _. now right.
Qed.

(** X17: [rn_buffer_strcmp] compares as C strings: on a well-formed buffer
    of bytes and a string with the text [text], it returns 0 exactly when
    the contents of the buffer up to their first null byte, or all of them
    when there is none, are [text].  A buffer that holds more behind a null
    byte still compares equal. *)
Theorem rn_buffer_strcmp_zero_iff b text rest :
  buffer_wf b -> Forall is_byte (contents b) -> Forall is_byte text ->
  ~ In 0 text ->
  exists r,
    rn_buffer_strcmp b (text ++ 0 :: rest) = Ok r /\
    (r = 0 <-> cstring (contents b) = text).
Proof.
  intros Hwf Hb Ht Hnz.
  pose proof (contents_length b Hwf) as Hlc. pose proof Hwf as (Hs & _).
  destruct (strcmp_for_spec b text rest (Z.to_nat (size b)) Hwf Hnz 0)
    as (j & Hj & Hr & Hjl & Hpre & Hstop); [lia|lia|lia|].
  unfold rn_buffer_strcmp, rn_buffer_size, rn_buffer_ptr.
  rewrite Hj. cbn [bind]. change (Z.to_nat 0) with O in Hpre.
  destruct (nth_text_zero text rest (Z.to_nat j) Hnz ltac:(lia))
    as (Hzero & Htext).
  assert (Hfirst : firstn (Z.to_nat j) (contents b)
                   = firstn (Z.to_nat j) text).
  { apply (nth_ext _ _ 0 0); [rewrite !length_firstn; lia|].
    intros k Hk. rewrite length_firstn in Hk.
    rewrite !nth_firstn.
    destruct (Nat.ltb_spec k (Z.to_nat j)); [apply Hpre; lia|reflexivity]. }
  assert (Hsub : ~ In 0 (firstn (Z.to_nat j) text))
    by (intros Hin; apply Hnz;
        rewrite <- (firstn_skipn (Z.to_nat j) text);
        apply in_or_app; now left).
  rewrite (load_bytes_at (Some (text ++ 0 :: rest)))
    by (cbn [bytes_at]; rewrite length_app; cbn [length]; lia).
  cbn [bind bytes_at].
  pose proof (nth_is_byte (text ++ 0 :: rest) (Z.to_nat j)) as Hsb.
  assert (Hstr : is_byte (nth (Z.to_nat j) (text ++ 0 :: rest) 0)).
  { destruct (Nat.eq_dec (Z.to_nat j) (length text)) as [He|Hne].
    - rewrite (proj2 Hzero He). unfold is_byte. lia.
    - rewrite Htext by lia. now apply nth_is_byte. }
  destruct (Z.geb_spec j (size b)) as [Hge|Hlt].
  - (* the buffer is at its end *)
    cbn [bind]. eexists. split; [reflexivity|].
    assert (Hall : contents b = firstn (Z.to_nat j) text)
      by (rewrite <- Hfirst; symmetry; apply firstn_all2; lia).
    assert (Hcs : cstring (contents b) = firstn (Z.to_nat j) text).
    { rewrite Hall, <- (app_nil_r (firstn _ _)) at 1.
      now rewrite cstring_app_nonzero, app_nil_r. }
    rewrite Hcs.
    assert (Hz0 : is_byte 0) by (unfold is_byte; lia).
    pose proof (to_char_diff _ _ Hstr Hz0) as Hd.
    change (to_char 0) with 0 in Hd. split.
    + intros Hr0. apply firstn_all2.
      assert (nth (Z.to_nat j) (text ++ 0 :: rest) 0 = 0) by (apply Hd; lia).
      apply Hzero in H. lia.
    + intros Heq. apply (f_equal (@length Z)) in Heq.
      rewrite length_firstn in Heq.
      assert (Z.to_nat j = length text) by lia.
      apply Hzero in H. rewrite H. reflexivity.
  - (* a place of the buffer *)
    rewrite load_bytes_at by lia. cbn [bind].
    rewrite <- nth_contents by lia.
    eexists. split; [reflexivity|].
    pose proof (nth_is_byte (contents b) (Z.to_nat j) Hb) as Hcb.
    rewrite (to_char_diff _ _ Hcb Hstr).
    destruct (nth_split (contents b) 0 (n := Z.to_nat j)) as (l1 & l2 & Hc & Hl1);
      [lia|].
    assert (Hl1' : l1 = firstn (Z.to_nat j) text).
    { rewrite <- Hfirst, Hc, <- Hl1 at 1.
      now rewrite firstn_app, Nat.sub_diag, firstn_all, app_nil_r. }
    set (c := nth (Z.to_nat j) (contents b) 0) in *. clearbody c.
    rewrite Hc, Hl1', cstring_app_nonzero by exact Hsub. cbn [cstring].
    destruct (Nat.eq_dec (Z.to_nat j) (length text)) as [He|Hne].
    + rewrite (proj2 Hzero He), He, firstn_all.
      destruct (Z.eqb_spec c 0) as [Hc0|Hc0].
      * split; [intros _; apply app_nil_r|intros _; exact Hc0].
      * split; [contradiction|]. intros Heq.
        apply (f_equal (@length Z)) in Heq.
        rewrite length_app in Heq. cbn [length] in Heq. lia.
    + rewrite Htext by lia.
      destruct (Hstop ltac:(lia)) as [Hend|Hdiff]; [lia|].
      split; [intros Heq; contradiction|].
      intros Heq. exfalso.
      destruct (Z.eqb_spec c 0) as [Hc0|Hc0].
      * rewrite app_nil_r in Heq. apply (f_equal (@length Z)) in Heq.
        rewrite length_firstn in Heq. lia.
      * apply Hdiff. rewrite <- Heq at 1.
        rewrite app_nth2 by (rewrite length_firstn; lia).
        rewrite length_firstn.
        replace (Z.to_nat j - Nat.min (Z.to_nat j) (length text))%nat
          with O by lia.
        reflexivity.
Qed.

Lemma rn_buffer_strcmp_zero_iff_witness :
  exists r,
    rn_buffer_strcmp (sample_buffer [104; 105; 0; 120] 8) ([104; 105] ++ 0 :: [])
    = Ok r /\
    (r = 0 <-> cstring (contents (sample_buffer [104; 105; 0; 120] 8))
               = [104; 105]).
Proof.
  apply rn_buffer_strcmp_zero_iff.
  - unfold buffer_wf, PTRDIFF_MAX. simpl. lia.
  - unfold is_byte. simpl. repeat constructor; lia.
  - unfold is_byte. repeat constructor; lia.
  - simpl. lia.
Defined.

(** ** Formatted output *)

(** [vsnprintf] with room for the text and its null byte stores both. *)
Lemma vsnprintf_fits p off cap text :
  Z.of_nat (length text) <= INT_MAX -> Z.of_nat (length text) < cap ->
  0 <= off ->
  off + Z.of_nat (length text) + 1 <= Z.of_nat (length (bytes_at p)) ->
  exists m',
    vsnprintf p off cap text = Ok (Some m', Z.of_nat (length text)) /\
    length m' = length (bytes_at p) /\
    firstn (Z.to_nat (off + Z.of_nat (length text) + 1)) m'
    = firstn (Z.to_nat off) (bytes_at p) ++ text ++ [0].
Proof.
  intros Hint Hcap Hoff Hin. unfold vsnprintf.
  destruct (Z.gtb_spec (Z.of_nat (length text)) INT_MAX); [lia|].
  destruct (Z.eqb_spec cap 0); [lia|].
  rewrite Z.min_l, Nat2Z.id, firstn_all by lia.
  destruct p as [m|]; [|cbn in Hin; lia]. cbn [bytes_at] in *.
  destruct (memcpy_in_bounds m off (text ++ [0])
              (Z.of_nat (length text) + 1))
    as (m' & Hm' & Hl & Hf);
    [lia|rewrite length_app; cbn [length]; lia|lia|].
  rewrite Hm'. cbn [bind]. exists m'. split; [reflexivity|].
  split; [exact Hl|]. rewrite <- Hf. f_equal. lia.
Qed.

(** [vsnprintf] without room for all of it stores [cap] bytes at most, and
    still returns the length of the text. *)
Lemma vsnprintf_truncated p off cap text :
  Z.of_nat (length text) <= INT_MAX -> 0 <= cap <= Z.of_nat (length text) ->
  0 <= off -> off + cap <= Z.of_nat (length (bytes_at p)) ->
  exists p',
    vsnprintf p off cap text = Ok (p', Z.of_nat (length text)) /\
    length (bytes_at p') = length (bytes_at p) /\
    firstn (Z.to_nat off) (bytes_at p')
    = firstn (Z.to_nat off) (bytes_at p).
Proof.
  intros Hint Hcap Hoff Hin. unfold vsnprintf.
  destruct (Z.gtb_spec (Z.of_nat (length text)) INT_MAX); [lia|].
  destruct (Z.eqb_spec cap 0) as [H0|H0].
  - exists p. auto.
  - rewrite Z.min_r by lia.
    destruct p as [m|]; [|cbn in Hin; lia]. cbn [bytes_at] in *.
    destruct (memcpy_in_bounds m off
                (firstn (Z.to_nat (cap - 1)) text ++ [0]) (cap - 1 + 1))
      as (m' & Hm' & Hl & Hf);
      [lia|rewrite length_app, length_firstn; cbn [length]; lia|lia|].
    rewrite Hm'. cbn [bind]. exists (Some m'). split; [reflexivity|].
    cbn [bytes_at]. split; [exact Hl|].
    apply (f_equal (firstn (Z.to_nat off))) in Hf.
    rewrite firstn_firstn in Hf.
    replace (Nat.min (Z.to_nat off) (Z.to_nat (off + (cap - 1 + 1))))
      with (Z.to_nat off) in Hf by lia.
    rewrite Hf, firstn_app, firstn_firstn, Nat.min_id, length_firstn.
    replace (Z.to_nat off - Nat.min (Z.to_nat off) (length m))%nat
      with O by lia.
    cbn [firstn]. apply app_nil_r.
Qed.

Section PrintFacts.

Context {X : Externals}.

(** One round of the loop is enough when the text and its null byte fit in
    the storage. *)
Lemma vprint_while_fits b text fuel :
  buffer_wf b -> size b <= msize b ->
  Z.of_nat (length text) <= INT_MAX ->
  Z.of_nat (length text) < msize b - size b ->
  exists m',
    vprint_while (S fuel) b text
    = Ok (Z.of_nat (length text), set_ptr b (Some m')) /\
    length m' = length (bytes_at (ptr b)) /\
    firstn (Z.to_nat (size b + Z.of_nat (length text) + 1)) m'
    = contents b ++ text ++ [0].
Proof.
  intros (Hs & Hm & Hp) Hsm Hint Hfit.
  assert (Hcap : to_size_t (msize b - size b) = msize b - size b)
    by (apply to_size_t_id; unfold SIZE_MAX, PTRDIFF_MAX in *; lia).
  destruct (vsnprintf_fits (ptr b) (size b) (msize b - size b) text)
    as (m' & Hv & Hl & Hf); [lia..|].
  cbn [vprint_while]. rewrite Hcap, Hv. cbn [bind set_ptr msize size].
  rewrite Hcap.
  replace (to_uint (Z.of_nat (length text))) with (Z.of_nat (length text))
    by (unfold to_uint, INT_MAX in *; symmetry; apply Z.mod_small; lia).
  destruct (Z.geb_spec (Z.of_nat (length text)) (msize b - size b)); [lia|].
  exists m'. auto.
Qed.

(** The buffer after the addition to [size], from the bytes the last
    [vsnprintf] has left. *)
Lemma vprint_stored b text m' :
  0 <= size b -> Z.of_nat (length (contents b)) = size b ->
  firstn (Z.to_nat (size b + Z.of_nat (length text) + 1)) m'
  = contents b ++ text ++ [0] ->
  firstn (Z.to_nat (size b + Z.of_nat (length text))) m'
  = contents b ++ text /\
  nth (Z.to_nat (size b + Z.of_nat (length text))) m' 1 = 0.
Proof.
  intros Hs Hlc Hf. split.
  - apply (f_equal (firstn (Z.to_nat (size b + Z.of_nat (length text)))))
      in Hf.
    rewrite firstn_firstn in Hf.
    replace (Nat.min (Z.to_nat (size b + Z.of_nat (length text)))
               (Z.to_nat (size b + Z.of_nat (length text) + 1)))
      with (Z.to_nat (size b + Z.of_nat (length text))) in Hf by lia.
    rewrite Hf.
    replace (Z.to_nat (size b + Z.of_nat (length text)))
      with (length (contents b) + length text)%nat by lia.
    apply firstn_app_exact.
  - assert (Hn : nth (Z.to_nat (size b + Z.of_nat (length text)))
                   (firstn (Z.to_nat (size b + Z.of_nat (length text) + 1))
                      m') 1 = 0).
    { rewrite Hf, app_assoc.
      replace (Z.to_nat (size b + Z.of_nat (length text)))
        with (length (contents b ++ text))
        by (rewrite length_app; lia).
      apply nth_middle. }
    rewrite nth_firstn in Hn.
    destruct (Nat.ltb_spec (Z.to_nat (size b + Z.of_nat (length text)))
                (Z.to_nat (size b + Z.of_nat (length text) + 1)));
      [exact Hn|lia].
Qed.

(** X18: [rn_buffer_vprint] with room for the text and its null byte, in
    place or by growth of the class: it returns the length of the text,
    the text is behind the old contents, the byte behind the new contents
    is a null byte which [size] does not count, and two rounds of the loop
    are enough. *)
Theorem rn_buffer_vprint_appends N b text fuel :
  room_for N b -> size b <= msize b ->
  Z.of_nat (length text) <= INT_MAX ->
  size b + Z.of_nat (length text) + 1 <= N ->
  exists b',
    rn_buffer_vprint (S (S fuel)) b text = Ok (Z.of_nat (length text), b') /\
    contents b' = contents b ++ text /\
    size b' = size b + Z.of_nat (length text) /\
    size b' < msize b' /\
    nth (Z.to_nat (size b')) (bytes_at (ptr b')) 1 = 0 /\
    class b' = class b.
Proof.
  intros (Hwf & HN & Hroom) Hsm Hint Hle.
  pose proof Hwf as (Hs & Hm & Hp).
  pose proof (contents_length b Hwf) as Hlc.
  assert (Hnew : to_size_t (size b + Z.of_nat (length text))
                 = size b + Z.of_nat (length text))
    by (apply to_size_t_id; unfold SIZE_MAX, PTRDIFF_MAX in *; lia).
  unfold rn_buffer_vprint.
  destruct (Z.ltb_spec (Z.of_nat (length text)) (msize b - size b))
    as [Hfit|Hfull].
  - destruct (vprint_while_fits b text (S fuel) Hwf Hsm Hint Hfit)
      as (m' & Hw & Hl & Hf).
    rewrite Hw. cbn [bind set_ptr size]. rewrite Hnew.
    destruct (vprint_stored b text m' ltac:(lia) Hlc Hf) as (Hc & Hz).
    eexists. split; [reflexivity|]. unfold contents. cbn.
    repeat split; try assumption; lia.
  - destruct Hroom as [Hr|Hr]; [lia|].
    destruct Hr as (grow & re & Hg & Hre & Hserve).
    assert (Hcap : to_size_t (msize b - size b) = msize b - size b)
      by (apply to_size_t_id; unfold SIZE_MAX, PTRDIFF_MAX in *; lia).
    destruct (vsnprintf_truncated (ptr b) (size b) (msize b - size b) text)
      as (p1 & Hv & Hl1 & Hf1); [lia..|].
    set (bv := set_ptr b p1).
    assert (Hwfv : buffer_wf bv)
      by (unfold buffer_wf, PTRDIFF_MAX in *; cbn; rewrite Hl1; lia).
    assert (Hcv : contents bv = contents b) by exact Hf1.
    assert (Hreq : to_size_t (size b + Z.of_nat (length text) + 1)
                   = size b + Z.of_nat (length text) + 1)
      by (apply to_size_t_id; unfold SIZE_MAX, PTRDIFF_MAX in *; lia).
    destruct (Hserve bv (size b + Z.of_nat (length text) + 1) eq_refl Hwfv)
      as (Hge & p & Hp' & Hlen & Hkeep); [cbn; lia|].
    set (b1 := set_msize (set_ptr bv (Some p))
                 (grow bv (size b + Z.of_nat (length text) + 1))).
    assert (Hwf1 : buffer_wf b1)
      by (unfold buffer_wf, PTRDIFF_MAX in *; cbn; lia).
    assert (Hc1 : contents b1 = contents b)
      by (rewrite <- Hcv, <- Hkeep; reflexivity).
    destruct (vprint_while_fits b1 text fuel Hwf1)
      as (m' & Hw & Hl & Hf); [cbn; lia|exact Hint|cbn; lia|].
    assert (Hstep : vprint_while (S (S fuel)) b text
                    = vprint_while (S fuel) b1 text).
    { cbn [vprint_while]. rewrite Hcap, Hv. cbn [bind]. fold bv.
      change (msize bv) with (msize b). change (size bv) with (size b).
      rewrite Hcap, Hreq.
      replace (to_uint (Z.of_nat (length text)))
        with (Z.of_nat (length text))
        by (unfold to_uint, INT_MAX in *; symmetry; apply Z.mod_small; lia).
      destruct (Z.geb_spec (Z.of_nat (length text)) (msize b - size b));
        [|lia].
      unfold rn_buffer_extend. change (class bv) with (class b).
      rewrite Hg, Hre.
      destruct (Z.ltb_spec (grow bv (size b + Z.of_nat (length text) + 1))
                  (size b + Z.of_nat (length text) + 1)); [lia|].
      rewrite Hp'. reflexivity. }
    rewrite Hstep, Hw. cbn [bind set_ptr size].
    change (size b1) with (size b) in *. rewrite Hnew.
    rewrite Hc1 in Hf.
    destruct (vprint_stored b text m' ltac:(lia) Hlc Hf) as (Hc & Hz).
    eexists. split; [reflexivity|]. unfold contents. cbn.
    repeat split; try assumption; lia.
Qed.

(** X19: [rn_buffer_vprint] on a buffer of the static class whose storage
    does not hold the text and its null byte: the text is cut, and yet the
    length of the whole text is returned, not -1, and added to [size],
    which then is [msize] or more: the buffer counts bytes that it does not
    hold.  The old contents stay. *)
Theorem rn_buffer_vprint_fixed_overflow b text fuel :
  buffer_wf b -> class b = static_class_ptr -> size b <= msize b ->
  Z.of_nat (length text) <= INT_MAX ->
  msize b - size b <= Z.of_nat (length text) ->
  exists b',
    rn_buffer_vprint (S fuel) b text = Ok (Z.of_nat (length text), b') /\
    size b' = size b + Z.of_nat (length text) /\
    msize b' = msize b /\ msize b' <= size b' /\
    length (bytes_at (ptr b')) = length (bytes_at (ptr b)) /\
    firstn (Z.to_nat (size b)) (bytes_at (ptr b')) = contents b.
Proof.
  intros (Hs & Hm & Hp) Hclass Hsm Hint Hfull.
  assert (Hcap : to_size_t (msize b - size b) = msize b - size b)
    by (apply to_size_t_id; unfold SIZE_MAX, PTRDIFF_MAX in *; lia).
  assert (Hnew : to_size_t (size b + Z.of_nat (length text))
                 = size b + Z.of_nat (length text))
    by (apply to_size_t_id; unfold SIZE_MAX, PTRDIFF_MAX, INT_MAX in *; lia).
  destruct (vsnprintf_truncated (ptr b) (size b) (msize b - size b) text)
    as (p1 & Hv & Hl1 & Hf1); [lia..|].
  unfold rn_buffer_vprint. cbn [vprint_while].
  rewrite Hcap, Hv. cbn [bind set_ptr msize size]. rewrite Hcap.
  replace (to_uint (Z.of_nat (length text))) with (Z.of_nat (length text))
    by (unfold to_uint, INT_MAX in *; symmetry; apply Z.mod_small; lia).
  destruct (Z.geb_spec (Z.of_nat (length text)) (msize b - size b)); [|lia].
  rewrite rn_buffer_extend_static by exact Hclass.
  change (-1 =? 0) with false. cbn [bind set_ptr size]. rewrite Hnew.
  eexists. split; [reflexivity|]. cbn. repeat split; try assumption; lia.
Qed.

(** X20: [rn_buffer_vprint] on a buffer that has bytes and no storage of
    its own ([msize = 0 < size], as [rn_buffer_static] leaves it): the
    room [msize - size] wraps around, [vsnprintf] is given all of the
    address space, and the text and its null byte are written behind the
    contents whatever is there; when the object ends before them the write
    is outside of it. *)
Theorem rn_buffer_vprint_static_outside b text fuel :
  buffer_wf b -> msize b = 0 -> 0 < size b ->
  Z.of_nat (length text) <= INT_MAX ->
  Z.of_nat (length (bytes_at (ptr b))) <= size b + Z.of_nat (length text) ->
  rn_buffer_vprint (S fuel) b text = Undefined.
Proof.
  intros (Hs & Hm & Hp) H0 Hpos Hint Hend.
  unfold rn_buffer_vprint. cbn [vprint_while]. rewrite H0.
  assert (Hcap : to_size_t (0 - size b) = 2 ^ 64 - size b).
  { unfold to_size_t, PTRDIFF_MAX in *.
    Z.to_euclidean_division_equations. lia. }
  rewrite Hcap. unfold vsnprintf.
  destruct (Z.gtb_spec (Z.of_nat (length text)) INT_MAX); [lia|].
  destruct (Z.eqb_spec (2 ^ 64 - size b) 0);
    [unfold PTRDIFF_MAX in *; lia|].
  rewrite Z.min_l by (unfold INT_MAX, PTRDIFF_MAX in *; lia).
  unfold memcpy.
  destruct (Z.eqb_spec (Z.of_nat (length text) + 1) 0); [lia|].
  destruct (ptr b) as [m|]; [|reflexivity]. cbn [bytes_at] in *.
  replace (size b + (Z.of_nat (length text) + 1) <=? Z.of_nat (length m))
    with false by (symmetry; apply Z.leb_gt; lia).
  now rewrite andb_false_r.
Qed.

End PrintFacts.

Lemma rn_buffer_vprint_appends_witness :
  exists b',
    @rn_buffer_vprint sample_externals 2
      (sample_buffer (bytes_of_string "id=") 4) (bytes_of_string "4711")
    = Ok (Z.of_nat (length (bytes_of_string "4711")), b') /\
    contents b' = bytes_of_string "id=" ++ bytes_of_string "4711" /\
    size b' = 3 + Z.of_nat (length (bytes_of_string "4711")) /\
    size b' < msize b' /\
    nth (Z.to_nat (size b')) (bytes_at (ptr b')) 1 = 0 /\
    class b' = default_class_ptr.
Proof.
  apply (@rn_buffer_vprint_appends sample_externals 8
           (sample_buffer (bytes_of_string "id=") 4)
           (bytes_of_string "4711") 0).
  - split; [unfold buffer_wf, PTRDIFF_MAX; simpl; lia|].
    split; [unfold PTRDIFF_MAX; lia|].
    right. apply sample_class_grows. unfold sample_maxsize. simpl. lia.
  - simpl. lia.
  - unfold INT_MAX. simpl. lia.
  - simpl. lia.
Defined.

Lemma rn_buffer_vprint_fixed_overflow_witness :
  exists b',
    @rn_buffer_vprint sample_externals 1
      (rn_buffer_init (Some (repeat 0 4%nat)) 4) (bytes_of_string "overflow")
    = Ok (Z.of_nat (length (bytes_of_string "overflow")), b') /\
    size b' = 0 + Z.of_nat (length (bytes_of_string "overflow")) /\
    msize b' = 4 /\ msize b' <= size b' /\
    length (bytes_at (ptr b')) = 4%nat /\
    firstn (Z.to_nat 0) (bytes_at (ptr b')) = [].
Proof.
  apply (@rn_buffer_vprint_fixed_overflow sample_externals
           (rn_buffer_init (Some (repeat 0 4%nat)) 4)
           (bytes_of_string "overflow") 0).
  - unfold buffer_wf, PTRDIFF_MAX. simpl. lia.
  - reflexivity.
  - simpl. lia.
  - unfold INT_MAX. simpl. lia.
  - simpl. lia.
Defined.

Lemma rn_buffer_vprint_static_outside_witness :
  @rn_buffer_vprint sample_externals 1 (static_text "abc")
    (bytes_of_string "d") = Undefined.
Proof.
  apply (@rn_buffer_vprint_static_outside sample_externals
           (static_text "abc") (bytes_of_string "d") 0).
  - unfold buffer_wf, PTRDIFF_MAX. simpl. lia.
  - reflexivity.
  - simpl. lia.
  - unfold INT_MAX. simpl. lia.
  - simpl. lia.
Defined.

(** ** Comparisons with strings, without case *)

Lemma In_firstn_le {A} (x : A) l n k :
  (n <= k)%nat -> In x (firstn n l) -> In x (firstn k l).
Proof.
  intros Hnk Hin.
  replace n with (Nat.min n k) in Hin by lia.
  rewrite <- firstn_firstn in Hin.
  rewrite <- (firstn_skipn n (firstn k l)). apply in_or_app. now left.
Qed.

(** [strncasecmp] on two objects of [n] bytes or more whose second has no
    null byte among its first [n]: the result is 0 exactly when the first
    [n] bytes of both are equal once in lower case. *)
Lemma strncasecmp_spec n : forall l1 l2,
  (n <= length l1)%nat -> (n <= length l2)%nat ->
  ~ In 0 (firstn n l2) ->
  exists r,
    strncasecmp l1 l2 n = Ok r /\
    (r = 0 <-> map tolower (firstn n l1) = map tolower (firstn n l2)).
Proof.
  induction n as [|n IH]; intros l1 l2 H1 H2 Hnz.
  - exists 0. split; [now destruct l1|]. cbn. tauto.
  - destruct l1 as [|c1 l1]; [cbn in H1; lia|].
    destruct l2 as [|c2 l2]; [cbn in H2; lia|].
    cbn [strncasecmp firstn map length] in *.
    destruct (Z.eqb_spec (tolower c1) (tolower c2)) as [Heq|Hne];
      cbn [negb].
    + assert (Hc2 : c2 <> 0) by (intros ->; apply Hnz; now left).
      destruct (Z.eqb_spec c1 0) as [Hc1|Hc1].
      { exfalso. apply Hc2. subst c1. revert Heq. unfold tolower.
        repeat match goal with
               | |- context [?a <=? ?b] => destruct (Z.leb_spec a b)
               end; cbn [andb]; lia. }
      destruct (IH l1 l2) as (r & Hr & Hiff);
        [lia|lia|intros Hin; apply Hnz; now right|].
      exists r. split; [exact Hr|]. rewrite Hiff, Heq. split.
      * now intros ->.
      * now intros [= ->].
    + eexists. split; [reflexivity|]. split; [lia|].
      intros [= Heq _]. contradiction.
Qed.

Lemma cstring_nonzero t : ~ In 0 t -> cstring t = t.
Proof.
  intros Hnz. rewrite <- (app_nil_r t) at 1.
  rewrite cstring_app_nonzero by exact Hnz. apply app_nil_r.
Qed.

(** X21: [rn_buffer_strcasecmp] on a well-formed buffer and a string with
    the text [text], of sizes less than [2^32] apart: the result is 0
    exactly when all of the contents and the text are equal once in lower
    case.  Unlike [rn_buffer_strcmp], a null byte in the buffer is not
    an end. *)
Theorem rn_buffer_strcasecmp_zero_iff b text rest :
  buffer_wf b -> ~ In 0 text ->
  - 2 ^ 32 < size b - Z.of_nat (length text) < 2 ^ 32 ->
  exists r,
    rn_buffer_strcasecmp b (text ++ 0 :: rest) = Ok r /\
    (r = 0 <-> map tolower (contents b) = map tolower text).
Proof.
  intros Hwf Hnz Hd. pose proof Hwf as (Hs & _).
  pose proof (contents_length b Hwf) as Hlc.
  unfold rn_buffer_strcasecmp, rn_buffer_size, rn_buffer_ptr.
  rewrite strlen_app_zero, (cstring_nonzero text Hnz). cbn [bind].
  set (min := if size b <? Z.of_nat (length text) then size b
              else Z.of_nat (length text)).
  assert (Hmin : min = Z.min (size b) (Z.of_nat (length text)))
    by (unfold min; destruct (Z.ltb_spec (size b) (Z.of_nat (length text)));
        lia).
  clearbody min.
  assert (Hft : firstn (Z.to_nat min) (text ++ 0 :: rest)
                = firstn (Z.to_nat min) text).
  { rewrite firstn_app.
    replace (Z.to_nat min - length text)%nat with O by lia.
    cbn [firstn]. apply app_nil_r. }
  assert (Hfc : firstn (Z.to_nat min) (bytes_at (ptr b))
                = firstn (Z.to_nat min) (contents b))
    by (unfold contents; rewrite firstn_firstn; f_equal; lia).
  destruct (strncasecmp_spec (Z.to_nat min) (bytes_at (ptr b))
              (text ++ 0 :: rest)) as (ret & Hret & Hiff).
  { lia. }
  { rewrite length_app. cbn [length]. lia. }
  { rewrite Hft. intros Hin. apply Hnz.
    rewrite <- (firstn_skipn (Z.to_nat min) text).
    apply in_or_app. now left. }
  rewrite Hret, Hft, Hfc in *. cbn [bind].
  destruct (Z.eqb_spec ret 0) as [Hz|Hz].
  - eexists. split; [reflexivity|]. rewrite (size_diff_int _ Hd). split.
    + intros Heq. apply Hiff in Hz.
      rewrite !firstn_all2 in Hz by lia. exact Hz.
    + intros Hmap. apply (f_equal (@length Z)) in Hmap.
      rewrite !length_map in Hmap. lia.
  - exists ret. split; [reflexivity|]. split; [contradiction|].
    intros Hmap. exfalso. apply Hz, Hiff.
    rewrite <- !firstn_map. now rewrite Hmap.
Qed.

(** X22: [rn_buffer_strncasecmp] tests for a prefix without case: on a
    well-formed buffer and a string that has [len] bytes before its null
    byte, the result is 0 exactly when the buffer holds at least [len]
    bytes and its first [len] bytes are those of the string once both are
    in lower case. *)
Theorem rn_buffer_strncasecmp_prefix b str len :
  buffer_wf b -> 0 <= len <= Z.of_nat (length str) -> len <= INT_MAX ->
  ~ In 0 (firstn (Z.to_nat len) str) ->
  exists r,
    rn_buffer_strncasecmp b str len = Ok r /\
    (r = 0 <->
     len <= size b /\
     map tolower (firstn (Z.to_nat len) (contents b))
     = map tolower (firstn (Z.to_nat len) str)).
Proof.
  intros (Hs & _ & _) Hlen Hint Hnz.
  unfold rn_buffer_strncasecmp, rn_buffer_size, rn_buffer_ptr.
  destruct (Z.ltb_spec (size b) len) as [Hlt|Hge].
  - destruct (strncasecmp_spec (Z.to_nat (size b)) (bytes_at (ptr b)) str)
      as (ret & Hret & _); [lia|lia| |].
    { intros Hin. apply Hnz.
      apply (In_firstn_le 0 str (Z.to_nat (size b))); [lia|exact Hin]. }
    rewrite Hret. cbn [bind]. rewrite andb_true_r.
    assert (Hdiff : to_int (to_size_t (size b - len)) <> 0)
      by (rewrite size_diff_int_value; unfold INT_MAX in *; lia).
    destruct (Z.eqb_spec ret 0) as [Hz|Hz]; eexists;
      (split; [reflexivity|]); (split; [contradiction|lia]).
  - destruct (strncasecmp_spec (Z.to_nat len) (bytes_at (ptr b)) str)
      as (ret & Hret & Hiff); [lia|lia|exact Hnz|].
    rewrite Hret. cbn [bind]. rewrite andb_false_r.
    exists ret. split; [reflexivity|]. rewrite Hiff.
    replace (firstn (Z.to_nat len) (contents b))
      with (firstn (Z.to_nat len) (bytes_at (ptr b)))
      by (unfold contents; rewrite firstn_firstn; f_equal; lia).
    split; [intros H; split; [lia|exact H]|now intros (_ & H)].
Qed.

Lemma rn_buffer_strcasecmp_zero_iff_witness :
  exists r,
    rn_buffer_strcasecmp (static_text "Keep-Alive")
      (bytes_of_string "keep-alive" ++ 0 :: []) = Ok r /\
    (r = 0 <-> map tolower (contents (static_text "Keep-Alive"))
               = map tolower (bytes_of_string "keep-alive")).
Proof.
  apply rn_buffer_strcasecmp_zero_iff.
  - unfold buffer_wf, PTRDIFF_MAX. simpl. lia.
  - simpl. lia.
  - simpl. lia.
Defined.

Lemma rn_buffer_strncasecmp_prefix_witness :
  exists r,
    rn_buffer_strncasecmp (static_text "HTTP/1.1 200")
      (bytes_of_string "http/" ++ [0]) 5 = Ok r /\
    (r = 0 <->
     5 <= size (static_text "HTTP/1.1 200") /\
     map tolower (firstn (Z.to_nat 5) (contents (static_text "HTTP/1.1 200")))
     = map tolower (firstn (Z.to_nat 5) (bytes_of_string "http/" ++ [0]))).
Proof.
  apply rn_buffer_strncasecmp_prefix.
  - unfold buffer_wf, PTRDIFF_MAX. simpl. lia.
  - simpl. lia.
  - unfold INT_MAX. lia.
  - simpl. lia.
Defined.

(** ** Encoding behind other bytes *)

(** X23: [rn_buffer_b64encode] appends to the destination: behind the old
    contents come the characters of the 6-bit groups of the source, and
    then the padding, which the loop computes from the size of the whole
    destination, not from the length of the text it has appended.  In a
    destination whose size was a multiple of four the appended text is
    the encoding of RFC 4648 and decodes to the source; in another one the
    padding is the one that fills the whole destination up to a multiple of
    four. *)
Theorem rn_buffer_b64encode_appends {X : Externals} dst src N fuel :
  let groups := groups0 (contents src) in
  buffer_wf src -> Forall is_byte (contents src) -> room_for N dst ->
  size dst + Z.of_nat (length groups) + 3 <= N -> (4 <= fuel)%nat ->
  exists dst',
    rn_buffer_b64encode fuel dst src = Ok (0, dst') /\
    contents dst'
    = contents dst ++ map b64_char groups
      ++ base64_padding (size dst + Z.of_nat (length groups)) /\
    (size dst mod 4 = 0 ->
     base64_decode
       (map b64_char groups
        ++ base64_padding (size dst + Z.of_nat (length groups)))
     = Some (contents src)).
Proof.
  intros groups Hsrc Hbytes Hroom HN Hfuel.
  pose proof (contents_length src Hsrc) as Hlen.
  unfold rn_buffer_b64encode, rn_buffer_size.
  replace (Z.to_nat (size src)) with (length (contents src)) by lia.
  destruct (b64_for_room N src Hsrc (contents src) 0 0 0 dst Hroom eq_refl
              ltac:(lia) ltac:(lia) ltac:(lia))
    as (dst1 & -> & Hc1 & Hs1 & Hroom1);
    rewrite for_indexes_start in * by assumption; [fold groups; lia|].
  cbn [bind]. fold groups in Hc1, Hs1.
  pose proof (Z.mod_pos_bound (- size dst1) 4 ltac:(lia)) as Hmod.
  destruct (b64_pad_room N fuel dst1 Hroom1) as (dst' & -> & Hc');
    [lia|lia|].
  exists dst'. split; [reflexivity|]. split.
  - now rewrite Hc', Hc1, Hs1, <- app_assoc.
  - intros H4.
    replace (base64_padding (size dst + Z.of_nat (length groups)))
      with (base64_padding (Z.of_nat (length groups))).
    + now apply base64_decode_groups.
    + unfold base64_padding. do 2 f_equal.
      Z.to_euclidean_division_equations. lia.
Qed.

Lemma rn_buffer_b64encode_appends_witness :
  let dst := sample_buffer (bytes_of_string "x") 8 in
  let src := static_text "abc" in
  exists dst',
    @rn_buffer_b64encode sample_externals 4 dst src = Ok (0, dst') /\
    contents dst'
    = contents dst ++ map b64_char (groups0 (contents src))
      ++ base64_padding (size dst
                         + Z.of_nat (length (groups0 (contents src)))) /\
    (size dst mod 4 = 0 ->
     base64_decode
       (map b64_char (groups0 (contents src))
        ++ base64_padding (size dst
                           + Z.of_nat (length (groups0 (contents src)))))
     = Some (contents src)).
Proof.
  intros dst src.
  apply (@rn_buffer_b64encode_appends sample_externals dst src 8 4).
  - unfold buffer_wf, PTRDIFF_MAX. simpl. lia.
  - unfold is_byte. simpl. repeat constructor; lia.
  - split; [unfold buffer_wf, PTRDIFF_MAX; simpl; lia|].
    split; [unfold PTRDIFF_MAX; lia|].
    left. simpl. lia.
  - simpl. lia.
  - lia.
Defined.

Lemma rn_addr_getport_network_order_witness :
  let addr := bytes_of_u16 little_endian AF_INET
              ++ [8080 / 256; 8080 mod 256] ++ [127; 0; 0; 1] in
  rn_addr_getport little_endian addr = htons little_endian 8080 /\
  ntohs little_endian (rn_addr_getport little_endian addr) = 8080.
Proof.
  apply (rn_addr_getport_network_order little_endian AF_INET 8080
           [127; 0; 0; 1]).
  lia.
Defined.
